(** * vega-assistant: the data-node setup interview and provisioning pipeline

    A shallow embedding of [generator/ui.go] (the interview primitives
    [AskSQLCredentials] and [printSummary]) and of the data-node generator
    ([DataNodeGenerator.Run] and its steps [initNode], [prepareVisorHome],
    [copyBinaries], [updateConfigs], [downloadGenesis]).

    Go strings are byte sequences and are modelled by [string] (a list of
    8-bit [ascii]); Go's [int] is the 64-bit integer of the released
    platforms (amd64, arm64) and is modelled by [Z] with its range written
    out where the code depends on it; a [map[string]interface{}] is a
    [gmap string Value].  Calls to the logger only print and are left out. *)

From Stdlib Require Import ZArith String Ascii List Lia Bool DecimalString DecimalPos PrimFloat.
From stdpp Require Import base option gmap strings list fin_maps.

Import ListNotations.
Local Open Scope string_scope.
Local Open Scope Z_scope.

(** ** Go values: errors *)

Inductive NumErrKind : Type :=
| ErrSyntax   (* strconv.ErrSyntax: "invalid syntax" *)
| ErrRange.   (* strconv.ErrRange:  "value out of range" *)

(** A Go [error] value.  [wrapError prefix inner] is what
    [fmt.Errorf(prefix + "%w", inner)] builds: its text is [prefix]
    followed by the text of [inner], and [errors.Unwrap] returns [inner]. *)
Inductive error : Type :=
| errorString (msg : string)
| wrapError (prefix : string) (inner : error)
| NumError (func num : string) (kind : NumErrKind)
| InputError (inner : error).

Definition fmt_Errorf_w (prefix : string) (err : error) : error :=
  wrapError prefix err.

Definition Unwrap (e : error) : option error :=
  match e with
  | wrapError _ inner => Some inner
  | InputError inner => Some inner
  | _ => None
  end.

Definition NewInputError (err : error) : error := InputError err.

(** ** Go standard library: strconv, strings, fmt *)

Definition byte_val (c : ascii) : Z := Z.of_N (N_of_ascii c).

Definition maxUint64 : Z := 2 ^ 64 - 1.

(** The digit loop of [strconv.ParseUint(s, 10, 64)]: a byte that is not a
    decimal digit is a syntax error, an overflow of the accumulator is a
    range error, whichever the scan meets first. *)
Fixpoint parseDigits (s : string) (n : Z) : NumErrKind + Z :=
  match s with
  | EmptyString => inr n
  | String c rest =>
      let d := byte_val c - 48 in
      if (0 <=? d) && (d <=? 9) then
        if maxUint64 / 10 + 1 <=? n then inl ErrRange
        else
          let n1 := n * 10 + d in
          if maxUint64 <? n1 then inl ErrRange else parseDigits rest n1
      else inl ErrSyntax
  end.

Definition ParseUint (s : string) : NumErrKind + Z :=
  match s with
  | EmptyString => inl ErrSyntax
  | _ => parseDigits s 0
  end.

(** [strconv.ParseInt(s, 10, 0)] on a platform whose [int] has 64 bits. *)
Definition ParseInt (s : string) : NumErrKind + Z :=
  match s with
  | EmptyString => inl ErrSyntax
  | String c rest =>
      let neg := Ascii.eqb c "-" in
      let body := if Ascii.eqb c "+" || Ascii.eqb c "-" then rest else s in
      match ParseUint body with
      | inl k => inl k
      | inr un =>
          let cutoff := 2 ^ 63 in
          if negb neg && (cutoff <=? un) then inl ErrRange
          else if neg && (cutoff <? un) then inl ErrRange
          else inr (if neg then - un else un)
      end
  end.

(** [strconv.Atoi]: [ParseInt(s, 10, 0)] converted to [int]. *)
Definition Atoi (s : string) : error + Z :=
  match ParseInt s with
  | inl k => inl (NumError "Atoi" s k)
  | inr n => inr n
  end.

(** [strings.Split(s, sep)] for a separator of one byte. *)
Fixpoint Split_go (sep : ascii) (s : string) (cur : string) : list string :=
  match s with
  | EmptyString => [cur]
  | String c rest =>
      if Ascii.eqb c sep then cur :: Split_go sep rest ""
      else Split_go sep rest (cur +:+ String c "")
  end.

Definition Split (s : string) (sep : ascii) : list string := Split_go sep s "".

(** [strings.Join(elems, sep)]. *)
Definition Join (elems : list string) (sep : string) : string :=
  String.concat sep elems.

(** [strings.ToLower] on the ASCII letters.  Go also lowers letters outside
    ASCII, but none of those becomes a letter of "yes" or "no", the only
    strings the code compares a lowered answer with. *)
Definition lower_byte (c : ascii) : ascii :=
  let n := N_of_ascii c in
  if (65 <=? n)%N && (n <=? 90)%N then ascii_of_N (n + 32) else c.

Fixpoint ToLower (s : string) : string :=
  match s with
  | EmptyString => EmptyString
  | String c rest => String (lower_byte c) (ToLower rest)
  end.

(** The verb [%c] of [fmt.Sprintf] applied to a byte [b]: the UTF-8
    encoding of the code point U+00[b]. *)
Definition Sprintf_c (b : ascii) : string :=
  let n := N_of_ascii b in
  if (n <? 128)%N then String b ""
  else String (ascii_of_N (192 + n / 64)) (String (ascii_of_N (128 + n mod 64)) "").

(** The verb [%d] applied to an [int]. *)
Definition Sprintf_d (n : Z) : string := NilZero.string_of_int (Z.to_int n).

(** Indexing a string, [s[i]]: [None] stands for the run-time panic
    "index out of range". *)
Definition byte_at (s : string) (i : Z) : option ascii :=
  if i <? 0 then None else String.get (Z.to_nat i) s.

Definition len (s : string) : Z := Z.of_nat (String.length s).

(** ** The settings record

    [StartupMode], [types.SQLCredentials] and [GenerateSettings] are declared
    outside the files at hand; their fields are the ones the code reads. *)

Inductive StartupMode : Type :=
| StartFromBlock0
| StartFromNetworkHistory.

Definition StartupMode_eqb (a b : StartupMode) : bool :=
  match a, b with
  | StartFromBlock0, StartFromBlock0 => true
  | StartFromNetworkHistory, StartFromNetworkHistory => true
  | _, _ => false
  end.

Record types_SQLCredentials : Type := mkSQLCredentials {
  Host : string;
  User : string;
  Port : Z;
  Pass : string;
  DatabaseName : string
}.

Record Snapshot : Type := mkSnapshot {
  BlockHeight : string;
  BlockHash : string
}.

Record GenerateSettings : Type := mkGenerateSettings {
  Mode : StartupMode;
  VisorHome : string;
  VegaHome : string;
  TendermintHome : string;
  DataNodeHome : string;
  SQLCredentials : types_SQLCredentials;
  MainnetVersion : string;
  MainnetChainId : string;
  LatestSnapshot : Snapshot
}.

(** What a Go function call ends with: a value, a returned error, or a
    run-time panic. *)
Inductive outcome (A : Type) : Type :=
| Ok (a : A)
| Err (e : error)
| Panic (msg : string).
Arguments Ok {A} a.
Arguments Err {A} e.
Arguments Panic {A} msg.

(** ** The terminal (package go-input)

    The operator is a script of inputs read one per prompt: a line of text,
    or a failed read (an interrupt).  The reader of go-input does not report
    the end of the input: a read past the end of the script gives the empty
    line, again and again.  A prompt that asks again on the empty line then
    never returns, which is the result [None]. *)

Inductive Input : Type :=
| Line (text : string)
| Interrupted (err : error).

Definition UI : Type := list Input.

Record Options : Type := mkOptions {
  Default : string;
  Required : bool;
  Loop : bool;
  ValidateFunc : option (string -> option error)
}.

Definition ErrEmpty : error := errorString "default value is not provided but input is empty".

Definition validate (opts : Options) (s : string) : option error :=
  match ValidateFunc opts with
  | Some f => f s
  | None => None
  end.

(** [ui.Ask(query, opts)]: an empty line takes the default when there is
    one; an empty line without default, or a line the validator refuses, is
    asked again when [Loop] is set and is an error otherwise.  At the end of
    the script every read is the empty line. *)
Fixpoint Ask (query : string) (opts : Options) (ui : UI)
    : option ((error + string) * UI) :=
  match ui with
  | [] =>
      if negb (String.eqb (Default opts) "") then
        Some (inr (Default opts), [])
      else if Required opts then
        if Loop opts then None else Some (inl ErrEmpty, [])
      else
        match validate opts "" with
        | Some err => if Loop opts then None else Some (inl err, [])
        | None => Some (inr "", [])
        end
  | Interrupted err :: rest => Some (inl err, rest)
  | Line line :: rest =>
      if String.eqb line "" && negb (String.eqb (Default opts) "") then
        Some (inr (Default opts), rest)
      else if String.eqb line "" && Required opts then
        if Loop opts then Ask query opts rest else Some (inl ErrEmpty, rest)
      else
        match validate opts line with
        | Some err => if Loop opts then Ask query opts rest else Some (inl err, rest)
        | None => Some (inr line, rest)
        end
  end.

(** ** generator/ui.go *)

Definition portValidateFunc (s : string) : option error :=
  match Atoi s with
  | inl err => Some (fmt_Errorf_w "port must be numeric: " err)
  | inr _ => None
  end.

Definition yesNoValidateFunc (s : string) : option error :=
  let normalizedResponse := ToLower s in
  if negb (String.eqb normalizedResponse "yes") && negb (String.eqb normalizedResponse "no")
  then Some (errorString ("invalid response; got " +:+ s +:+ ", expected Yes or No"))
  else None.

Definition hostOptions (defaultValue : types_SQLCredentials) : Options :=
  {| Default := Host defaultValue; Required := true; Loop := true; ValidateFunc := None |}.

Definition portOptions (defaultValue : types_SQLCredentials) : Options :=
  {| Default := Sprintf_d (Port defaultValue); Required := true; Loop := true;
     ValidateFunc := Some portValidateFunc |}.

Definition userOptions (defaultValue : types_SQLCredentials) : Options :=
  {| Default := User defaultValue; Required := true; Loop := true; ValidateFunc := None |}.

Definition passOptions (defaultValue : types_SQLCredentials) : Options :=
  {| Default := Pass defaultValue; Required := true; Loop := true; ValidateFunc := None |}.

Definition nameOptions (defaultValue : types_SQLCredentials) : Options :=
  {| Default := DatabaseName defaultValue; Required := true; Loop := true;
     ValidateFunc := None |}.

Definition tryAgainOptions : Options :=
  {| Default := "Yes"; Required := true; Loop := true;
     ValidateFunc := Some yesNoValidateFunc |}.

(** The six prompts of [AskSQLCredentials]. *)
Definition askHost (defaultValue : types_SQLCredentials)
    : UI -> option ((error + string) * UI) :=
  Ask "PostgreSQL host for the data-node" (hostOptions defaultValue).
Definition askPort (defaultValue : types_SQLCredentials)
    : UI -> option ((error + string) * UI) :=
  Ask "PostgreSQL port for the data-node" (portOptions defaultValue).
Definition askUser (defaultValue : types_SQLCredentials)
    : UI -> option ((error + string) * UI) :=
  Ask "PostgreSQL user name for the data-node" (userOptions defaultValue).
Definition askPass (defaultValue : types_SQLCredentials)
    : UI -> option ((error + string) * UI) :=
  Ask "PostgreSQL password for the given username" (passOptions defaultValue).
Definition askName (defaultValue : types_SQLCredentials)
    : UI -> option ((error + string) * UI) :=
  Ask "PostgreSQL database name for the data-node" (nameOptions defaultValue).
Definition askTryAgain : UI -> option ((error + string) * UI) :=
  Ask "Cannot connect to the data base with given credentials. Try again? (Yes/No)"
      tryAgainOptions.

(** One turn of the [for] loop of [AskSQLCredentials]. *)
Inductive LoopStep : Type :=
| Continue
| Break (creds : types_SQLCredentials).

Definition AskSQLCredentials_body
    (defaultValue : types_SQLCredentials)
    (checkFunc : types_SQLCredentials -> option error)
    (ui : UI) : option ((error + LoopStep) * UI) :=
  match askHost defaultValue ui with
  | None => None
  | Some (inl err, ui) =>
      Some (inl (NewInputError (fmt_Errorf_w "failed to get postgresql host: " err)), ui)
  | Some (inr dbHost, ui) =>
  match askPort defaultValue ui with
  | None => None
  | Some (inl err, ui) =>
      Some (inl (NewInputError (fmt_Errorf_w "failed to get postgresql port: " err)), ui)
  | Some (inr dbPortStr, ui) =>
  match Atoi dbPortStr with
  | inl err => Some (inl (NewInputError (fmt_Errorf_w "port must be numeric: " err)), ui)
  | inr dbPort =>
  match askUser defaultValue ui with
  | None => None
  | Some (inl err, ui) =>
      Some (inl (fmt_Errorf_w "failed to ask for database user name: " err), ui)
  | Some (inr dbUser, ui) =>
  match askPass defaultValue ui with
  | None => None
  | Some (inl err, ui) =>
      Some (inl (fmt_Errorf_w "failed to ask for database password: " err), ui)
  | Some (inr dbPass, ui) =>
  match askName defaultValue ui with
  | None => None
  | Some (inl err, ui) =>
      Some (inl (fmt_Errorf_w "failed to ask for database name: " err), ui)
  | Some (inr dbName, ui) =>
      let creds :=
        {| Host := dbHost; User := dbUser; Port := dbPort; Pass := dbPass;
           DatabaseName := dbName |} in
      match checkFunc creds with
      | Some _ =>
          match askTryAgain ui with
          | None => None
          | Some (inl err, ui) =>
              Some (inl (fmt_Errorf_w "failed to ask for try-again: " err), ui)
          | Some (inr tryAgain, ui) =>
              if String.eqb (ToLower tryAgain) "yes" then Some (inr Continue, ui)
              else Some (inr (Break creds), ui)
          end
      | None => Some (inr (Break creds), ui)
      end
  end end end end end end.

(** The loop itself.  A turn that starts on a script with inputs left reads
    at least one of them, and a turn that starts at the end of the script
    and ends in [continue] is followed by the same turn for ever.  So
    [S (length ui)] turns decide the loop: the result [None] of
    [AskSQLCredentials] is a call that never returns, and more turns give
    the same result ([AskSQLCredentials_for_enough]). *)
Fixpoint AskSQLCredentials_for
    (turns : nat)
    (defaultValue : types_SQLCredentials)
    (checkFunc : types_SQLCredentials -> option error)
    (ui : UI) : option ((error + types_SQLCredentials) * UI) :=
  match turns with
  | O => None
  | S turns' =>
      match AskSQLCredentials_body defaultValue checkFunc ui with
      | None => None
      | Some (inl err, ui') => Some (inl err, ui')
      | Some (inr Continue, ui') => AskSQLCredentials_for turns' defaultValue checkFunc ui'
      | Some (inr (Break creds), ui') => Some (inr creds, ui')
      end
  end.

Definition AskSQLCredentials
    (ui : UI)
    (defaultValue : types_SQLCredentials)
    (checkFunc : types_SQLCredentials -> option error) : option ((error + types_SQLCredentials) * UI) :=
  AskSQLCredentials_for (S (length ui)) defaultValue checkFunc ui.

(** A row of the summary table: the parameter and its value. *)
Inductive Cell : Type :=
| CStr (s : string)
| CInt (n : Z).

(** The masked password, [fmt.Sprintf("%c***%c", Pass[0], Pass[len(Pass)-1])]. *)
Definition maskedPassword (pass : string) : outcome string :=
  match byte_at pass 0 with
  | None => Panic "index out of range"
  | Some first =>
      match byte_at pass (len pass - 1) with
      | None => Panic "index out of range"
      | Some last => Ok (Sprintf_c first +:+ "***" +:+ Sprintf_c last)
      end
  end.

(** [printSummary]: the rows of the table it prints. *)
Definition printSummary (settings : GenerateSettings) : outcome (list (string * Cell)) :=
  let modeRow :=
    if StartupMode_eqb (Mode settings) StartFromBlock0
    then ("Mode", CStr "Start from block 0")
    else ("Mode", CStr "Start from Network History") in
  match maskedPassword (Pass (SQLCredentials settings)) with
  | Panic msg => Panic msg
  | Err e => Err e
  | Ok masked =>
      Ok [ modeRow;
           ("Visor Home", CStr (VisorHome settings));
           ("Vega Home", CStr (VegaHome settings));
           ("Tendermint Home", CStr (TendermintHome settings));
           ("SQL Host", CStr (Host (SQLCredentials settings)));
           ("SQL Port", CInt (Port (SQLCredentials settings)));
           ("SQL User", CStr (User (SQLCredentials settings)));
           ("SQL Password", CStr masked);
           ("SQL Database Name", CStr (DatabaseName (SQLCredentials settings)));
           ("Vega Version", CStr (MainnetVersion settings));
           ("Vega Chain ID", CStr (MainnetChainId settings)) ]
  end.

(** ** network/mainnet.go *)

Record NetworkConfig : Type := mkNetworkConfig {
  GenesisVersion : string;
  Repository : string;
  GenesisURL : string;
  DataNodesRESTUrls : list string;
  TendermintSeeds : list string;
  BootstrapPeers : list string;
  TendermintRPCServers : list string
}.

Definition MainnetConfig : NetworkConfig :=
  {| GenesisVersion := "v0.72.14";
     Repository := "vegaprotocol/vega";
     GenesisURL :=
       "https://raw.githubusercontent.com/vegaprotocol/networks/master/mainnet1/genesis.json";
     DataNodesRESTUrls :=
       [ "https://api0.vega.community";
         "https://api1.vega.community";
         "https://api2.vega.community";
         "https://api3.vega.community" ];
     TendermintSeeds :=
       [ "b0db58f5651c85385f588bd5238b42bedbe57073@13.125.55.240:26656";
         "abe207dae9367995526812d42207aeab73fd6418@18.158.4.175:26656";
         "198ecd046ebb9da0fc5a3270ee9a1aeef57a76ff@144.76.105.240:26656";
         "211e435c2162aedb6d687409d5d7f67399d198a9@65.21.60.252:26656";
         "c5b11e1d819115c4f3974d14f76269e802f3417b@34.88.191.54:26656";
         "61051c21f083ee30c835a34a0c17c5d1ceef3c62@51.178.75.45:26656" ];
     TendermintRPCServers :=
       [ "api0.vega.community:26657";
         "api1.vega.community:26657";
         "api2.vega.community:26657";
         "api3.vega.community:26657" ];
     BootstrapPeers :=
       [ "/dns/api1.vega.community/tcp/4001/ipfs/12D3KooWDZrusS1p2XyJDbCaWkVDCk2wJaKi6tNb4bjgSHo9yi5Q";
         "/dns/api2.vega.community/tcp/4001/ipfs/12D3KooWEH9pQd6P7RgNEpwbRyavWcwrAdiy9etivXqQZzd7Jkrh";
         "/dns/api3.vega.community/tcp/4001/ipfs/12D3KooWHSoYzEqSfUWEXfFbSnmRhWcP2WgZG2GRT8fzZzio5BTY" ] |}.

(** ** The data-node generator: its world

    The generator acts on the machine through the packages [os], [github],
    [utils] and [vegacmd].  Each such call is a [Call]; a run records the
    calls it makes, in order, in [trace]. *)

Inductive ArtifactType : Type :=
| ArtifactVega
| ArtifactVisor.

Inductive VegaNodeType : Type :=
| VegaNodeFull.

(** A value of a configuration key ([interface{}] in the source). *)
Inductive Value : Type :=
| VString (s : string)
| VInt (n : Z)
| VFloat (f : PrimFloat.float)
| VBool (b : bool)
| VStrings (l : list string).

Inductive Call : Type :=
| OsMkdirTemp (dir pattern : string)
| OsMkdirAll (path : string)
| OsWriteFile (name data : string)
| OsSymlink (oldname newname : string)
| OsRemoveAll (path : string)
| GithubDownloadArtifact (repository version outputDir : string) (artifact : ArtifactType)
| UtilsExecuteBinary (binaryPath : string) (args : list string)
| UtilsCopyFile (source destination : string)
| UtilsUpdateConfig (filePath format : string) (newValues : gmap string Value)
| UtilsDownloadFile (url filePath : string)
| VegacmdInitVisor (visorBinary visorHome : string)
| VegacmdInitTendermint (vegaBinary tendermintHome : string)
| VegacmdInitVega (vegaBinary vegaHome : string) (nodeType : VegaNodeType)
| VegacmdInitDataNode (vegaBinary dataNodeHome chainId : string)
| VegacmdTemplateVisorRunConfig (version vegaHome tendermintHome : string).

(** An entry of the file system. *)
Inductive Node : Type :=
| File (data : string)
| Dir
| Link (target : string).

Record World : Type := mkWorld {
  fs : gmap string Node;
  trace : list Call
}.

Definition M (A : Type) : Type := World -> outcome A * World.

Definition ret {A : Type} (a : A) : M A := fun w => (Ok a, w).

Definition bind {A B : Type} (m : M A) (k : A -> M B) : M B :=
  fun w =>
    match m w with
    | (Ok a, w') => k a w'
    | (Err e, w') => (Err e, w')
    | (Panic msg, w') => (Panic msg, w')
    end.

Definition fail {A : Type} (e : error) : M A := fun w => (Err e, w).

Definition panic {A : Type} (msg : string) : M A := fun w => (Panic msg, w).

(** [if err := m; err != nil { return fmt.Errorf(prefix + "%w", err) }] *)
Definition wrap {A : Type} (prefix : string) (m : M A) : M A :=
  fun w =>
    match m w with
    | (Err e, w') => (Err (fmt_Errorf_w prefix e), w')
    | r => r
    end.

Notation "x <- m ;; k" := (bind m (fun x => k))
  (at level 100, m at next level, right associativity).
Notation "m ;;; k" := (bind m (fun _ => k))
  (at level 100, right associativity).

(** [l[i]] on a slice. *)
Definition index (l : list string) (i : nat) : M string :=
  match nth_error l i with
  | Some x => ret x
  | None => panic "index out of range"
  end.

Definition EEXIST (oldname newname : string) : error :=
  errorString ("symlink " +:+ oldname +:+ " " +:+ newname +:+ ": file exists").

(** [os.Symlink(oldname, newname)], symlink(2): it fails when an entry
    named [newname] exists, whatever that entry is, and leaves it as it was;
    otherwise it creates the link. *)
Definition os_Symlink (oldname newname : string) : M unit :=
  fun w =>
    match fs w !! newname with
    | Some _ =>
        (Err (EEXIST oldname newname),
         {| fs := fs w; trace := trace w ++ [OsSymlink oldname newname] |})
    | None =>
        (Ok tt,
         {| fs := <[newname := Link oldname]> (fs w);
            trace := trace w ++ [OsSymlink oldname newname] |})
    end.

(** The calls [m] makes when it is started in the world [w]. *)
Definition calls {A : Type} (m : M A) (w : World) : list Call :=
  drop (length (trace w)) (trace (snd (m w))).

(** [m] makes only calls that satisfy [Q], and takes no call out of the
    trace. *)
Definition only (Q : Call -> Prop) {A : Type} (m : M A) : Prop :=
  forall w, exists l, trace (snd (m w)) = (trace w ++ l)%list /\ Forall Q l.

(** [m] takes no entry out of the file system. *)
Definition keeps {A : Type} (m : M A) : Prop :=
  forall w k, is_Some (fs w !! k) -> is_Some (fs (snd (m w)) !! k).

(** The calls that delete from the file system. *)
Definition removes (c : Call) : bool :=
  match c with
  | OsRemoveAll _ => true
  | _ => false
  end.

Record DataNodeGenerator : Type := mkDataNodeGenerator {
  userSettings : GenerateSettings;
  networkConfig : NetworkConfig
}.

(** The machine the generator runs on.  What the calls other than
    [os.Symlink] do to the file system and what they return is not fixed by
    the generator: any behaviour [extern] is allowed.  [filepath_Join],
    [GOOS] and [GOARCH] are [filepath.Join], [runtime.GOOS] and
    [runtime.GOARCH]; the five paths are the constants of package
    [vegacmd]. *)
Record Platform : Type := mkPlatform {
  extern : Call -> gmap string Node -> (error + string) * gmap string Node;
  filepath_Join : list string -> string;
  GOOS : string;
  GOARCH : string;
  GenesisPath : string;
  DataNodeConfigPath : string;
  CoreConfigPath : string;
  TenderminConfigPath : string;
  VegavisorConfigPath : string
}.

Section Generator.

Variable P : Platform.

Definition call (c : Call) : M string :=
  fun w =>
    let '(r, fs') := extern P c (fs w) in
    (match r with inl e => Err e | inr v => Ok v end,
     {| fs := fs'; trace := trace w ++ [c] |}).


Definition downloadGenesis (gen : DataNodeGenerator) : M unit :=
  let genesisDestination :=
    filepath_Join P [TendermintHome (userSettings gen); GenesisPath P] in
  wrap "failed to download genesis: "
    (call (UtilsDownloadFile (GenesisURL (networkConfig gen)) genesisDestination)) ;;;
  ret tt.

Definition copyBinaries (gen : DataNodeGenerator)
    (vegaBinaryPath visorBinaryPath : string) : M unit :=
  let vegavisorDstFilePath := filepath_Join P [VisorHome (userSettings gen); "visor"] in
  wrap "failed to copy visor binary: "
    (call (UtilsCopyFile visorBinaryPath vegavisorDstFilePath)) ;;;
  let version :=
    if StartupMode_eqb (Mode (userSettings gen)) StartFromBlock0
    then "genesis" else MainnetVersion (userSettings gen) in
  let vegaDstFilePath := filepath_Join P [VisorHome (userSettings gen); version; "vega"] in
  wrap "failed to copy vega binary: "
    (call (UtilsCopyFile vegaBinaryPath vegaDstFilePath)) ;;;
  let versionDirectory := filepath_Join P [VisorHome (userSettings gen); version] in
  let currentDirectory := filepath_Join P [VisorHome (userSettings gen); "current"] in
  wrap ("failed to create symlink from " +:+ versionDirectory +:+ " to "
          +:+ currentDirectory +:+ ": ")
    (os_Symlink versionDirectory currentDirectory) ;;;
  ret tt.

Definition prepareVisorHome (gen : DataNodeGenerator) : M unit :=
  let '(runConfigDirPath, version) :=
    if StartupMode_eqb (Mode (userSettings gen)) StartFromBlock0
    then (filepath_Join P [VisorHome (userSettings gen); "genesis"], "genesis")
    else (filepath_Join P [VisorHome (userSettings gen); MainnetVersion (userSettings gen)],
          MainnetVersion (userSettings gen)) in
  wrap "failed to make directory: " (call (OsMkdirAll runConfigDirPath)) ;;;
  let runConfigPath := filepath_Join P [runConfigDirPath; "run-config.toml"] in
  runConfigContent <-
    wrap "failed to generate run-config.toml from template: "
      (call (VegacmdTemplateVisorRunConfig version
               (VegaHome (userSettings gen)) (TendermintHome (userSettings gen)))) ;;
  wrap ("failed to write run-config.toml in " +:+ runConfigContent +:+ ": ")
    (call (OsWriteFile runConfigPath runConfigContent)) ;;;
  ret tt.

(** The four key sets of [updateConfigs] as its map literals give them
    (lines 276 to 314 of the source). *)
Definition dataNodeConfig (gen : DataNodeGenerator) : gmap string Value :=
  <["SQLStore.ConnectionConfig.Host" := VString (Host (SQLCredentials (userSettings gen)))]> (
  <["SQLStore.ConnectionConfig.Port" := VInt (Port (SQLCredentials (userSettings gen)))]> (
  <["SQLStore.ConnectionConfig.Username" := VString (User (SQLCredentials (userSettings gen)))]> (
  <["SQLStore.ConnectionConfig.Password" := VString (Pass (SQLCredentials (userSettings gen)))]> (
  <["SQLStore.ConnectionConfig.Database" :=
      VString (DatabaseName (SQLCredentials (userSettings gen)))]> (
  <["SQLStore.WipeOnStartup" := VBool true]> (
  <["NetworkHistory.Store.BootstrapPeers" := VStrings (BootstrapPeers (networkConfig gen))]> (
  <["NetworkHistory.Initialise.Timeout" := VString "4h"]> (
  <["API.RateLimit.Rate" := VFloat 300%float]> (
  <["API.RateLimit.Burst" := VInt 1000]> ∅))))))))).

Definition vegaConfig : gmap string Value :=
  <["Snapshot.StartHeight" := VInt (-1)]> (
  <["Broker.Socket.Enabled" := VBool true]> (
  <["Broker.Socket.DialTimeout" := VString "4h"]> ∅)).

Definition tendermintConfig (gen : DataNodeGenerator) : gmap string Value :=
  <["p2p.seeds" := VString (Join (TendermintSeeds (networkConfig gen)) ",")]> (
  <["pex" := VBool true]> (
  <["statesync.enable" := VBool false]> (
  <["statesync.rpc_servers" :=
      VString (Join (TendermintRPCServers (networkConfig gen)) ",")]> (
  <["statesync.trust_period" := VString "672h0m0s"]> ∅)))).

Definition vegavisorConfig (repositoryOwner repository : string) : gmap string Value :=
  <["maxNumberOfFirstConnectionRetries" := VInt 43200]> (
  <["autoInstall.enabled" := VBool true]> (
  <["autoInstall.repositoryOwner" := VString repositoryOwner]> (
  <["autoInstall.repository" := VString repository]> (
  <["autoInstall.asset.name" :=
      VString ("vega-" +:+ GOOS P +:+ "-" +:+ GOARCH P +:+ ".zip")]> (
  <["autoInstall.asset.binaryName" := VString "vega"]> ∅))))).

(** The key sets after the branch on the mode (lines 316 to 332), in the
    order data-node, core, consensus layer, supervisor.  The two indexings
    of the split repository belong to the supervisor literal and come
    before the branch. *)
Definition configKeySets (gen : DataNodeGenerator)
    : M (gmap string Value * gmap string Value * gmap string Value * gmap string Value) :=
  repositoryOwner <- index (Split (Repository (networkConfig gen)) "/") 0 ;;
  repository <- index (Split (Repository (networkConfig gen)) "/") 1 ;;
  if StartupMode_eqb (Mode (userSettings gen)) StartFromNetworkHistory then
    if String.eqb (BlockHash (LatestSnapshot (userSettings gen))) "" then
      fail (errorString
              "cannot start vega from the network-history when latest snapshot is empty")
    else
      match Atoi (BlockHeight (LatestSnapshot (userSettings gen))) with
      | inl err =>
          fail (fmt_Errorf_w
                  "failed to convert trust block height from string to int: " err)
      | inr trustHeight =>
          ret (<["AutoInitialiseFromNetworkHistory" := VBool true]> (dataNodeConfig gen),
               vegaConfig,
               <["statesync.trust_hash" :=
                   VString (BlockHash (LatestSnapshot (userSettings gen)))]> (
               <["statesync.trust_height" := VInt trustHeight]> (
               <["statesync.enable" := VBool true]> (tendermintConfig gen))),
               vegavisorConfig repositoryOwner repository)
      end
  else ret (dataNodeConfig gen, vegaConfig, tendermintConfig gen,
            vegavisorConfig repositoryOwner repository).

Definition updateConfigs (gen : DataNodeGenerator) : M unit :=
  keySets <- configKeySets gen ;;
  let '(dataNodeConfig, vegaConfig, tendermintConfig, vegavisorConfig) := keySets in
  let dataNodeConfigPath :=
    filepath_Join P [DataNodeHome (userSettings gen); DataNodeConfigPath P] in
  wrap "failed to update the data-node config; "
    (call (UtilsUpdateConfig dataNodeConfigPath "toml" dataNodeConfig)) ;;;
  let vegaConfigPath := filepath_Join P [VegaHome (userSettings gen); CoreConfigPath P] in
  wrap "failed to update the vega config; "
    (call (UtilsUpdateConfig vegaConfigPath "toml" vegaConfig)) ;;;
  let tendermintConfigPath :=
    filepath_Join P [TendermintHome (userSettings gen); TenderminConfigPath P] in
  wrap "failed to update the tendermint config; "
    (call (UtilsUpdateConfig tendermintConfigPath "toml" tendermintConfig)) ;;;
  let vegavisorConfigPath :=
    filepath_Join P [VisorHome (userSettings gen); VegavisorConfigPath P] in
  wrap "failed to update vegavisor config: "
    (call (UtilsUpdateConfig vegavisorConfigPath "toml" vegavisorConfig)) ;;;
  ret tt.

Definition initNode (gen : DataNodeGenerator) (visorBinary vegaBinary : string) : M unit :=
  wrap ("failed to initialize vegavisor in " +:+ VisorHome (userSettings gen) +:+ ": ")
    (call (VegacmdInitVisor visorBinary (VisorHome (userSettings gen)))) ;;;
  wrap ("failed to initialize tendermint in " +:+ TendermintHome (userSettings gen) +:+ ": ")
    (call (VegacmdInitTendermint vegaBinary (TendermintHome (userSettings gen)))) ;;;
  wrap ("failed to initialize vega in " +:+ VegaHome (userSettings gen) +:+ ": ")
    (call (VegacmdInitVega vegaBinary (VegaHome (userSettings gen)) VegaNodeFull)) ;;;
  wrap ("failed to initialize data-node in " +:+ DataNodeHome (userSettings gen) +:+ ": ")
    (call (VegacmdInitDataNode vegaBinary (DataNodeHome (userSettings gen))
             (MainnetChainId (userSettings gen)))) ;;;
  ret tt.

Definition Run (gen : DataNodeGenerator) : M unit :=
  outputDir <- wrap "failed to create temp dir: " (call (OsMkdirTemp "" "vega-assistant")) ;;
  vegaBinaryPath <-
    wrap "failed to download vega binary: "
      (call (GithubDownloadArtifact (Repository (networkConfig gen))
               (MainnetVersion (userSettings gen)) outputDir ArtifactVega)) ;;
  visorBinaryPath <-
    wrap "failed to download visor binary: "
      (call (GithubDownloadArtifact (Repository (networkConfig gen))
               (MainnetVersion (userSettings gen)) outputDir ArtifactVisor)) ;;
  wrap "failed to check vega version: "
    (call (UtilsExecuteBinary vegaBinaryPath ["version"])) ;;;
  wrap "failed to check visor version: "
    (call (UtilsExecuteBinary visorBinaryPath ["version"])) ;;;
  wrap "failed to init vega node: " (initNode gen visorBinaryPath vegaBinaryPath) ;;;
  wrap "failed to prepare visor home: " (prepareVisorHome gen) ;;;
  wrap "failed to copy binaries to visor home: "
    (copyBinaries gen vegaBinaryPath visorBinaryPath) ;;;
  wrap "failed to update config files for the node: " (updateConfigs gen) ;;;
  wrap "failed to download genesis: " (downloadGenesis gen) ;;;
  ret tt.

(** *** [Run] as a pipeline of stages

    The values [Run] keeps from one step to the next, and its ten steps,
    each with the text [Run] puts in front of the step's error. *)
Record binaries : Type := mkBinaries {
  outputDir : string;
  vegaBinaryPath : string;
  visorBinaryPath : string
}.

Definition stages (gen : DataNodeGenerator) : list (string * (binaries -> M binaries)) :=
  [ ("failed to create temp dir: ",
     fun b =>
       dir <- call (OsMkdirTemp "" "vega-assistant") ;;
       ret (mkBinaries dir (vegaBinaryPath b) (visorBinaryPath b)));
    ("failed to download vega binary: ",
     fun b =>
       path <- call (GithubDownloadArtifact (Repository (networkConfig gen))
                       (MainnetVersion (userSettings gen)) (outputDir b) ArtifactVega) ;;
       ret (mkBinaries (outputDir b) path (visorBinaryPath b)));
    ("failed to download visor binary: ",
     fun b =>
       path <- call (GithubDownloadArtifact (Repository (networkConfig gen))
                       (MainnetVersion (userSettings gen)) (outputDir b) ArtifactVisor) ;;
       ret (mkBinaries (outputDir b) (vegaBinaryPath b) path));
    ("failed to check vega version: ",
     fun b => call (UtilsExecuteBinary (vegaBinaryPath b) ["version"]) ;;; ret b);
    ("failed to check visor version: ",
     fun b => call (UtilsExecuteBinary (visorBinaryPath b) ["version"]) ;;; ret b);
    ("failed to init vega node: ",
     fun b => initNode gen (visorBinaryPath b) (vegaBinaryPath b) ;;; ret b);
    ("failed to prepare visor home: ",
     fun b => prepareVisorHome gen ;;; ret b);
    ("failed to copy binaries to visor home: ",
     fun b => copyBinaries gen (vegaBinaryPath b) (visorBinaryPath b) ;;; ret b);
    ("failed to update config files for the node: ",
     fun b => updateConfigs gen ;;; ret b);
    ("failed to download genesis: ",
     fun b => downloadGenesis gen ;;; ret b) ].

Fixpoint run_stages (l : list (string * (binaries -> M binaries))) (b : binaries)
    : M binaries :=
  match l with
  | [] => ret b
  | (context, step) :: rest => b' <- wrap context (step b) ;; run_stages rest b'
  end.

(** The four writes of [updateConfigs], in the order it makes them. *)
Definition configWrites (gen : DataNodeGenerator)
    (dataNodeConfig vegaConfig tendermintConfig vegavisorConfig : gmap string Value)
    : list Call :=
  [ UtilsUpdateConfig
      (filepath_Join P [DataNodeHome (userSettings gen); DataNodeConfigPath P])
      "toml" dataNodeConfig;
    UtilsUpdateConfig
      (filepath_Join P [VegaHome (userSettings gen); CoreConfigPath P])
      "toml" vegaConfig;
    UtilsUpdateConfig
      (filepath_Join P [TendermintHome (userSettings gen); TenderminConfigPath P])
      "toml" tendermintConfig;
    UtilsUpdateConfig
      (filepath_Join P [VisorHome (userSettings gen); VegavisorConfigPath P])
      "toml" vegavisorConfig ].

(** What [updateConfigs] does, started in [w], with the key sets [dn], [vc],
    [tm] and [vv] it has built: its calls are the first writes of
    [configWrites], at least one and all four when it succeeds; once the
    documents of the data-node and of the core are written, its third call
    writes [tm] to the document of the consensus layer; and when that write
    and the last succeed it returns nil in the world they leave. *)
Definition writesKeySets (gen : DataNodeGenerator)
    (dn vc tm vv : gmap string Value) (w : World) : Prop :=
  let dataNodeWrite :=
    UtilsUpdateConfig
      (filepath_Join P [DataNodeHome (userSettings gen); DataNodeConfigPath P]) "toml" dn in
  let vegaWrite :=
    UtilsUpdateConfig
      (filepath_Join P [VegaHome (userSettings gen); CoreConfigPath P]) "toml" vc in
  let tendermintWrite :=
    UtilsUpdateConfig
      (filepath_Join P [TendermintHome (userSettings gen); TenderminConfigPath P])
      "toml" tm in
  let vegavisorWrite :=
    UtilsUpdateConfig
      (filepath_Join P [VisorHome (userSettings gen); VegavisorConfigPath P]) "toml" vv in
  (exists n,
     calls (updateConfigs gen) w = take n (configWrites gen dn vc tm vv) /\
     (1 <= n)%nat /\
     (fst (updateConfigs gen w) = Ok tt -> n = 4%nat)) /\
  (forall r1 w1 r2 w2,
     call dataNodeWrite w = (Ok r1, w1) ->
     call vegaWrite w1 = (Ok r2, w2) ->
     nth_error (calls (updateConfigs gen) w) 2 = Some tendermintWrite /\
     forall r3 w3 r4 w4,
       call tendermintWrite w2 = (Ok r3, w3) ->
       call vegavisorWrite w3 = (Ok r4, w4) ->
       updateConfigs gen w = (Ok tt, w4)).

(** Where the supervisor home keeps the run configuration and the node
    binary, for a versioned subdirectory named [dir].  [prepareVisorHome]
    makes the directory [dir] of the supervisor home, fills the template
    for [dir] and writes the result to run-config.toml in that directory:
    these calls and no other, each one as soon as the one before has
    succeeded.  [copyBinaries] copies the supervisor binary to the
    supervisor home, then the node binary into the directory [dir], then
    links "current" to that directory: these calls and no other, and the
    link leaves what the copies have placed. *)
Definition visorLayout (gen : DataNodeGenerator) (dir : string)
    (vegaBinary visorBinary : string) (w : World) : Prop :=
  let home := VisorHome (userSettings gen) in
  let mkdir := OsMkdirAll (filepath_Join P [home; dir]) in
  let template :=
    VegacmdTemplateVisorRunConfig dir (VegaHome (userSettings gen))
      (TendermintHome (userSettings gen)) in
  let runConfigPath :=
    filepath_Join P [filepath_Join P [home; dir]; "run-config.toml"] in
  let visorCopy := UtilsCopyFile visorBinary (filepath_Join P [home; "visor"]) in
  let vegaCopy := UtilsCopyFile vegaBinary (filepath_Join P [home; dir; "vega"]) in
  let current := filepath_Join P [home; "current"] in
  let link := OsSymlink (filepath_Join P [home; dir]) current in
  (exists n data,
     calls (prepareVisorHome gen) w
     = take n [mkdir; template; OsWriteFile runConfigPath data] /\
     (1 <= n)%nat /\
     (fst (prepareVisorHome gen w) = Ok tt -> n = 3%nat)) /\
  (forall r1 w1 content w2,
     call mkdir w = (Ok r1, w1) ->
     call template w1 = (Ok content, w2) ->
     calls (prepareVisorHome gen) w = [mkdir; template; OsWriteFile runConfigPath content] /\
     forall r3 w3,
       call (OsWriteFile runConfigPath content) w2 = (Ok r3, w3) ->
       prepareVisorHome gen w = (Ok tt, w3)) /\
  (exists n,
     calls (copyBinaries gen vegaBinary visorBinary) w = take n [visorCopy; vegaCopy; link] /\
     (1 <= n)%nat /\
     (fst (copyBinaries gen vegaBinary visorBinary w) = Ok tt -> n = 3%nat)) /\
  (forall r1 w1,
     call visorCopy w = (Ok r1, w1) ->
     nth_error (calls (copyBinaries gen vegaBinary visorBinary) w) 1 = Some vegaCopy /\
     forall r2 w2,
       call vegaCopy w1 = (Ok r2, w2) ->
       calls (copyBinaries gen vegaBinary visorBinary) w = [visorCopy; vegaCopy; link] /\
       forall k, k <> current ->
         fs (snd (copyBinaries gen vegaBinary visorBinary w)) !! k = fs w2 !! k).

End Generator.

(** ** A simulated machine

    One concrete behaviour of the outside world, on which the generator can
    be run: paths are joined with a slash, every call does the obvious thing
    to the file system, and the calls selected by [broken] fail. *)

Definition sim_Join (elems : list string) : string :=
  String.concat "/" (List.filter (fun e => negb (String.eqb e "")) elems).

Definition sim_extern (broken : Call -> bool) (c : Call) (files : gmap string Node)
    : (error + string) * gmap string Node :=
  if broken c then (inl (errorString "simulated failure"), files)
  else
    match c with
    | OsMkdirTemp _ pattern =>
        let name := "/tmp/" +:+ pattern +:+ "0" in
        (inr name, <[name := Dir]> files)
    | OsMkdirAll path => (inr "", <[path := Dir]> files)
    | OsWriteFile name data => (inr "", <[name := File data]> files)
    | OsSymlink oldname newname => (inr "", <[newname := Link oldname]> files)
    | OsRemoveAll path => (inr "", delete path files)
    | GithubDownloadArtifact _ version outputDir artifact =>
        let name :=
          sim_Join [outputDir;
                    match artifact with ArtifactVega => "vega" | ArtifactVisor => "visor" end] in
        (inr name, <[name := File ("binary " +:+ version)]> files)
    | UtilsExecuteBinary binaryPath _ =>
        match files !! binaryPath with
        | Some (File data) => (inr data, files)
        | _ => (inl (errorString "cannot execute"), files)
        end
    | UtilsCopyFile source destination =>
        match files !! source with
        | Some (File data) => (inr "", <[destination := File data]> files)
        | _ => (inl (errorString "cannot copy"), files)
        end
    | UtilsUpdateConfig filePath _ _ => (inr "", <[filePath := File "patched"]> files)
    | UtilsDownloadFile url filePath => (inr "", <[filePath := File url]> files)
    | VegacmdInitVisor _ home => (inr "", <[home := Dir]> files)
    | VegacmdInitTendermint _ home => (inr "", <[home := Dir]> files)
    | VegacmdInitVega _ home _ => (inr "", <[home := Dir]> files)
    | VegacmdInitDataNode _ home _ => (inr "", <[home := Dir]> files)
    | VegacmdTemplateVisorRunConfig version _ _ => (inr ("run-config " +:+ version), files)
    end.

Definition never : Call -> bool := fun _ => false.

Definition sim_credentials : types_SQLCredentials :=
  {| Host := "localhost"; User := "vega"; Port := 5432; Pass := "secret";
     DatabaseName := "vega" |}.

Definition sim_settings (mode : StartupMode) : GenerateSettings :=
  {| Mode := mode;
     VisorHome := "/home/vega/vegavisor_home";
     VegaHome := "/home/vega/vega_home";
     TendermintHome := "/home/vega/tendermint_home";
     DataNodeHome := "/home/vega/data_node_home";
     SQLCredentials := sim_credentials;
     MainnetVersion := "v0.72.14";
     MainnetChainId := "vega-mainnet-0011";
     LatestSnapshot :=
       match mode with
       | StartFromBlock0 => {| BlockHeight := ""; BlockHash := "" |}
       | StartFromNetworkHistory => {| BlockHeight := "1000"; BlockHash := "ABC" |}
       end |}.

Definition sim_gen (mode : StartupMode) (repository : string) : DataNodeGenerator :=
  {| userSettings := sim_settings mode;
     networkConfig :=
       {| GenesisVersion := GenesisVersion MainnetConfig;
          Repository := repository;
          GenesisURL := GenesisURL MainnetConfig;
          DataNodesRESTUrls := DataNodesRESTUrls MainnetConfig;
          TendermintSeeds := TendermintSeeds MainnetConfig;
          BootstrapPeers := BootstrapPeers MainnetConfig;
          TendermintRPCServers := TendermintRPCServers MainnetConfig |} |}.

Definition sim_world : World := {| fs := ∅; trace := [] |}.

(** The simulated machine, linux/amd64. *)
Definition sim_platform (broken : Call -> bool) : Platform :=
  {| extern := sim_extern broken;
     filepath_Join := sim_Join;
     GOOS := "linux";
     GOARCH := "amd64";
     GenesisPath := "config/genesis.json";
     DataNodeConfigPath := "config/data-node/config.toml";
     CoreConfigPath := "config/node/config.toml";
     TenderminConfigPath := "config/config.toml";
     VegavisorConfigPath := "config.toml" |}.

(** Reading back one [%c] from the front of a string. *)
Definition read_c (s : string) : option (ascii * string) :=
  match s with
  | EmptyString => None
  | String c rest =>
      if (N_of_ascii c <? 128)%N then Some (c, rest)
      else
        match rest with
        | EmptyString => None
        | String c' rest' =>
            Some (ascii_of_N ((N_of_ascii c - 192) * 64 + (N_of_ascii c' - 128)), rest')
        end
  end.

(** The settings with another SQL password. *)
Definition withPass (settings : GenerateSettings) (pass : string) : GenerateSettings :=
  {| Mode := Mode settings;
     VisorHome := VisorHome settings;
     VegaHome := VegaHome settings;
     TendermintHome := TendermintHome settings;
     DataNodeHome := DataNodeHome settings;
     SQLCredentials :=
       {| Host := Host (SQLCredentials settings);
          User := User (SQLCredentials settings);
          Port := Port (SQLCredentials settings);
          Pass := pass;
          DatabaseName := DatabaseName (SQLCredentials settings) |};
     MainnetVersion := MainnetVersion settings;
     MainnetChainId := MainnetChainId settings;
     LatestSnapshot := LatestSnapshot settings |}.

(** The generator with another target version. *)
Definition withVersion (gen : DataNodeGenerator) (version : string) : DataNodeGenerator :=
  {| userSettings :=
       {| Mode := Mode (userSettings gen);
          VisorHome := VisorHome (userSettings gen);
          VegaHome := VegaHome (userSettings gen);
          TendermintHome := TendermintHome (userSettings gen);
          DataNodeHome := DataNodeHome (userSettings gen);
          SQLCredentials := SQLCredentials (userSettings gen);
          MainnetVersion := version;
          MainnetChainId := MainnetChainId (userSettings gen);
          LatestSnapshot := LatestSnapshot (userSettings gen) |};
     networkConfig := networkConfig gen |}.

(** The generator with another snapshot. *)
Definition withSnapshot (gen : DataNodeGenerator) (snapshot : Snapshot) : DataNodeGenerator :=
  {| userSettings :=
       {| Mode := Mode (userSettings gen);
          VisorHome := VisorHome (userSettings gen);
          VegaHome := VegaHome (userSettings gen);
          TendermintHome := TendermintHome (userSettings gen);
          DataNodeHome := DataNodeHome (userSettings gen);
          SQLCredentials := SQLCredentials (userSettings gen);
          MainnetVersion := MainnetVersion (userSettings gen);
          MainnetChainId := MainnetChainId (userSettings gen);
          LatestSnapshot := snapshot |};
     networkConfig := networkConfig gen |}.

(** A machine on which the binaries are staged and the supervisor home
    already has an entry named "current". *)
Definition sim_world_current : World :=
  {| fs :=
       <["/tmp/vega-assistant0/vega" := File "binary v0.72.14"]> (
       <["/tmp/vega-assistant0/visor" := File "binary v0.72.14"]> (
       <["/home/vega/vegavisor_home/current" := Link "/home/vega/vegavisor_home/v0.72.13"]>
         ∅));
     trace := [] |}.

(** The same machine without the entry "current". *)
Definition sim_world_staged : World :=
  {| fs :=
       <["/tmp/vega-assistant0/vega" := File "binary v0.72.14"]> (
       <["/tmp/vega-assistant0/visor" := File "binary v0.72.14"]> ∅);
     trace := [] |}.

(** Whether the byte [b] occurs in [s]. *)
Fixpoint has_byte (b : ascii) (s : string) : bool :=
  match s with
  | EmptyString => false
  | String c rest => Ascii.eqb c b || has_byte b rest
  end.

(** A machine on which [os.MkdirAll] fails. *)
Definition breaks_mkdir (c : Call) : bool :=
  match c with
  | OsMkdirAll _ => true
  | _ => false
  end.

(** ** generator/ui.go: the other prompts *)

(** The validator of [AskPath]; [utils.FileExists] is outside the files at
    hand and is a parameter. *)
Definition pathValidateFunc (FileExists : string -> bool) (s : string) : option error :=
  if FileExists s
  then Some (errorString
               "given path exists on your fs, remove this file or provide another directory")
  else None.

Definition pathOptions (FileExists : string -> bool) (defaultValue : string) : Options :=
  {| Default := defaultValue; Required := true; Loop := true;
     ValidateFunc := Some (pathValidateFunc FileExists) |}.

(** [AskPath]: the path, or the empty string and an [InputError]. *)
Definition AskPath (FileExists : string -> bool) (ui : UI) (name defaultValue : string)
    : option ((error + string) * UI) :=
  match Ask ("What is your " +:+ name) (pathOptions FileExists defaultValue) ui with
  | None => None
  | Some (inl err, ui') => Some (inl (NewInputError err), ui')
  | Some (inr response, ui') => Some (inr response, ui')
  end.

Definition AnswerYes : string := "Yes".
Definition AnswerNo : string := "No".

Definition yesNoOptions (defaultAnswer : string) : Options :=
  {| Default := defaultAnswer; Required := true; Loop := true;
     ValidateFunc := Some yesNoValidateFunc |}.

(** [AskYesNo]: the answer and the error, as the source returns both (the
    default answer comes back with the error). *)
Definition AskYesNo (ui : UI) (question : string) (defaultAnswer : string)
    : option ((string * option error) * UI) :=
  match Ask question (yesNoOptions defaultAnswer) ui with
  | None => None
  | Some (inl err, ui') =>
      Some ((defaultAnswer, Some (fmt_Errorf_w "failed to ask for yes/no: " err)), ui')
  | Some (inr answer, ui') =>
      if String.eqb (ToLower answer) "yes" then Some ((AnswerYes, None), ui')
      else Some ((AnswerNo, None), ui')
  end.

(** The number a string of decimal digits stands for, after the digits
    already read. *)
Fixpoint uint_value (d : Decimal.uint) (acc : Z) : Z :=
  match d with
  | Decimal.Nil => acc
  | Decimal.D0 d => uint_value d (acc * 10 + 0)
  | Decimal.D1 d => uint_value d (acc * 10 + 1)
  | Decimal.D2 d => uint_value d (acc * 10 + 2)
  | Decimal.D3 d => uint_value d (acc * 10 + 3)
  | Decimal.D4 d => uint_value d (acc * 10 + 4)
  | Decimal.D5 d => uint_value d (acc * 10 + 5)
  | Decimal.D6 d => uint_value d (acc * 10 + 6)
  | Decimal.D7 d => uint_value d (acc * 10 + 7)
  | Decimal.D8 d => uint_value d (acc * 10 + 8)
  | Decimal.D9 d => uint_value d (acc * 10 + 9)
  end.

(** The scripts at which the turns of the loop of [AskSQLCredentials] start:
    the script it is called on, and what a turn that ends in [continue]
    leaves of the script it started on. *)
Inductive turn_starts
    (defaultValue : types_SQLCredentials)
    (checkFunc : types_SQLCredentials -> option error) : UI -> UI -> Prop :=
| turn_first (ui : UI) : turn_starts defaultValue checkFunc ui ui
| turn_next (ui ui' u : UI) :
    AskSQLCredentials_body defaultValue checkFunc ui = Some (inr Continue, ui') ->
    turn_starts defaultValue checkFunc ui' u ->
    turn_starts defaultValue checkFunc ui u.

(** A turn that starts on [ui] has the prompts before one of its six
    answered and the read of that one failing with [inner], which leaves
    [ui'] of the script; [e] is [inner] behind the text the source has for
    that prompt, an [InputError] at the host and port prompts. *)
Definition prompt_failed
    (defaultValue : types_SQLCredentials)
    (checkFunc : types_SQLCredentials -> option error)
    (ui : UI) (inner e : error) (ui' : UI) : Prop :=
  (askHost defaultValue ui = Some (inl inner, ui') /\
   e = InputError (wrapError "failed to get postgresql host: " inner)) \/
  exists dbHost ui1, askHost defaultValue ui = Some (inr dbHost, ui1) /\
  ((askPort defaultValue ui1 = Some (inl inner, ui') /\
    e = InputError (wrapError "failed to get postgresql port: " inner)) \/
  exists dbPortStr ui2, askPort defaultValue ui1 = Some (inr dbPortStr, ui2) /\
  ((askUser defaultValue ui2 = Some (inl inner, ui') /\
    e = wrapError "failed to ask for database user name: " inner) \/
  exists dbUser ui3, askUser defaultValue ui2 = Some (inr dbUser, ui3) /\
  ((askPass defaultValue ui3 = Some (inl inner, ui') /\
    e = wrapError "failed to ask for database password: " inner) \/
  exists dbPass ui4, askPass defaultValue ui3 = Some (inr dbPass, ui4) /\
  ((askName defaultValue ui4 = Some (inl inner, ui') /\
    e = wrapError "failed to ask for database name: " inner) \/
  exists dbName ui5 dbPort, askName defaultValue ui4 = Some (inr dbName, ui5) /\
    Atoi dbPortStr = inr dbPort /\
    checkFunc {| Host := dbHost; User := dbUser; Port := dbPort; Pass := dbPass;
                 DatabaseName := dbName |} <> None /\
    askTryAgain ui5 = Some (inl inner, ui') /\
    e = wrapError "failed to ask for try-again: " inner)))).

(** ** The calls of a whole run

    The calls of [Run] when every step succeeds, in the order it makes
    them, given what the calls returned: the staging directory, the paths of
    the two binaries, the run configuration, and the four key sets. *)
Definition runCalls (P : Platform) (gen : DataNodeGenerator)
    (outputDir vegaBinary visorBinary runConfigContent : string)
    (dataNodeConfig vegaConfig tendermintConfig vegavisorConfig : gmap string Value)
    : list Call :=
  let dir :=
    if StartupMode_eqb (Mode (userSettings gen)) StartFromBlock0
    then "genesis" else MainnetVersion (userSettings gen) in
  ([ OsMkdirTemp "" "vega-assistant";
     GithubDownloadArtifact (Repository (networkConfig gen))
       (MainnetVersion (userSettings gen)) outputDir ArtifactVega;
     GithubDownloadArtifact (Repository (networkConfig gen))
       (MainnetVersion (userSettings gen)) outputDir ArtifactVisor;
     UtilsExecuteBinary vegaBinary ["version"];
     UtilsExecuteBinary visorBinary ["version"];
     VegacmdInitVisor visorBinary (VisorHome (userSettings gen));
     VegacmdInitTendermint vegaBinary (TendermintHome (userSettings gen));
     VegacmdInitVega vegaBinary (VegaHome (userSettings gen)) VegaNodeFull;
     VegacmdInitDataNode vegaBinary (DataNodeHome (userSettings gen))
       (MainnetChainId (userSettings gen));
     OsMkdirAll (filepath_Join P [VisorHome (userSettings gen); dir]);
     VegacmdTemplateVisorRunConfig dir (VegaHome (userSettings gen))
       (TendermintHome (userSettings gen));
     OsWriteFile
       (filepath_Join P [filepath_Join P [VisorHome (userSettings gen); dir];
                         "run-config.toml"])
       runConfigContent;
     UtilsCopyFile visorBinary (filepath_Join P [VisorHome (userSettings gen); "visor"]);
     UtilsCopyFile vegaBinary (filepath_Join P [VisorHome (userSettings gen); dir; "vega"]);
     OsSymlink (filepath_Join P [VisorHome (userSettings gen); dir])
               (filepath_Join P [VisorHome (userSettings gen); "current"]) ]
   ++ configWrites P gen dataNodeConfig vegaConfig tendermintConfig vegavisorConfig
   ++ [ UtilsDownloadFile (GenesisURL (networkConfig gen))
          (filepath_Join P [TendermintHome (userSettings gen); GenesisPath P]) ])%list.



(** The simulated generator, started from the network history with the
    snapshot given. *)
Definition sim_gen_snapshot (blockHeight blockHash : string) : DataNodeGenerator :=
  {| userSettings :=
       {| Mode := StartFromNetworkHistory;
          VisorHome := "/home/vega/vegavisor_home";
          VegaHome := "/home/vega/vega_home";
          TendermintHome := "/home/vega/tendermint_home";
          DataNodeHome := "/home/vega/data_node_home";
          SQLCredentials := sim_credentials;
          MainnetVersion := "v0.72.14";
          MainnetChainId := "vega-mainnet-0011";
          LatestSnapshot := {| BlockHeight := blockHeight; BlockHash := blockHash |} |};
     networkConfig := MainnetConfig |}.


(** A machine on which [os.WriteFile] fails. *)
Definition breaks_write (c : Call) : bool :=
  match c with
  | OsWriteFile _ _ => true
  | _ => false
  end.

(** * Properties *)

(** ** strconv.Atoi *)

Lemma parseDigits_nonneg (s : string) :
  forall n m, 0 <= n -> parseDigits s n = inr m -> 0 <= m.
Proof.
  induction s as [|c rest IH]; intros n m Hn H; simpl in H.
  - congruence.
  - destruct ((0 <=? byte_val c - 48) && (byte_val c - 48 <=? 9)) eqn:Hd; [|discriminate].
    apply andb_true_iff in Hd as [Hlo _]. apply Z.leb_le in Hlo.
    destruct (maxUint64 / 10 + 1 <=? n); [discriminate|].
    destruct (maxUint64 <? n * 10 + (byte_val c - 48)); [discriminate|].
    apply (IH (n * 10 + (byte_val c - 48))); [lia | exact H].
Qed.

Lemma ParseUint_nonneg (s : string) (m : Z) : ParseUint s = inr m -> 0 <= m.
Proof.
  destruct s as [|c rest]; [discriminate|].
  unfold ParseUint. apply parseDigits_nonneg. lia.
Qed.

Lemma ParseInt_range (s : string) (n : Z) :
  ParseInt s = inr n -> - 2 ^ 63 <= n <= 2 ^ 63 - 1.
Proof.
  destruct s as [|c rest]; [discriminate|].
  unfold ParseInt.
  destruct (ParseUint (if Ascii.eqb c "+" || Ascii.eqb c "-" then rest else String c rest))
    as [k|un] eqn:Hun; [discriminate|].
  apply ParseUint_nonneg in Hun.
  destruct (Ascii.eqb c "-"); simpl;
    destruct (Z.leb_spec (2 ^ 63) un) as [Hle|Hle];
    destruct (Z.ltb_spec (2 ^ 63) un) as [Hlt|Hlt];
    simpl; intros E; inversion E; subst; lia.
Qed.

Lemma Atoi_range (s : string) (n : Z) :
  Atoi s = inr n -> - 2 ^ 63 <= n <= 2 ^ 63 - 1.
Proof.
  unfold Atoi. destruct (ParseInt s) as [k|m] eqn:H; [discriminate|].
  intros E. inversion E; subst. apply (ParseInt_range s). exact H.
Qed.

Lemma portValidateFunc_spec (s : string) :
  portValidateFunc s = None <-> exists n, Atoi s = inr n.
Proof.
  unfold portValidateFunc. destruct (Atoi s) as [e|n]; split.
  - discriminate.
  - intros [n H]. discriminate.
  - intros _. exists n. reflexivity.
  - reflexivity.
Qed.

(** ** The prompt *)

Lemma eqb_empty_false (s : string) : s <> "" -> String.eqb s "" = false.
Proof. intros H. apply String.eqb_neq. exact H. Qed.

Lemma Ask_accepts (query : string) (opts : Options) (s : string) (rest : UI) :
  s <> "" -> validate opts s = None ->
  Ask query opts (Line s :: rest) = Some (inr s, rest).
Proof.
  intros Hs Hv. simpl. rewrite (eqb_empty_false s Hs). simpl. rewrite Hv. reflexivity.
Qed.

Lemma Ask_asks_again (query : string) (opts : Options) (s : string) (rest : UI) :
  s <> "" -> Loop opts = true -> validate opts s <> None ->
  Ask query opts (Line s :: rest) = Ask query opts rest.
Proof.
  intros Hs Hl Hv. simpl. rewrite (eqb_empty_false s Hs). simpl.
  destruct (validate opts s); [|congruence]. rewrite Hl. reflexivity.
Qed.

(** At the end of the script a prompt that returns leaves the script as it
    is. *)
Lemma Ask_nil (query : string) (opts : Options) (r : error + string) (ui' : UI) :
  Ask query opts [] = Some (r, ui') -> ui' = [].
Proof.
  simpl. destruct (negb (String.eqb (Default opts) "")).
  { intros H. inversion H. reflexivity. }
  destruct (Required opts).
  { destruct (Loop opts); intros H; inversion H. reflexivity. }
  destruct (validate opts "").
  { destruct (Loop opts); intros H; inversion H. reflexivity. }
  intros H. inversion H. reflexivity.
Qed.

Lemma Ask_length (query : string) (opts : Options) (ui : UI) :
  forall r ui', Ask query opts ui = Some (r, ui') ->
    (length ui' <= length ui)%nat /\ (ui <> [] -> (length ui' < length ui)%nat).
Proof.
  induction ui as [|i rest IH]; intros r ui' H.
  - apply Ask_nil in H. subst. split; [reflexivity | congruence].
  - simpl in H.
    assert (Hrec : Ask query opts rest = Some (r, ui') ->
                   (length ui' <= length (i :: rest))%nat /\
                   (i :: rest <> [] -> (length ui' < length (i :: rest))%nat)).
    { intros E. destruct (IH _ _ E) as [Hle _]. simpl. split; intros; lia. }
    assert (Hnow : forall x, Some (x, rest) = Some (r, ui') ->
                   (length ui' <= length (i :: rest))%nat /\
                   (i :: rest <> [] -> (length ui' < length (i :: rest))%nat)).
    { intros x E. inversion E; subst. simpl. split; intros; lia. }
    destruct i as [line|err].
    + destruct (String.eqb line "" && negb (String.eqb (Default opts) ""));
        [exact (Hnow _ H)|].
      destruct (String.eqb line "" && Required opts).
      { destruct (Loop opts); [exact (Hrec H) | exact (Hnow _ H)]. }
      destruct (validate opts line).
      { destruct (Loop opts); [exact (Hrec H) | exact (Hnow _ H)]. }
      exact (Hnow _ H).
    + exact (Hnow _ H).
Qed.

Lemma Ask_shrinks (query : string) (opts : Options) (ui ui' : UI) (r : error + string) :
  ui <> [] -> Ask query opts ui = Some (r, ui') -> (length ui' < length ui)%nat.
Proof. intros Hne H. destruct (Ask_length query opts ui _ _ H) as [_ Hlt]. auto. Qed.

Lemma Ask_le (query : string) (opts : Options) (ui ui' : UI) (r : error + string) :
  Ask query opts ui = Some (r, ui') -> (length ui' <= length ui)%nat.
Proof. intros H. apply (Ask_length query opts ui _ _ H). Qed.

(** ** AskSQLCredentials *)

Ltac body_cases check :=
  unfold AskSQLCredentials_body, askHost, askPort, askUser, askPass, askName, askTryAgain;
  repeat match goal with
  | |- context [Ask ?q ?o ?u] =>
      let E := fresh "E" in destruct (Ask q o u) as [[[?|?] ?]|] eqn:E
  | |- context [Atoi ?s] => let E := fresh "A" in destruct (Atoi s) eqn:E
  | |- context [check ?c] => let E := fresh "C" in destruct (check c) eqn:E
  | |- context [String.eqb ?a ?b] => let E := fresh "B" in destruct (String.eqb a b) eqn:E
  end.

Lemma body_le (dv : types_SQLCredentials) (check : types_SQLCredentials -> option error)
    (ui ui' : UI) (r : error + LoopStep) :
  AskSQLCredentials_body dv check ui = Some (r, ui') -> (length ui' <= length ui)%nat.
Proof.
  body_cases check; intros H; inversion H; subst;
    repeat match goal with
    | E : Ask _ _ _ = Some _ |- _ => apply Ask_le in E
    end; lia.
Qed.

(** A turn that starts on inputs and ends in [continue] has read one. *)
Lemma body_Continue_shrinks (dv : types_SQLCredentials)
    (check : types_SQLCredentials -> option error) (ui ui' : UI) :
  ui <> [] ->
  AskSQLCredentials_body dv check ui = Some (inr Continue, ui') ->
  (length ui' < length ui)%nat.
Proof.
  intros Hne. unfold AskSQLCredentials_body at 1. unfold askHost at 1.
  destruct (Ask _ (hostOptions dv) ui) as [[[?|?] ?]|] eqn:E0; try discriminate.
  apply (Ask_shrinks _ _ _ _ _ Hne) in E0.
  body_cases check; intros H; inversion H; subst;
    repeat match goal with
    | E : Ask _ _ _ = Some _ |- _ => apply Ask_le in E
    end; lia.
Qed.

Lemma body_nil (dv : types_SQLCredentials) (check : types_SQLCredentials -> option error)
    (ui' : UI) (r : error + LoopStep) :
  AskSQLCredentials_body dv check [] = Some (r, ui') -> ui' = [].
Proof. intros H. apply body_le in H. destruct ui'; [reflexivity | simpl in H; lia]. Qed.

(** A turn at the end of the script that ends in [continue] is followed by
    the same turn: no number of turns gives a result. *)
Lemma AskSQLCredentials_for_stuck (dv : types_SQLCredentials)
    (check : types_SQLCredentials -> option error) :
  AskSQLCredentials_body dv check [] = Some (inr Continue, []) ->
  forall turns, AskSQLCredentials_for turns dv check [] = None.
Proof.
  intros H. induction turns as [|turns IH]; [reflexivity|].
  simpl. rewrite H. exact IH.
Qed.

(** Turns beyond the length of the script do not change the result. *)
Lemma AskSQLCredentials_for_enough (dv : types_SQLCredentials)
    (check : types_SQLCredentials -> option error) :
  forall n m ui, (length ui < n)%nat -> (length ui < m)%nat ->
    AskSQLCredentials_for n dv check ui = AskSQLCredentials_for m dv check ui.
Proof.
  induction n as [|n IH]; intros m ui Hn Hm; [lia|].
  destruct m as [|m]; [lia|]. simpl.
  destruct (AskSQLCredentials_body dv check ui) as [[[e|[|creds]] ui']|] eqn:E;
    try reflexivity.
  destruct ui as [|i rest].
  - pose proof (body_nil _ _ _ _ E) as ->.
    rewrite !(AskSQLCredentials_for_stuck _ _ E). reflexivity.
  - apply body_Continue_shrinks in E; [|discriminate]. simpl in *. apply IH; lia.
Qed.

(** One turn, then the rest: what [continue] and [break] do. *)
Lemma AskSQLCredentials_unfold (ui : UI) (dv : types_SQLCredentials)
    (check : types_SQLCredentials -> option error) :
  AskSQLCredentials ui dv check =
  match AskSQLCredentials_body dv check ui with
  | None => None
  | Some (inl err, ui') => Some (inl err, ui')
  | Some (inr Continue, ui') => AskSQLCredentials ui' dv check
  | Some (inr (Break creds), ui') => Some (inr creds, ui')
  end.
Proof.
  unfold AskSQLCredentials at 1. simpl.
  destruct (AskSQLCredentials_body dv check ui) as [[[e|[|creds]] ui']|] eqn:E;
    try reflexivity.
  unfold AskSQLCredentials. destruct ui as [|i rest].
  - pose proof (body_nil _ _ _ _ E) as ->.
    rewrite !(AskSQLCredentials_for_stuck _ _ E). reflexivity.
  - apply body_Continue_shrinks in E; [|discriminate]. simpl in E.
    apply AskSQLCredentials_for_enough; simpl; lia.
Qed.

(** C6, as the code has it: the port prompt accepts exactly the strings that
    [strconv.Atoi] parses, which are the decimal integers of the 64-bit
    [int] range; no bound 1..65535 is applied.  An accepted line is returned
    as typed, a refused one makes the prompt ask again. *)
Theorem port_prompt_accepts_every_int
    (defaultValue : types_SQLCredentials) (s : string) (rest : UI) :
  (portValidateFunc s = None <-> exists n, Atoi s = inr n) /\
  (forall n, Atoi s = inr n -> - 2 ^ 63 <= n <= 2 ^ 63 - 1) /\
  (s <> "" -> portValidateFunc s = None ->
     askPort defaultValue (Line s :: rest) = Some (inr s, rest)) /\
  (s <> "" -> portValidateFunc s <> None ->
     askPort defaultValue (Line s :: rest) = askPort defaultValue rest).
Proof.
  split; [apply portValidateFunc_spec|].
  split; [apply Atoi_range|].
  split.
  - intros Hs Hv. apply Ask_accepts; assumption.
  - intros Hs Hv. apply Ask_asks_again; [assumption | reflexivity | assumption].
Qed.

Lemma port_prompt_accepts_every_int_witness :
  (portValidateFunc "70000" = None <-> exists n, Atoi "70000" = inr n) /\
  (forall n, Atoi "70000" = inr n -> - 2 ^ 63 <= n <= 2 ^ 63 - 1) /\
  askPort sim_credentials [Line "70000"] = Some (inr "70000", []) /\
  askPort sim_credentials [Line "http"; Line "5432"] = askPort sim_credentials [Line "5432"].
Proof.
  destruct (port_prompt_accepts_every_int sim_credentials "70000" []) as (H1 & H2 & H3 & _).
  destruct (port_prompt_accepts_every_int sim_credentials "http" [Line "5432"])
    as (_ & _ & _ & H4).
  split; [exact H1|]. split; [exact H2|]. split.
  - apply H3; [discriminate | reflexivity].
  - apply H4; [discriminate | vm_compute; discriminate].
Defined.

(** C6 as stated fails: the line "70000" passes the validator of the port
    prompt and becomes the port of the returned credentials. *)
Lemma port_70000_is_accepted :
  portValidateFunc "70000" = None /\
  Atoi "70000" = inr 70000 /\
  ~ (1 <= 70000 <= 65535) /\
  AskSQLCredentials [Line "db"; Line "70000"; Line "u"; Line "p"; Line "n"]
                    sim_credentials (fun _ => None)
  = Some (inr {| Host := "db"; User := "u"; Port := 70000; Pass := "p";
                 DatabaseName := "n" |}, []).
Proof.
  split; [reflexivity|]. split; [reflexivity|]. split; [lia|]. reflexivity.
Qed.

(** C7: when the connectivity check refuses the credentials just entered,
    the answer "No" (in any letter case) to the try-again prompt makes
    [AskSQLCredentials] return those credentials with a nil error, and the
    answer "Yes" makes it start over on what the operator types next. *)
Theorem AskSQLCredentials_try_again
    (defaultValue : types_SQLCredentials)
    (checkFunc : types_SQLCredentials -> option error)
    (ui ui1 ui2 ui3 ui4 ui5 ui6 : UI)
    (dbHost dbPortStr dbUser dbPass dbName tryAgain : string) (dbPort : Z) :
  (forall creds, checkFunc creds <> None) ->
  askHost defaultValue ui = Some (inr dbHost, ui1) ->
  askPort defaultValue ui1 = Some (inr dbPortStr, ui2) ->
  Atoi dbPortStr = inr dbPort ->
  askUser defaultValue ui2 = Some (inr dbUser, ui3) ->
  askPass defaultValue ui3 = Some (inr dbPass, ui4) ->
  askName defaultValue ui4 = Some (inr dbName, ui5) ->
  askTryAgain ui5 = Some (inr tryAgain, ui6) ->
  (ToLower tryAgain = "no" ->
     AskSQLCredentials ui defaultValue checkFunc
     = Some (inr {| Host := dbHost; User := dbUser; Port := dbPort; Pass := dbPass;
                    DatabaseName := dbName |}, ui6)) /\
  (ToLower tryAgain = "yes" ->
     AskSQLCredentials ui defaultValue checkFunc
     = AskSQLCredentials ui6 defaultValue checkFunc).
Proof.
  intros Hcheck Hhost Hport Hatoi Huser Hpass Hname Hagain.
  rewrite AskSQLCredentials_unfold. unfold AskSQLCredentials_body.
  rewrite Hhost, Hport, Hatoi, Huser, Hpass, Hname.
  cbv zeta.
  destruct (checkFunc _) as [e|] eqn:Hc; [|exfalso; exact (Hcheck _ Hc)].
  rewrite Hagain.
  split; intros Hans; rewrite Hans; reflexivity.
Qed.

Lemma AskSQLCredentials_try_again_witness :
  AskSQLCredentials
    [Line "db"; Line "5432"; Line "u"; Line "p"; Line "n"; Line "No"]
    sim_credentials (fun _ => Some (errorString "connection refused"))
  = Some (inr {| Host := "db"; User := "u"; Port := 5432; Pass := "p";
                 DatabaseName := "n" |}, []).
Proof.
  apply (AskSQLCredentials_try_again sim_credentials
           (fun _ => Some (errorString "connection refused"))
           [Line "db"; Line "5432"; Line "u"; Line "p"; Line "n"; Line "No"]
           [Line "5432"; Line "u"; Line "p"; Line "n"; Line "No"]
           [Line "u"; Line "p"; Line "n"; Line "No"]
           [Line "p"; Line "n"; Line "No"]
           [Line "n"; Line "No"]
           [Line "No"]
           []
           "db" "5432" "u" "p" "n" "No" 5432);
    try reflexivity.
  intros creds. discriminate.
Defined.

(** ** printSummary *)

Lemma read_c_Sprintf_c (b : ascii) (rest : string) :
  read_c (Sprintf_c b +:+ rest) = Some (b, rest).
Proof.
  destruct b as [[] [] [] [] [] [] [] []]; reflexivity.
Qed.

Lemma mask_injective (a b a' b' : ascii) :
  Sprintf_c a +:+ "***" +:+ Sprintf_c b = Sprintf_c a' +:+ "***" +:+ Sprintf_c b' ->
  a = a' /\ b = b'.
Proof.
  intros H.
  assert (H1 := read_c_Sprintf_c a ("***" +:+ Sprintf_c b)).
  rewrite H, read_c_Sprintf_c in H1. inversion H1 as [[Ha Hrest]]. subst a'.
  split; [reflexivity|].
  cbv beta iota delta [String.append] in Hrest. inversion Hrest as [Hb].
  assert (H2 := read_c_Sprintf_c b "").
  assert (H3 := read_c_Sprintf_c b' "").
  assert (Hnil : forall s, s +:+ "" = s).
  { intros s. induction s as [|c s IH]; [reflexivity|].
    change (String c (s +:+ "") = String c s). rewrite IH. reflexivity. }
  rewrite Hnil in H2, H3. rewrite Hb in H3. congruence.
Qed.

Lemma byte_at_nonempty (s : string) :
  s <> "" ->
  exists first last, byte_at s 0 = Some first /\ byte_at s (len s - 1) = Some last.
Proof.
  intros Hs. destruct s as [|c rest]; [congruence|].
  exists c. unfold byte_at, len.
  assert (Hget : forall (t : string) (d : ascii),
             exists x, String.get (String.length t) (String d t) = Some x).
  { intros t. induction t as [|e t IH]; intros d; simpl.
    - eauto.
    - destruct (IH e) as [x Hx]. exists x. exact Hx. }
  destruct (Hget rest c) as [x Hx]. exists x.
  split; [reflexivity|].
  replace (Z.of_nat (String.length (String c rest)) - 1)
    with (Z.of_nat (String.length rest)) by (simpl String.length; lia).
  destruct (Z.ltb_spec (Z.of_nat (String.length rest)) 0); [lia|].
  rewrite Nat2Z.id. exact Hx.
Qed.

(** C10: [printSummary] panics on an empty SQL password; on a non-empty one
    it prints the table whose password cell is the first byte, three stars,
    the last byte; and two non-empty passwords give the same summary exactly
    when they have the same first byte and the same last byte, so the
    summary shows these two bytes and nothing else of the password. *)
Theorem printSummary_masks_password (settings : GenerateSettings) :
  (Pass (SQLCredentials settings) = "" ->
     printSummary settings = Panic "index out of range") /\
  (Pass (SQLCredentials settings) <> "" ->
     exists first last rows,
       byte_at (Pass (SQLCredentials settings)) 0 = Some first /\
       byte_at (Pass (SQLCredentials settings))
               (len (Pass (SQLCredentials settings)) - 1) = Some last /\
       printSummary settings = Ok rows /\
       In ("SQL Password", CStr (Sprintf_c first +:+ "***" +:+ Sprintf_c last)) rows) /\
  (forall p q : string, p <> "" -> q <> "" ->
     (printSummary (withPass settings p) = printSummary (withPass settings q) <->
      byte_at p 0 = byte_at q 0 /\ byte_at p (len p - 1) = byte_at q (len q - 1))).
Proof.
  split; [|split].
  - intros H. unfold printSummary. rewrite H. reflexivity.
  - intros H. destruct (byte_at_nonempty _ H) as (first & last & Hf & Hl).
    exists first, last. unfold printSummary, maskedPassword. rewrite Hf, Hl.
    eexists. split; [reflexivity|]. split; [reflexivity|]. split; [reflexivity|].
    simpl. do 7 right. left. reflexivity.
  - intros p q Hp Hq.
    destruct (byte_at_nonempty _ Hp) as (pf & pl & Hpf & Hpl).
    destruct (byte_at_nonempty _ Hq) as (qf & ql & Hqf & Hql).
    unfold printSummary, maskedPassword. simpl.
    rewrite Hpf, Hpl, Hqf, Hql. split.
    + intros H. inversion H as [Hmask].
      apply mask_injective in Hmask as [-> ->]. split; reflexivity.
    + intros [Hf Hl]. inversion Hf; inversion Hl; subst. reflexivity.
Qed.

Lemma printSummary_masks_password_witness :
  printSummary (withPass (sim_settings StartFromBlock0) "") = Panic "index out of range" /\
  (exists first last rows,
     byte_at "secret" 0 = Some first /\ byte_at "secret" (len "secret" - 1) = Some last /\
     printSummary (sim_settings StartFromBlock0) = Ok rows /\
     In ("SQL Password", CStr (Sprintf_c first +:+ "***" +:+ Sprintf_c last)) rows) /\
  printSummary (withPass (sim_settings StartFromBlock0) "secret")
  = printSummary (withPass (sim_settings StartFromBlock0) "st").
Proof.
  destruct (printSummary_masks_password (withPass (sim_settings StartFromBlock0) ""))
    as (H1 & _ & _).
  destruct (printSummary_masks_password (sim_settings StartFromBlock0)) as (_ & H2 & H3).
  split; [apply H1; reflexivity|]. split; [apply H2; discriminate|].
  apply (H3 "secret" "st"); [discriminate | discriminate | split; reflexivity].
Defined.

(** ** The generator *)

Section GeneratorProperties.

Variable P : Platform.

Lemma run_stages_app (pre post : list (string * (binaries -> M binaries)))
    (b : binaries) (w : World) :
  run_stages (pre ++ post) b w =
  match run_stages pre b w with
  | (Ok b', w') => run_stages post b' w'
  | (Err e, w') => (Err e, w')
  | (Panic msg, w') => (Panic msg, w')
  end.
Proof.
  revert b w. induction pre as [|[context step] pre IH]; intros b w; [reflexivity|].
  simpl. unfold bind.
  destruct (wrap context (step b) w) as [[b'|e|msg] w']; [apply IH | reflexivity..].
Qed.

(** [Run] is the pipeline of its ten stages. *)
Lemma Run_stages (gen : DataNodeGenerator) (w : World) :
  Run P gen w = (run_stages (stages P gen) (mkBinaries "" "" "") ;;; ret tt) w.
Proof.
  unfold Run, stages, run_stages, bind, wrap, ret.
  repeat (cbn [outputDir vegaBinaryPath visorBinaryPath];
    match goal with
    | |- context [call P ?c ?u] => destruct (call P c u) as [[?|?|?] ?]
    | |- context [initNode P ?g ?a ?b ?u] => destruct (initNode P g a b u) as [[?|?|?] ?]
    | |- context [prepareVisorHome P ?g ?u] =>
        destruct (prepareVisorHome P g u) as [[?|?|?] ?]
    | |- context [copyBinaries P ?g ?a ?b ?u] =>
        destruct (copyBinaries P g a b u) as [[?|?|?] ?]
    | |- context [updateConfigs P ?g ?u] => destruct (updateConfigs P g u) as [[?|?|?] ?]
    | |- context [downloadGenesis P ?g ?u] =>
        destruct (downloadGenesis P g u) as [[?|?|?] ?]
    end); reflexivity.
Qed.

(** C9: when the stages before a stage have passed and that stage returns an
    error, [Run] returns that error behind the text of the stage, in the
    world the failing stage left: nothing is done after it.  The error [Run]
    returns unwraps to the error of the stage, and no two stages have the
    same text. *)
Theorem Run_stops_at_first_error
    (gen : DataNodeGenerator)
    (pre post : list (string * (binaries -> M binaries)))
    (context : string) (step : binaries -> M binaries)
    (b : binaries) (w w1 w2 : World) (e : error) :
  stages P gen = (pre ++ (context, step) :: post)%list ->
  run_stages pre (mkBinaries "" "" "") w = (Ok b, w1) ->
  step b w1 = (Err e, w2) ->
  Run P gen w = (Err (fmt_Errorf_w context e), w2) /\
  Unwrap (fmt_Errorf_w context e) = Some e /\
  NoDup (map fst (stages P gen)).
Proof.
  intros Hstages Hpre Hstep. split; [|split].
  - rewrite Run_stages. unfold bind at 1. rewrite Hstages, run_stages_app, Hpre.
    simpl. unfold bind, wrap. rewrite Hstep. reflexivity.
  - reflexivity.
  - unfold stages. cbn [map fst].
    apply NoDup_ListNoDup.
    repeat (constructor; [simpl; intuition discriminate|]).
    constructor.
Qed.

(** *** Which calls a run makes *)

Section Only.

Variable Q : Call -> Prop.

Lemma only_ret {A : Type} (a : A) : only Q (ret a).
Proof. intros w. exists []. simpl. rewrite app_nil_r. split; [reflexivity | constructor]. Qed.

Lemma only_fail {A : Type} (e : error) : only Q (@fail A e).
Proof. intros w. exists []. simpl. rewrite app_nil_r. split; [reflexivity | constructor]. Qed.

Lemma only_panic {A : Type} (msg : string) : only Q (@panic A msg).
Proof. intros w. exists []. simpl. rewrite app_nil_r. split; [reflexivity | constructor]. Qed.

Lemma only_bind {A B : Type} (m : M A) (k : A -> M B) :
  only Q m -> (forall a, only Q (k a)) -> only Q (bind m k).
Proof.
  intros Hm Hk w. destruct (Hm w) as (l & Hl & HQ). unfold bind.
  destruct (m w) as [[a|e|msg] w']; simpl in *; eauto.
  destruct (Hk a w') as (l' & Hl' & HQ'). exists (l ++ l')%list.
  rewrite Hl', Hl, app_assoc. split; [reflexivity|]. apply Forall_app. auto.
Qed.

Lemma only_wrap {A : Type} (prefix : string) (m : M A) : only Q m -> only Q (wrap prefix m).
Proof.
  intros Hm w. destruct (Hm w) as (l & Hl & HQ). unfold wrap.
  destruct (m w) as [[a|e|msg] w']; simpl in *; eauto.
Qed.

Lemma only_call (c : Call) : Q c -> only Q (call P c).
Proof.
  intros Hc w. exists [c]. unfold call. destruct (extern P c (fs w)) as [r fs'].
  simpl. split; [reflexivity|]. constructor; [exact Hc | constructor].
Qed.

Lemma only_Symlink (oldname newname : string) :
  Q (OsSymlink oldname newname) -> only Q (os_Symlink oldname newname).
Proof.
  intros Hc w. exists [OsSymlink oldname newname]. unfold os_Symlink.
  destruct (fs w !! newname); simpl; (split; [reflexivity|]);
    (constructor; [exact Hc | constructor]).
Qed.

Lemma only_index (l : list string) (i : nat) : only Q (index l i).
Proof. unfold index. destruct (nth_error l i); [apply only_ret | apply only_panic]. Qed.

Lemma only_configKeySets (gen : DataNodeGenerator) : only Q (configKeySets P gen).
Proof.
  unfold configKeySets.
  apply only_bind; [apply only_index | intros owner].
  apply only_bind; [apply only_index | intros name].
  destruct (StartupMode_eqb _ _); [|apply only_ret].
  destruct (String.eqb _ _); [apply only_fail|].
  destruct (Atoi _); [apply only_fail | apply only_ret].
Qed.

End Only.

Ltac only_steps :=
  repeat first
    [ apply only_ret
    | apply only_wrap
    | apply only_call; reflexivity
    | apply only_Symlink; reflexivity
    | apply only_configKeySets
    | apply only_bind; [|intros ?]
    | match goal with
      | |- only _ (match ?k with _ => _ end) => destruct k as [[[? ?] ?] ?]
      end ].

Lemma only_after_call (Q : Call -> Prop) {A : Type}
    (prefix : string) (c : Call) (k : string -> M A) :
  (forall a, only Q (k a)) ->
  forall w, exists l,
    trace (snd (bind (wrap prefix (call P c)) k w)) = (trace w ++ c :: l)%list /\
    Forall Q l.
Proof.
  intros Hk w. unfold bind, wrap, call.
  destruct (extern P c (fs w)) as [[e|v] fs']; simpl.
  - exists []. split; [reflexivity | constructor].
  - destruct (Hk v {| fs := fs'; trace := trace w ++ [c] |}) as (l & Hl & HQ).
    exists l. rewrite Hl. simpl. rewrite <- app_assoc. split; [reflexivity | exact HQ].
Qed.

(** *** Which entries a run leaves *)

Section Keeps.

Hypothesis Hkeep :
  forall c files k,
    removes c = false -> is_Some (files !! k) -> is_Some (snd (extern P c files) !! k).

Lemma keeps_ret {A : Type} (a : A) : keeps (ret a).
Proof. intros w k H. exact H. Qed.

Lemma keeps_fail {A : Type} (e : error) : keeps (@fail A e).
Proof. intros w k H. exact H. Qed.

Lemma keeps_panic {A : Type} (msg : string) : keeps (@panic A msg).
Proof. intros w k H. exact H. Qed.

Lemma keeps_bind {A B : Type} (m : M A) (k : A -> M B) :
  keeps m -> (forall a, keeps (k a)) -> keeps (bind m k).
Proof.
  intros Hm Hk w key H. specialize (Hm w key H). unfold bind.
  destruct (m w) as [[a|e|msg] w']; simpl in *; auto. apply Hk. exact Hm.
Qed.

Lemma keeps_wrap {A : Type} (prefix : string) (m : M A) : keeps m -> keeps (wrap prefix m).
Proof.
  intros Hm w key H. specialize (Hm w key H). unfold wrap.
  destruct (m w) as [[a|e|msg] w']; simpl in *; exact Hm.
Qed.

Lemma keeps_call (c : Call) : removes c = false -> keeps (call P c).
Proof.
  intros Hc w key H. unfold call. pose proof (Hkeep c (fs w) key Hc H) as Hk.
  destruct (extern P c (fs w)) as [r fs']. exact Hk.
Qed.

Lemma keeps_Symlink (oldname newname : string) : keeps (os_Symlink oldname newname).
Proof.
  intros w key H. unfold os_Symlink.
  destruct (fs w !! newname) eqn:E; simpl; [exact H|].
  apply lookup_insert_is_Some. destruct (decide (newname = key)); auto.
Qed.

Lemma keeps_index (l : list string) (i : nat) : keeps (index l i).
Proof. unfold index. destruct (nth_error l i); [apply keeps_ret | apply keeps_panic]. Qed.

Lemma keeps_configKeySets (gen : DataNodeGenerator) : keeps (configKeySets P gen).
Proof.
  unfold configKeySets.
  apply keeps_bind; [apply keeps_index | intros owner].
  apply keeps_bind; [apply keeps_index | intros name].
  destruct (StartupMode_eqb _ _); [|apply keeps_ret].
  destruct (String.eqb _ _); [apply keeps_fail|].
  destruct (Atoi _); [apply keeps_fail | apply keeps_ret].
Qed.

Lemma keeps_after {A B : Type} (prefix : string) (m : M A) (k : A -> M B) :
  (forall a, keeps (k a)) ->
  forall w key,
    is_Some (fs (snd (m w)) !! key) ->
    is_Some (fs (snd (bind (wrap prefix m) k w)) !! key).
Proof.
  intros Hk w key H. unfold bind, wrap.
  destruct (m w) as [[a|e|msg] w']; simpl in *; auto. apply Hk. exact H.
Qed.

(** Once the staging directory is made, a run takes nothing away. *)
Lemma Run_keeps (gen : DataNodeGenerator) (w : World) (k : string) :
  is_Some (fs (snd (call P (OsMkdirTemp "" "vega-assistant") w)) !! k) ->
  is_Some (fs (snd (Run P gen w)) !! k).
Proof.
  unfold Run. apply keeps_after. intros outputDir.
  unfold initNode, prepareVisorHome, copyBinaries, updateConfigs, downloadGenesis.
  destruct (StartupMode_eqb (Mode (userSettings gen)) StartFromBlock0);
    repeat first
      [ apply keeps_ret
      | apply keeps_wrap
      | apply keeps_call; reflexivity
      | apply keeps_Symlink
      | apply keeps_configKeySets
      | apply keeps_bind; [|intros ?]
      | match goal with
        | |- keeps (match ?k with _ => _ end) => destruct k as [[[? ?] ?] ?]
        end ].
Qed.

End Keeps.

(** C5, as the code has it: every run of the pipeline first creates the
    staging directory with [os.MkdirTemp] and, whether it then finishes or
    stops at a failing step, never calls [os.RemoveAll].  So on a machine
    where the other calls take no entry out of the file system, every entry
    there is once the staging directory is created, that directory with
    them, is still there when the run returns. *)
Theorem Run_never_removes_staging_directory (gen : DataNodeGenerator) (w : World) :
  (exists l,
     trace (snd (Run P gen w)) = (trace w ++ OsMkdirTemp "" "vega-assistant" :: l)%list /\
     Forall (fun c => removes c = false) l) /\
  ((forall c files k,
      removes c = false -> is_Some (files !! k) -> is_Some (snd (extern P c files) !! k)) ->
   forall k,
     is_Some (fs (snd (call P (OsMkdirTemp "" "vega-assistant") w)) !! k) ->
     is_Some (fs (snd (Run P gen w)) !! k)).
Proof.
  split.
  - unfold Run. apply only_after_call. intros outputDir.
    unfold initNode, prepareVisorHome, copyBinaries, updateConfigs, downloadGenesis.
    destruct (StartupMode_eqb (Mode (userSettings gen)) StartFromBlock0); only_steps.
  - intros Hkeep k. apply Run_keeps. exact Hkeep.
Qed.

(** *** The supervisor home *)

Ltac run_call :=
  match goal with
  | |- context [extern P ?c ?f] => destruct (extern P c f) as [[?|?] ?]
  | |- context [@lookup string Node _ _ ?k ?m] =>
      destruct (@lookup string Node _ _ k m)
  end; simpl.

Lemma call_trace (c : Call) (w w' : World) (r : outcome string) :
  call P c w = (r, w') -> trace w' = (trace w ++ [c])%list.
Proof.
  unfold call. destruct (extern P c (fs w)) as [x f]. intros H. inversion H. reflexivity.
Qed.

Lemma os_Symlink_trace (oldname newname : string) (w : World) :
  trace (snd (os_Symlink oldname newname w)) = (trace w ++ [OsSymlink oldname newname])%list.
Proof. unfold os_Symlink. destruct (fs w !! newname); reflexivity. Qed.

Lemma prepareVisorHome_dir (gen : DataNodeGenerator) (dir : string) :
  dir = (if StartupMode_eqb (Mode (userSettings gen)) StartFromBlock0
         then "genesis" else MainnetVersion (userSettings gen)) ->
  prepareVisorHome P gen =
  (wrap "failed to make directory: "
     (call P (OsMkdirAll (filepath_Join P [VisorHome (userSettings gen); dir]))) ;;;
   runConfigContent <-
     wrap "failed to generate run-config.toml from template: "
       (call P (VegacmdTemplateVisorRunConfig dir
                  (VegaHome (userSettings gen)) (TendermintHome (userSettings gen)))) ;;
   wrap ("failed to write run-config.toml in " +:+ runConfigContent +:+ ": ")
     (call P (OsWriteFile
                (filepath_Join P [filepath_Join P [VisorHome (userSettings gen); dir];
                                  "run-config.toml"]) runConfigContent)) ;;;
   ret tt).
Proof.
  intros ->. unfold prepareVisorHome.
  destruct (StartupMode_eqb (Mode (userSettings gen)) StartFromBlock0); reflexivity.
Qed.

Lemma copyBinaries_dir (gen : DataNodeGenerator) (dir vegaBinary visorBinary : string) :
  dir = (if StartupMode_eqb (Mode (userSettings gen)) StartFromBlock0
         then "genesis" else MainnetVersion (userSettings gen)) ->
  copyBinaries P gen vegaBinary visorBinary =
  (wrap "failed to copy visor binary: "
     (call P (UtilsCopyFile visorBinary
                (filepath_Join P [VisorHome (userSettings gen); "visor"]))) ;;;
   wrap "failed to copy vega binary: "
     (call P (UtilsCopyFile vegaBinary
                (filepath_Join P [VisorHome (userSettings gen); dir; "vega"]))) ;;;
   wrap ("failed to create symlink from "
           +:+ filepath_Join P [VisorHome (userSettings gen); dir] +:+ " to "
           +:+ filepath_Join P [VisorHome (userSettings gen); "current"] +:+ ": ")
     (os_Symlink (filepath_Join P [VisorHome (userSettings gen); dir])
                 (filepath_Join P [VisorHome (userSettings gen); "current"])) ;;;
   ret tt).
Proof.
  intros ->. unfold copyBinaries.
  destruct (StartupMode_eqb (Mode (userSettings gen)) StartFromBlock0); reflexivity.
Qed.

Lemma prepareVisorHome_calls (gen : DataNodeGenerator) (dir : string) (w : World) :
  dir = (if StartupMode_eqb (Mode (userSettings gen)) StartFromBlock0
         then "genesis" else MainnetVersion (userSettings gen)) ->
  exists n data,
    calls (prepareVisorHome P gen) w =
    take n [ OsMkdirAll (filepath_Join P [VisorHome (userSettings gen); dir]);
             VegacmdTemplateVisorRunConfig dir (VegaHome (userSettings gen))
               (TendermintHome (userSettings gen));
             OsWriteFile
               (filepath_Join P [filepath_Join P [VisorHome (userSettings gen); dir];
                                 "run-config.toml"]) data ] /\
    (1 <= n)%nat /\
    (fst (prepareVisorHome P gen w) = Ok tt -> n = 3%nat).
Proof.
  intros Hdir. rewrite (prepareVisorHome_dir gen dir Hdir). unfold calls.
  unfold bind, wrap, call, ret; simpl;
    repeat run_call;
    first
      [ exists 1%nat, ""; split; [apply drop_app_length | split; [lia | discriminate]]
      | exists 2%nat, ""; split;
          [rewrite <- app_assoc; apply drop_app_length | split; [lia | discriminate]]
      | eexists 3%nat, _; split;
          [rewrite <- !app_assoc; apply drop_app_length | split; [lia | discriminate]]
      | eexists 3%nat, _; split;
          [rewrite <- !app_assoc; apply drop_app_length | split; [lia | reflexivity]] ].
Qed.

Lemma copyBinaries_calls (gen : DataNodeGenerator) (dir vegaBinary visorBinary : string)
    (w : World) :
  dir = (if StartupMode_eqb (Mode (userSettings gen)) StartFromBlock0
         then "genesis" else MainnetVersion (userSettings gen)) ->
  exists n,
    calls (copyBinaries P gen vegaBinary visorBinary) w =
    take n [ UtilsCopyFile visorBinary (filepath_Join P [VisorHome (userSettings gen); "visor"]);
             UtilsCopyFile vegaBinary
               (filepath_Join P [VisorHome (userSettings gen); dir; "vega"]);
             OsSymlink (filepath_Join P [VisorHome (userSettings gen); dir])
                       (filepath_Join P [VisorHome (userSettings gen); "current"]) ] /\
    (1 <= n)%nat /\
    (fst (copyBinaries P gen vegaBinary visorBinary w) = Ok tt -> n = 3%nat).
Proof.
  intros Hdir. rewrite (copyBinaries_dir gen dir vegaBinary visorBinary Hdir). unfold calls.
  unfold bind, wrap, call, os_Symlink, ret; simpl;
    repeat run_call;
    first
      [ exists 1%nat; split; [apply drop_app_length | split; [lia | discriminate]]
      | exists 2%nat; split;
          [rewrite <- app_assoc; apply drop_app_length | split; [lia | discriminate]]
      | exists 3%nat; split;
          [rewrite <- !app_assoc; apply drop_app_length | split; [lia | discriminate]]
      | exists 3%nat; split;
          [rewrite <- !app_assoc; apply drop_app_length | split; [lia | reflexivity]] ].
Qed.

(** The directory, the template, the write: each as soon as the one before
    has succeeded. *)
Lemma prepareVisorHome_places (gen : DataNodeGenerator) (dir : string)
    (w w1 w2 : World) (r1 content : string) :
  dir = (if StartupMode_eqb (Mode (userSettings gen)) StartFromBlock0
         then "genesis" else MainnetVersion (userSettings gen)) ->
  call P (OsMkdirAll (filepath_Join P [VisorHome (userSettings gen); dir])) w = (Ok r1, w1) ->
  call P (VegacmdTemplateVisorRunConfig dir (VegaHome (userSettings gen))
            (TendermintHome (userSettings gen))) w1 = (Ok content, w2) ->
  calls (prepareVisorHome P gen) w
  = [ OsMkdirAll (filepath_Join P [VisorHome (userSettings gen); dir]);
      VegacmdTemplateVisorRunConfig dir (VegaHome (userSettings gen))
        (TendermintHome (userSettings gen));
      OsWriteFile
        (filepath_Join P [filepath_Join P [VisorHome (userSettings gen); dir];
                          "run-config.toml"]) content ] /\
  forall r3 w3,
    call P (OsWriteFile
              (filepath_Join P [filepath_Join P [VisorHome (userSettings gen); dir];
                                "run-config.toml"]) content) w2 = (Ok r3, w3) ->
    prepareVisorHome P gen w = (Ok tt, w3).
Proof.
  intros Hdir H1 H2. rewrite (prepareVisorHome_dir gen dir Hdir).
  unfold calls, bind, wrap. rewrite H1. cbv beta iota. rewrite H2. cbv beta iota.
  pose proof (call_trace _ _ _ _ H1) as T1. pose proof (call_trace _ _ _ _ H2) as T2.
  split.
  - destruct (call P (OsWriteFile _ content) w2) as [[r3|e3|m3] w3] eqn:H3;
      pose proof (call_trace _ _ _ _ H3) as T3; cbn [snd ret];
      rewrite T3, T2, T1, <- !app_assoc; apply drop_app_length.
  - intros r3 w3 H3. rewrite H3. reflexivity.
Qed.

(** The two copies and the link: each as soon as the one before has
    succeeded, and the link leaves what the copies have placed. *)
Lemma copyBinaries_places (gen : DataNodeGenerator) (dir vegaBinary visorBinary : string)
    (w w1 : World) (r1 : string) :
  dir = (if StartupMode_eqb (Mode (userSettings gen)) StartFromBlock0
         then "genesis" else MainnetVersion (userSettings gen)) ->
  call P (UtilsCopyFile visorBinary
            (filepath_Join P [VisorHome (userSettings gen); "visor"])) w = (Ok r1, w1) ->
  nth_error (calls (copyBinaries P gen vegaBinary visorBinary) w) 1
  = Some (UtilsCopyFile vegaBinary
            (filepath_Join P [VisorHome (userSettings gen); dir; "vega"])) /\
  forall r2 w2,
    call P (UtilsCopyFile vegaBinary
              (filepath_Join P [VisorHome (userSettings gen); dir; "vega"])) w1
    = (Ok r2, w2) ->
    calls (copyBinaries P gen vegaBinary visorBinary) w
    = [ UtilsCopyFile visorBinary (filepath_Join P [VisorHome (userSettings gen); "visor"]);
        UtilsCopyFile vegaBinary
          (filepath_Join P [VisorHome (userSettings gen); dir; "vega"]);
        OsSymlink (filepath_Join P [VisorHome (userSettings gen); dir])
                  (filepath_Join P [VisorHome (userSettings gen); "current"]) ] /\
    forall k, k <> filepath_Join P [VisorHome (userSettings gen); "current"] ->
      fs (snd (copyBinaries P gen vegaBinary visorBinary w)) !! k = fs w2 !! k.
Proof.
  intros Hdir H1. rewrite (copyBinaries_dir gen dir vegaBinary visorBinary Hdir).
  unfold calls, bind, wrap. rewrite H1. cbv beta iota.
  pose proof (call_trace _ _ _ _ H1) as T1.
  split.
  - destruct (call P (UtilsCopyFile vegaBinary _) w1) as [[r2|e2|m2] w2] eqn:H2;
      pose proof (call_trace _ _ _ _ H2) as T2; cbv beta iota.
    + unfold os_Symlink. destruct (fs w2 !! _); cbn [snd ret trace];
        rewrite T2, T1, <- !app_assoc, drop_app_length; reflexivity.
    + cbn [snd]. rewrite T2, T1, <- !app_assoc, drop_app_length. reflexivity.
    + cbn [snd]. rewrite T2, T1, <- !app_assoc, drop_app_length. reflexivity.
  - intros r2 w2 H2. rewrite H2. cbv beta iota.
    pose proof (call_trace _ _ _ _ H2) as T2.
    unfold os_Symlink. destruct (fs w2 !! _) eqn:E; cbn [snd ret trace fs].
    + split; [rewrite T2, T1, <- !app_assoc; apply drop_app_length | reflexivity].
    + split; [rewrite T2, T1, <- !app_assoc; apply drop_app_length|].
      intros k Hk. apply lookup_insert_ne. congruence.
Qed.

Lemma visorLayout_holds (gen : DataNodeGenerator) (dir vegaBinary visorBinary : string)
    (w : World) :
  dir = (if StartupMode_eqb (Mode (userSettings gen)) StartFromBlock0
         then "genesis" else MainnetVersion (userSettings gen)) ->
  visorLayout P gen dir vegaBinary visorBinary w.
Proof.
  intros Hdir. unfold visorLayout. cbv zeta. split; [|split; [|split]].
  - exact (prepareVisorHome_calls gen dir w Hdir).
  - intros r1 w1 content w2. exact (prepareVisorHome_places gen dir w w1 w2 r1 content Hdir).
  - exact (copyBinaries_calls gen dir vegaBinary visorBinary w Hdir).
  - intros r1 w1. exact (copyBinaries_places gen dir vegaBinary visorBinary w w1 r1 Hdir).
Qed.

(** C2: started from block 0, the pipeline puts the run configuration and
    the node binary in the subdirectory "genesis" of the supervisor home:
    the directory made, the file written and the destination of the copy
    are in it, each call is made as soon as the one before has succeeded,
    and the two steps do the same whatever the version string is.  Started
    from the network history, the subdirectory has the name of the
    version. *)
Theorem visor_home_subdirectory
    (gen : DataNodeGenerator) (vegaBinary visorBinary : string) (w : World) :
  (Mode (userSettings gen) = StartFromBlock0 ->
     visorLayout P gen "genesis" vegaBinary visorBinary w /\
     forall version,
       prepareVisorHome P (withVersion gen version) = prepareVisorHome P gen /\
       copyBinaries P (withVersion gen version) vegaBinary visorBinary
       = copyBinaries P gen vegaBinary visorBinary) /\
  (Mode (userSettings gen) = StartFromNetworkHistory ->
     visorLayout P gen (MainnetVersion (userSettings gen)) vegaBinary visorBinary w).
Proof.
  split; intros Hmode.
  - split; [apply visorLayout_holds; rewrite Hmode; reflexivity|].
    intros version. unfold prepareVisorHome, copyBinaries, withVersion. simpl.
    rewrite Hmode. split; reflexivity.
  - apply visorLayout_holds. rewrite Hmode. reflexivity.
Qed.

(** C4, as the code has it: after the two copies, [copyBinaries] calls
    [os.Symlink] once.  When the supervisor home has no entry "current" the
    link to the versioned subdirectory is created and the step succeeds;
    when it has one, the entry is left as it was and the step returns the
    error of the call: nothing is replaced. *)
Theorem copyBinaries_links_current
    (gen : DataNodeGenerator) (dir vegaBinary visorBinary : string)
    (w w1 w2 : World) (r1 r2 : string) :
  dir = (if StartupMode_eqb (Mode (userSettings gen)) StartFromBlock0
         then "genesis" else MainnetVersion (userSettings gen)) ->
  call P (UtilsCopyFile visorBinary
            (filepath_Join P [VisorHome (userSettings gen); "visor"])) w = (Ok r1, w1) ->
  call P (UtilsCopyFile vegaBinary
            (filepath_Join P [VisorHome (userSettings gen); dir; "vega"])) w1 = (Ok r2, w2) ->
  let versionDirectory := filepath_Join P [VisorHome (userSettings gen); dir] in
  let currentDirectory := filepath_Join P [VisorHome (userSettings gen); "current"] in
  (fs w2 !! currentDirectory = None ->
     copyBinaries P gen vegaBinary visorBinary w
     = (Ok tt,
        {| fs := <[currentDirectory := Link versionDirectory]> (fs w2);
           trace := trace w2 ++ [OsSymlink versionDirectory currentDirectory] |})) /\
  (forall entry, fs w2 !! currentDirectory = Some entry ->
     copyBinaries P gen vegaBinary visorBinary w
     = (Err (fmt_Errorf_w
               ("failed to create symlink from " +:+ versionDirectory +:+ " to "
                  +:+ currentDirectory +:+ ": ")
               (EEXIST versionDirectory currentDirectory)),
        {| fs := fs w2;
           trace := trace w2 ++ [OsSymlink versionDirectory currentDirectory] |})).
Proof.
  intros -> Hvisor Hvega versionDirectory currentDirectory.
  unfold copyBinaries. fold versionDirectory currentDirectory.
  unfold bind, wrap. rewrite Hvisor. cbv beta iota. rewrite Hvega. cbv beta iota.
  unfold os_Symlink. split.
  - intros Hnone. rewrite Hnone. reflexivity.
  - intros entry Hsome. rewrite Hsome. reflexivity.
Qed.

(** *** The key sets of updateConfigs *)

Lemma configKeySets_genesis (gen : DataNodeGenerator) (w : World) (owner name : string) :
  Mode (userSettings gen) = StartFromBlock0 ->
  nth_error (Split (Repository (networkConfig gen)) "/") 0 = Some owner ->
  nth_error (Split (Repository (networkConfig gen)) "/") 1 = Some name ->
  configKeySets P gen w
  = (Ok (dataNodeConfig gen, vegaConfig, tendermintConfig gen, vegavisorConfig P owner name),
     w).
Proof.
  intros Hmode H0 H1. unfold configKeySets, index, bind, ret.
  rewrite H0, H1, Hmode. reflexivity.
Qed.

Lemma configKeySets_history (gen : DataNodeGenerator) (w : World) (owner name : string)
    (h : Z) :
  Mode (userSettings gen) = StartFromNetworkHistory ->
  BlockHash (LatestSnapshot (userSettings gen)) <> "" ->
  Atoi (BlockHeight (LatestSnapshot (userSettings gen))) = inr h ->
  nth_error (Split (Repository (networkConfig gen)) "/") 0 = Some owner ->
  nth_error (Split (Repository (networkConfig gen)) "/") 1 = Some name ->
  configKeySets P gen w
  = (Ok (<["AutoInitialiseFromNetworkHistory" := VBool true]> (dataNodeConfig gen),
         vegaConfig,
         <["statesync.trust_hash" :=
             VString (BlockHash (LatestSnapshot (userSettings gen)))]> (
         <["statesync.trust_height" := VInt h]> (
         <["statesync.enable" := VBool true]> (tendermintConfig gen))),
         vegavisorConfig P owner name),
     w).
Proof.
  intros Hmode Hhash Hatoi H0 H1. unfold configKeySets, index, bind, ret.
  rewrite H0, H1, Hmode, (eqb_empty_false _ Hhash), Hatoi. reflexivity.
Qed.

Lemma configKeySets_inv (gen : DataNodeGenerator) (w w' : World)
    (dn vc tm vv : gmap string Value) :
  configKeySets P gen w = (Ok (dn, vc, tm, vv), w') ->
  w' = w /\ vc = vegaConfig /\
  exists owner name,
    nth_error (Split (Repository (networkConfig gen)) "/") 0 = Some owner /\
    nth_error (Split (Repository (networkConfig gen)) "/") 1 = Some name /\
    vv = vegavisorConfig P owner name /\
    ((Mode (userSettings gen) = StartFromBlock0 /\
      dn = dataNodeConfig gen /\ tm = tendermintConfig gen) \/
     (Mode (userSettings gen) = StartFromNetworkHistory /\
      BlockHash (LatestSnapshot (userSettings gen)) <> "" /\
      exists h,
        Atoi (BlockHeight (LatestSnapshot (userSettings gen))) = inr h /\
        dn = <["AutoInitialiseFromNetworkHistory" := VBool true]> (dataNodeConfig gen) /\
        tm = <["statesync.trust_hash" :=
                 VString (BlockHash (LatestSnapshot (userSettings gen)))]> (
             <["statesync.trust_height" := VInt h]> (
             <["statesync.enable" := VBool true]> (tendermintConfig gen))))).
Proof.
  unfold configKeySets, index, bind, ret, fail, panic.
  destruct (nth_error (Split (Repository (networkConfig gen)) "/") 0) as [owner|];
    [|discriminate].
  destruct (nth_error (Split (Repository (networkConfig gen)) "/") 1) as [name|];
    [|discriminate].
  destruct (Mode (userSettings gen)) eqn:Hmode; simpl.
  - intros H. inversion H; subst. split; [reflexivity|]. split; [reflexivity|].
    exists owner, name. repeat split. left. repeat split.
  - destruct (String.eqb (BlockHash (LatestSnapshot (userSettings gen))) "") eqn:Hhash;
      [discriminate|].
    destruct (Atoi (BlockHeight (LatestSnapshot (userSettings gen)))) as [e|h] eqn:Hatoi;
      [discriminate|].
    intros H. inversion H; subst. split; [reflexivity|]. split; [reflexivity|].
    exists owner, name. repeat split. right. split; [reflexivity|].
    split; [apply String.eqb_neq; exact Hhash|].
    exists h. repeat split.
Qed.

Lemma updateConfigs_calls (gen : DataNodeGenerator) (w : World)
    (dn vc tm vv : gmap string Value) :
  configKeySets P gen w = (Ok (dn, vc, tm, vv), w) ->
  exists n,
    calls (updateConfigs P gen) w = take n (configWrites P gen dn vc tm vv) /\
    (1 <= n)%nat /\
    (fst (updateConfigs P gen w) = Ok tt -> n = 4%nat).
Proof.
  intros H. unfold calls, updateConfigs, configWrites.
  unfold bind. rewrite H. unfold wrap, call, ret. simpl.
  repeat run_call;
    first
      [ exists 1%nat; split; [apply drop_app_length | split; [lia | discriminate]]
      | exists 2%nat; split;
          [rewrite <- app_assoc; apply drop_app_length | split; [lia | discriminate]]
      | exists 3%nat; split;
          [rewrite <- !app_assoc; apply drop_app_length | split; [lia | discriminate]]
      | exists 4%nat; split;
          [rewrite <- !app_assoc; apply drop_app_length | split; [lia | discriminate]]
      | exists 4%nat; split;
          [rewrite <- !app_assoc; apply drop_app_length | split; [lia | reflexivity]] ].
Qed.

Lemma updateConfigs_writes (gen : DataNodeGenerator) (w : World)
    (dn vc tm vv : gmap string Value) :
  configKeySets P gen w = (Ok (dn, vc, tm, vv), w) ->
  writesKeySets P gen dn vc tm vv w.
Proof.
  intros Hk. unfold writesKeySets. cbv zeta. split.
  - exact (updateConfigs_calls gen w dn vc tm vv Hk).
  - intros r1 w1 r2 w2 H1 H2.
    pose proof (call_trace _ _ _ _ H1) as T1. pose proof (call_trace _ _ _ _ H2) as T2.
    unfold calls, updateConfigs. unfold bind. rewrite Hk. cbv beta iota zeta.
    unfold wrap. rewrite H1. cbv beta iota. rewrite H2. cbv beta iota.
    split.
    + destruct (call P (UtilsUpdateConfig _ "toml" tm) w2) as [[r3|e3|m3] w3] eqn:H3;
        pose proof (call_trace _ _ _ _ H3) as T3; cbv beta iota.
      * destruct (call P (UtilsUpdateConfig _ "toml" vv) w3) as [[r4|e4|m4] w4] eqn:H4;
          pose proof (call_trace _ _ _ _ H4) as T4; cbn [snd ret];
          rewrite T4, T3, T2, T1, <- !app_assoc, drop_app_length; reflexivity.
      * cbn [snd]. rewrite T3, T2, T1, <- !app_assoc, drop_app_length. reflexivity.
      * cbn [snd]. rewrite T3, T2, T1, <- !app_assoc, drop_app_length. reflexivity.
    + intros r3 w3 r4 w4 H3 H4. rewrite H3. cbv beta iota. rewrite H4. reflexivity.
Qed.

Lemma nth_error_1_0 (l : list string) (name : string) :
  nth_error l 1 = Some name -> exists owner, nth_error l 0 = Some owner.
Proof. destruct l as [|o l]; simpl; [discriminate | eauto]. Qed.

Lemma append_cons (c : ascii) (s t : string) : String c s +:+ t = String c (s +:+ t).
Proof. reflexivity. Qed.

Lemma append_assoc (s t u : string) : (s +:+ t) +:+ u = s +:+ (t +:+ u).
Proof.
  induction s as [|c s IH]; [reflexivity|].
  rewrite !append_cons, IH. reflexivity.
Qed.

Lemma append_empty_r (s : string) : s +:+ "" = s.
Proof.
  induction s as [|c s IH]; [reflexivity|]. rewrite append_cons, IH. reflexivity.
Qed.

Lemma Split_go_last (sep : ascii) (s : string) :
  has_byte sep s = false -> forall cur, Split_go sep s cur = [cur +:+ s].
Proof.
  induction s as [|c s IH]; intros Hs cur; simpl.
  - rewrite append_empty_r. reflexivity.
  - simpl in Hs. apply orb_false_iff in Hs as [Hc Hs]. rewrite Hc.
    rewrite (IH Hs), append_assoc. reflexivity.
Qed.

Lemma Split_go_first (sep : ascii) (s rest : string) :
  has_byte sep s = false ->
  forall cur, Split_go sep (s +:+ String sep rest) cur = (cur +:+ s) :: Split_go sep rest "".
Proof.
  induction s as [|c s IH]; intros Hs cur.
  - change ("" +:+ String sep rest) with (String sep rest). simpl.
    rewrite Ascii.eqb_refl, append_empty_r. reflexivity.
  - rewrite append_cons. simpl. simpl in Hs. apply orb_false_iff in Hs as [Hc Hs].
    rewrite Hc, (IH Hs), append_assoc. reflexivity.
Qed.

(** A repository identifier owner/name splits into its two parts. *)
Lemma Split_owner_name (owner name : string) :
  has_byte "/" owner = false -> has_byte "/" name = false ->
  Split (owner +:+ "/" +:+ name) "/" = [owner; name].
Proof.
  intros Ho Hn. unfold Split.
  change (owner +:+ "/" +:+ name) with (owner +:+ String "/" name).
  rewrite (Split_go_first "/" owner name Ho), (Split_go_last "/" name Hn). reflexivity.
Qed.

(** C1: with a repository identifier that has its two parts, the key set
    [updateConfigs] builds for the consensus layer has state sync enabled,
    the parsed block height as an integer and the block hash when the node
    starts from the network history with a snapshot that has a hash and a
    height that parses; it has state sync disabled when the node starts from
    block 0.  [updateConfigs] writes that key set: once the documents of
    the data-node and of the core are written, its third call hands it to
    [utils.UpdateConfig] for the document of the consensus layer, and when
    the four writes succeed it returns nil. *)
Theorem updateConfigs_statesync (gen : DataNodeGenerator) (w : World) (name : string) :
  nth_error (Split (Repository (networkConfig gen)) "/") 1 = Some name ->
  (Mode (userSettings gen) = StartFromNetworkHistory ->
   BlockHash (LatestSnapshot (userSettings gen)) <> "" ->
   forall h, Atoi (BlockHeight (LatestSnapshot (userSettings gen))) = inr h ->
     exists dn vc tm vv,
       configKeySets P gen w = (Ok (dn, vc, tm, vv), w) /\
       tm !! "statesync.enable" = Some (VBool true) /\
       tm !! "statesync.trust_height" = Some (VInt h) /\
       tm !! "statesync.trust_hash"
         = Some (VString (BlockHash (LatestSnapshot (userSettings gen)))) /\
       writesKeySets P gen dn vc tm vv w) /\
  (Mode (userSettings gen) = StartFromBlock0 ->
     exists dn vc tm vv,
       configKeySets P gen w = (Ok (dn, vc, tm, vv), w) /\
       tm !! "statesync.enable" = Some (VBool false) /\
       writesKeySets P gen dn vc tm vv w).
Proof.
  intros H1. destruct (nth_error_1_0 _ _ H1) as [owner H0]. split.
  - intros Hmode Hhash h Hatoi.
    pose proof (configKeySets_history gen w owner name h Hmode Hhash Hatoi H0 H1) as Hk.
    do 4 eexists. split; [exact Hk|].
    split; [rewrite lookup_insert_ne by discriminate;
            rewrite lookup_insert_ne by discriminate; apply lookup_insert_eq|].
    split; [rewrite lookup_insert_ne by discriminate; apply lookup_insert_eq|].
    split; [apply lookup_insert_eq|].
    exact (updateConfigs_writes gen w _ _ _ _ Hk).
  - intros Hmode.
    pose proof (configKeySets_genesis gen w owner name Hmode H0 H1) as Hk.
    do 4 eexists. split; [exact Hk|].
    split; [unfold tendermintConfig; rewrite lookup_insert_ne by discriminate;
            rewrite lookup_insert_ne by discriminate; apply lookup_insert_eq|].
    exact (updateConfigs_writes gen w _ _ _ _ Hk).
Qed.

(** C3, as the code has it: for a repository identifier owner/name the
    supervisor key set never fails to be built for want of a part, and its
    asset name is "vega-", the operating system, "-", the architecture,
    ".zip": the fixed binary name "vega", whatever the repository is called.
    The two parts of the identifier go to the keys repositoryOwner and
    repository. *)
Theorem autoInstall_asset_name (gen : DataNodeGenerator) (owner name : string) (w : World) :
  Repository (networkConfig gen) = owner +:+ "/" +:+ name ->
  has_byte "/" owner = false ->
  has_byte "/" name = false ->
  (forall msg, fst (configKeySets P gen w) <> Panic msg) /\
  (forall dn vc tm vv, fst (configKeySets P gen w) = Ok (dn, vc, tm, vv) ->
     vv !! "autoInstall.asset.name"
       = Some (VString ("vega-" +:+ GOOS P +:+ "-" +:+ GOARCH P +:+ ".zip")) /\
     vv !! "autoInstall.asset.binaryName" = Some (VString "vega") /\
     vv !! "autoInstall.repositoryOwner" = Some (VString owner) /\
     vv !! "autoInstall.repository" = Some (VString name)) /\
  (Mode (userSettings gen) = StartFromBlock0 ->
     exists dn vc tm, fst (configKeySets P gen w)
                      = Ok (dn, vc, tm, vegavisorConfig P owner name)).
Proof.
  intros Hrepo Ho Hn.
  assert (Hsplit : Split (Repository (networkConfig gen)) "/" = [owner; name]).
  { rewrite Hrepo. apply Split_owner_name; assumption. }
  split; [|split].
  - intros msg. unfold configKeySets, index, bind, ret, fail. rewrite Hsplit. simpl.
    destruct (StartupMode_eqb _ _); [|discriminate].
    destruct (String.eqb _ _); [discriminate|].
    destruct (Atoi _); discriminate.
  - intros dn vc tm vv Hok.
    destruct (configKeySets P gen w) as [r w'] eqn:Hk. simpl in Hok. subst r.
    apply configKeySets_inv in Hk as (_ & _ & o & n & H0 & H1 & -> & _).
    rewrite Hsplit in H0, H1. simpl in H0, H1. inversion H0; inversion H1; subst.
    unfold vegavisorConfig.
    split; [repeat (rewrite lookup_insert_ne by discriminate); apply lookup_insert_eq|].
    split; [repeat (rewrite lookup_insert_ne by discriminate); apply lookup_insert_eq|].
    split; [repeat (rewrite lookup_insert_ne by discriminate); apply lookup_insert_eq|].
    repeat (rewrite lookup_insert_ne by discriminate). apply lookup_insert_eq.
  - intros Hmode. do 3 eexists.
    rewrite (configKeySets_genesis gen w owner name Hmode);
      [reflexivity | rewrite Hsplit; reflexivity | rewrite Hsplit; reflexivity].
Qed.

(** C8, as the code has it: the key set for the consensus layer is, when
    the node starts from block 0, exactly peer seeds, peer exchange,
    state sync enabled (false), rpc servers and trust period; started from
    the network history it has trust height and trust hash as well.  The
    rpc servers key is written in both modes; trust height and trust hash
    are written exactly when the node starts from the network history. *)
Theorem tendermint_key_set (gen : DataNodeGenerator) (w w' : World)
    (dn vc tm vv : gmap string Value) :
  configKeySets P gen w = (Ok (dn, vc, tm, vv), w') ->
  (Mode (userSettings gen) = StartFromBlock0 ->
     dom tm = ({[ "p2p.seeds"; "pex"; "statesync.enable"; "statesync.rpc_servers";
                  "statesync.trust_period" ]} : gset string) /\
     tm !! "statesync.enable" = Some (VBool false)) /\
  (Mode (userSettings gen) = StartFromNetworkHistory ->
     dom tm = ({[ "p2p.seeds"; "pex"; "statesync.enable"; "statesync.rpc_servers";
                  "statesync.trust_period"; "statesync.trust_height";
                  "statesync.trust_hash" ]} : gset string)) /\
  tm !! "statesync.rpc_servers"
    = Some (VString (Join (TendermintRPCServers (networkConfig gen)) ",")) /\
  ("statesync.trust_height" ∈ dom tm <-> Mode (userSettings gen) = StartFromNetworkHistory) /\
  ("statesync.trust_hash" ∈ dom tm <-> Mode (userSettings gen) = StartFromNetworkHistory).
Proof.
  intros Hk.
  apply configKeySets_inv in Hk
    as (_ & _ & owner & name & _ & _ & _ &
        [(Hmode & _ & ->) | (Hmode & _ & h & _ & _ & ->)]).
  - assert (Hdom : dom (tendermintConfig gen)
                   = ({[ "p2p.seeds"; "pex"; "statesync.enable"; "statesync.rpc_servers";
                         "statesync.trust_period" ]} : gset string)).
    { unfold tendermintConfig. rewrite !dom_insert_L, dom_empty_L. set_solver. }
    rewrite Hmode, Hdom.
    split; [intros _; split; [reflexivity|];
            unfold tendermintConfig; repeat (rewrite lookup_insert_ne by discriminate);
            apply lookup_insert_eq|].
    split; [discriminate|].
    split; [unfold tendermintConfig; repeat (rewrite lookup_insert_ne by discriminate);
            apply lookup_insert_eq|].
    split; (split; [|discriminate]); intros Hin; exfalso; revert Hin;
      rewrite !elem_of_union, !elem_of_singleton; intuition discriminate.
  - assert (Hdom : dom (<["statesync.trust_hash" :=
                            VString (BlockHash (LatestSnapshot (userSettings gen)))]> (
                        <["statesync.trust_height" := VInt h]> (
                        <["statesync.enable" := VBool true]> (tendermintConfig gen))))
                   = ({[ "p2p.seeds"; "pex"; "statesync.enable"; "statesync.rpc_servers";
                         "statesync.trust_period"; "statesync.trust_height";
                         "statesync.trust_hash" ]} : gset string)).
    { unfold tendermintConfig. rewrite !dom_insert_L, dom_empty_L. set_solver. }
    rewrite Hmode, Hdom.
    split; [discriminate|].
    split; [intros _; reflexivity|].
    split; [unfold tendermintConfig; repeat (rewrite lookup_insert_ne by discriminate);
            apply lookup_insert_eq|].
    split; (split; [intros _; reflexivity|]); intros _;
      rewrite !elem_of_union, !elem_of_singleton; tauto.
Qed.

End GeneratorProperties.

(** ** The generator on the simulated machine *)

Lemma Run_stops_at_first_error_witness :
  fst (Run (sim_platform breaks_mkdir) (sim_gen StartFromBlock0 "vegaprotocol/vega") sim_world)
  = Err (wrapError "failed to prepare visor home: "
           (wrapError "failed to make directory: " (errorString "simulated failure"))) /\
  length (trace (snd (Run (sim_platform breaks_mkdir)
                          (sim_gen StartFromBlock0 "vegaprotocol/vega") sim_world)))
  = 10%nat.
Proof.
  set (P := sim_platform breaks_mkdir).
  set (gen := sim_gen StartFromBlock0 "vegaprotocol/vega").
  set (w1 := snd (run_stages (take 6 (stages P gen)) (mkBinaries "" "" "") sim_world)).
  destruct (Run_stops_at_first_error P gen
              (take 6 (stages P gen)) (drop 7 (stages P gen))
              "failed to prepare visor home: "
              (fun b => prepareVisorHome P gen ;;; ret b)
              (mkBinaries "/tmp/vega-assistant0" "/tmp/vega-assistant0/vega"
                          "/tmp/vega-assistant0/visor")
              sim_world w1 (snd (prepareVisorHome P gen w1))
              (wrapError "failed to make directory: " (errorString "simulated failure")))
    as [HR _].
  - reflexivity.
  - vm_compute. reflexivity.
  - vm_compute. reflexivity.
  - rewrite HR. split; [reflexivity | vm_compute; reflexivity].
Defined.

(** C5 as stated fails: a run that succeeds leaves the staging directory in
    place and has made no call that removes it. *)
Lemma staging_directory_is_left_behind :
  let r := Run (sim_platform never) (sim_gen StartFromBlock0 "vegaprotocol/vega") sim_world in
  fst r = Ok tt /\
  nth_error (trace (snd r)) 0 = Some (OsMkdirTemp "" "vega-assistant") /\
  fs (snd r) !! "/tmp/vega-assistant0" = Some Dir /\
  existsb removes (trace (snd r)) = false.
Proof.
  vm_compute. repeat split; reflexivity.
Qed.

(** The simulated machine, with nothing broken, takes no entry out of the
    file system unless it is told to remove one. *)
Lemma sim_extern_keeps (c : Call) (files : gmap string Node) (k : string) :
  removes c = false ->
  is_Some (files !! k) ->
  is_Some (snd (sim_extern never c files) !! k).
Proof.
  intros Hc Hk.
  assert (Hins : forall key node, is_Some (<[key := node]> files !! k)).
  { intros key node. apply lookup_insert_is_Some.
    destruct (decide (key = k)); auto. }
  unfold sim_extern, never. destruct c; try discriminate Hc; simpl; auto.
  - destruct (files !! binaryPath) as [[?| |?]|]; exact Hk.
  - destruct (files !! source) as [[?| |?]|]; simpl; auto.
Qed.

Lemma Run_never_removes_staging_directory_witness :
  fst (call (sim_platform never) (OsMkdirTemp "" "vega-assistant") sim_world)
  = Ok "/tmp/vega-assistant0" /\
  fs (snd (call (sim_platform never) (OsMkdirTemp "" "vega-assistant") sim_world))
    !! "/tmp/vega-assistant0" = Some Dir /\
  is_Some (fs (snd (Run (sim_platform never)
                        (sim_gen StartFromBlock0 "vegaprotocol/vega") sim_world))
             !! "/tmp/vega-assistant0").
Proof.
  split; [reflexivity|]. split; [vm_compute; reflexivity|].
  destruct (Run_never_removes_staging_directory (sim_platform never)
              (sim_gen StartFromBlock0 "vegaprotocol/vega") sim_world) as [_ Hkeeps].
  apply Hkeeps; [exact sim_extern_keeps|].
  exists Dir. vm_compute. reflexivity.
Defined.

Lemma visor_home_subdirectory_witness :
  fst (prepareVisorHome (sim_platform never) (sim_gen StartFromBlock0 "vegaprotocol/vega")
         sim_world_staged) = Ok tt /\
  calls (prepareVisorHome (sim_platform never) (sim_gen StartFromBlock0 "vegaprotocol/vega"))
    sim_world_staged
  = [ OsMkdirAll "/home/vega/vegavisor_home/genesis";
      VegacmdTemplateVisorRunConfig "genesis" "/home/vega/vega_home"
        "/home/vega/tendermint_home";
      OsWriteFile "/home/vega/vegavisor_home/genesis/run-config.toml"
        "run-config genesis" ] /\
  fs (snd (prepareVisorHome (sim_platform never)
             (sim_gen StartFromBlock0 "vegaprotocol/vega") sim_world_staged))
    !! "/home/vega/vegavisor_home/genesis/run-config.toml"
  = Some (File "run-config genesis") /\
  calls (copyBinaries (sim_platform never) (sim_gen StartFromBlock0 "vegaprotocol/vega")
           "/tmp/vega-assistant0/vega" "/tmp/vega-assistant0/visor") sim_world_staged
  = [ UtilsCopyFile "/tmp/vega-assistant0/visor" "/home/vega/vegavisor_home/visor";
      UtilsCopyFile "/tmp/vega-assistant0/vega" "/home/vega/vegavisor_home/genesis/vega";
      OsSymlink "/home/vega/vegavisor_home/genesis" "/home/vega/vegavisor_home/current" ] /\
  fs (snd (copyBinaries (sim_platform never) (sim_gen StartFromBlock0 "vegaprotocol/vega")
             "/tmp/vega-assistant0/vega" "/tmp/vega-assistant0/visor" sim_world_staged))
    !! "/home/vega/vegavisor_home/genesis/vega" = Some (File "binary v0.72.14") /\
  fs (snd (copyBinaries (sim_platform never) (sim_gen StartFromBlock0 "vegaprotocol/vega")
             "/tmp/vega-assistant0/vega" "/tmp/vega-assistant0/visor" sim_world_staged))
    !! "/home/vega/vegavisor_home/v0.72.14/vega" = None /\
  calls (prepareVisorHome (sim_platform never)
           (sim_gen StartFromNetworkHistory "vegaprotocol/vega")) sim_world_staged
  = [ OsMkdirAll "/home/vega/vegavisor_home/v0.72.14";
      VegacmdTemplateVisorRunConfig "v0.72.14" "/home/vega/vega_home"
        "/home/vega/tendermint_home";
      OsWriteFile "/home/vega/vegavisor_home/v0.72.14/run-config.toml"
        "run-config v0.72.14" ] /\
  calls (copyBinaries (sim_platform never)
           (sim_gen StartFromNetworkHistory "vegaprotocol/vega")
           "/tmp/vega-assistant0/vega" "/tmp/vega-assistant0/visor") sim_world_staged
  = [ UtilsCopyFile "/tmp/vega-assistant0/visor" "/home/vega/vegavisor_home/visor";
      UtilsCopyFile "/tmp/vega-assistant0/vega" "/home/vega/vegavisor_home/v0.72.14/vega";
      OsSymlink "/home/vega/vegavisor_home/v0.72.14" "/home/vega/vegavisor_home/current" ].
Proof.
  destruct (visor_home_subdirectory (sim_platform never)
              (sim_gen StartFromBlock0 "vegaprotocol/vega")
              "/tmp/vega-assistant0/vega" "/tmp/vega-assistant0/visor" sim_world_staged)
    as [Hgenesis _].
  destruct (visor_home_subdirectory (sim_platform never)
              (sim_gen StartFromNetworkHistory "vegaprotocol/vega")
              "/tmp/vega-assistant0/vega" "/tmp/vega-assistant0/visor" sim_world_staged)
    as [_ Hhistory].
  destruct (Hgenesis eq_refl) as [(_ & Hprepare & _ & Hcopy) _].
  destruct (Hhistory eq_refl) as (_ & Hprepare' & _ & Hcopy').
  edestruct Hprepare as [Hcalls Hok]; [reflexivity | reflexivity |].
  edestruct Hcopy as [_ Hvega]; [reflexivity|].
  edestruct Hvega as [Hcopies Hkept]; [reflexivity|].
  edestruct Hprepare' as [Hcalls' _]; [reflexivity | reflexivity |].
  edestruct Hcopy' as [_ Hvega']; [reflexivity|].
  edestruct Hvega' as [Hcopies' _]; [reflexivity|].
  pose proof (Hok "" _ eq_refl) as Hrun.
  split; [rewrite Hrun; reflexivity|].
  split; [exact Hcalls|].
  split; [rewrite Hrun; vm_compute; reflexivity|].
  split; [exact Hcopies|].
  split; [rewrite Hkept by discriminate; vm_compute; reflexivity|].
  split; [rewrite Hkept by discriminate; vm_compute; reflexivity|].
  split; [exact Hcalls' | exact Hcopies'].
Defined.

(** C4 as stated fails: with an entry "current" in the supervisor home the
    step returns the error of [os.Symlink] and the entry is what it was. *)
Lemma existing_current_is_not_replaced :
  let r := copyBinaries (sim_platform never)
             (sim_gen StartFromNetworkHistory "vegaprotocol/vega")
             "/tmp/vega-assistant0/vega" "/tmp/vega-assistant0/visor" sim_world_current in
  fst r
  = Err (wrapError
           "failed to create symlink from /home/vega/vegavisor_home/v0.72.14 to /home/vega/vegavisor_home/current: "
           (EEXIST "/home/vega/vegavisor_home/v0.72.14" "/home/vega/vegavisor_home/current")) /\
  fs (snd r) !! "/home/vega/vegavisor_home/current"
  = Some (Link "/home/vega/vegavisor_home/v0.72.13").
Proof.
  vm_compute. split; reflexivity.
Qed.

Lemma copyBinaries_links_current_witness :
  fst (copyBinaries (sim_platform never)
         (sim_gen StartFromNetworkHistory "vegaprotocol/vega")
         "/tmp/vega-assistant0/vega" "/tmp/vega-assistant0/visor" sim_world_staged)
  = Ok tt /\
  exists e,
    fst (copyBinaries (sim_platform never)
           (sim_gen StartFromNetworkHistory "vegaprotocol/vega")
           "/tmp/vega-assistant0/vega" "/tmp/vega-assistant0/visor" sim_world_current)
    = Err e.
Proof.
  set (P := sim_platform never).
  set (gen := sim_gen StartFromNetworkHistory "vegaprotocol/vega").
  set (c1 := UtilsCopyFile "/tmp/vega-assistant0/visor" "/home/vega/vegavisor_home/visor").
  set (c2 := UtilsCopyFile "/tmp/vega-assistant0/vega"
               "/home/vega/vegavisor_home/v0.72.14/vega").
  split.
  - destruct (copyBinaries_links_current P gen "v0.72.14"
                "/tmp/vega-assistant0/vega" "/tmp/vega-assistant0/visor"
                sim_world_staged
                (snd (call P c1 sim_world_staged))
                (snd (call P c2 (snd (call P c1 sim_world_staged))))
                "" "")
      as [Hnone _].
    + reflexivity.
    + vm_compute. reflexivity.
    + vm_compute. reflexivity.
    + rewrite Hnone; [reflexivity | vm_compute; reflexivity].
  - destruct (copyBinaries_links_current P gen "v0.72.14"
                "/tmp/vega-assistant0/vega" "/tmp/vega-assistant0/visor"
                sim_world_current
                (snd (call P c1 sim_world_current))
                (snd (call P c2 (snd (call P c1 sim_world_current))))
                "" "")
      as [_ Hsome].
    + reflexivity.
    + vm_compute. reflexivity.
    + vm_compute. reflexivity.
    + eexists.
      rewrite (Hsome (Link "/home/vega/vegavisor_home/v0.72.13"));
        [reflexivity | vm_compute; reflexivity].
Defined.

Lemma updateConfigs_statesync_witness :
  (exists tm,
     nth_error (calls (updateConfigs (sim_platform never)
                         (sim_gen StartFromNetworkHistory "vegaprotocol/vega")) sim_world) 2
     = Some (UtilsUpdateConfig "/home/vega/tendermint_home/config/config.toml" "toml" tm) /\
     tm !! "statesync.enable" = Some (VBool true) /\
     tm !! "statesync.trust_height" = Some (VInt 1000) /\
     tm !! "statesync.trust_hash" = Some (VString "ABC") /\
     fst (updateConfigs (sim_platform never)
            (sim_gen StartFromNetworkHistory "vegaprotocol/vega") sim_world) = Ok tt) /\
  (exists tm,
     nth_error (calls (updateConfigs (sim_platform never)
                         (sim_gen StartFromBlock0 "vegaprotocol/vega")) sim_world) 2
     = Some (UtilsUpdateConfig "/home/vega/tendermint_home/config/config.toml" "toml" tm) /\
     tm !! "statesync.enable" = Some (VBool false) /\
     fst (updateConfigs (sim_platform never)
            (sim_gen StartFromBlock0 "vegaprotocol/vega") sim_world) = Ok tt).
Proof.
  destruct (updateConfigs_statesync (sim_platform never)
              (sim_gen StartFromNetworkHistory "vegaprotocol/vega") sim_world "vega")
    as [Hhistory _]; [reflexivity|].
  destruct (updateConfigs_statesync (sim_platform never)
              (sim_gen StartFromBlock0 "vegaprotocol/vega") sim_world "vega")
    as [_ Hgenesis]; [reflexivity|].
  split.
  - destruct (Hhistory eq_refl) with (h := 1000)
      as (dn & vc & tm & vv & _ & Henable & Hheight & Hhash & _ & Hwrites);
      [discriminate | reflexivity |].
    edestruct Hwrites as [Hthird Hok]; [reflexivity | reflexivity |].
    exists tm. split; [exact Hthird|].
    split; [exact Henable|]. split; [exact Hheight|]. split; [exact Hhash|].
    erewrite Hok; [reflexivity | reflexivity | reflexivity].
  - destruct (Hgenesis eq_refl)
      as (dn & vc & tm & vv & _ & Henable & _ & Hwrites).
    edestruct Hwrites as [Hthird Hok]; [reflexivity | reflexivity |].
    exists tm. split; [exact Hthird|]. split; [exact Henable|].
    erewrite Hok; [reflexivity | reflexivity | reflexivity].
Defined.

(** C3 as stated fails: for the repository "org/proj" on linux/amd64 the
    asset name is "vega-linux-amd64.zip", not "proj-linux-amd64.zip". *)
Lemma asset_name_is_not_the_repository_name :
  exists dn vc tm vv,
    configKeySets (sim_platform never) (sim_gen StartFromBlock0 "org/proj") sim_world
    = (Ok (dn, vc, tm, vv), sim_world) /\
    vv !! "autoInstall.repository" = Some (VString "proj") /\
    vv !! "autoInstall.asset.name" = Some (VString "vega-linux-amd64.zip") /\
    vv !! "autoInstall.asset.name" <> Some (VString "proj-linux-amd64.zip").
Proof.
  do 4 eexists. split; [reflexivity|].
  split; [vm_compute; reflexivity|].
  split; [vm_compute; reflexivity|].
  vm_compute. discriminate.
Qed.

Lemma autoInstall_asset_name_witness :
  (forall msg,
     fst (configKeySets (sim_platform never) (sim_gen StartFromBlock0 "org/proj") sim_world)
     <> Panic msg) /\
  exists dn vc tm,
    fst (configKeySets (sim_platform never) (sim_gen StartFromBlock0 "org/proj") sim_world)
    = Ok (dn, vc, tm, vegavisorConfig (sim_platform never) "org" "proj").
Proof.
  destruct (autoInstall_asset_name (sim_platform never) (sim_gen StartFromBlock0 "org/proj")
              "org" "proj" sim_world) as (Hpanic & _ & Hok);
    [reflexivity | reflexivity | reflexivity |].
  split; [exact Hpanic | apply Hok; reflexivity].
Defined.

(** C8 as stated fails: started from block 0, the key set for the consensus
    layer has the rpc servers key, so it is not the set of four keys. *)
Lemma genesis_key_set_has_rpc_servers :
  exists dn vc tm vv,
    configKeySets (sim_platform never) (sim_gen StartFromBlock0 "vegaprotocol/vega") sim_world
    = (Ok (dn, vc, tm, vv), sim_world) /\
    tm !! "statesync.rpc_servers"
    = Some (VString
              "api0.vega.community:26657,api1.vega.community:26657,api2.vega.community:26657,api3.vega.community:26657") /\
    dom tm <> ({[ "p2p.seeds"; "pex"; "statesync.enable"; "statesync.trust_period" ]}
               : gset string).
Proof.
  do 4 eexists. split; [reflexivity|].
  split; [vm_compute; reflexivity|].
  intros H.
  assert (Hin : "statesync.rpc_servers" ∈ dom (tendermintConfig
                  (sim_gen StartFromBlock0 "vegaprotocol/vega"))).
  { apply elem_of_dom. eexists. vm_compute. reflexivity. }
  rewrite H in Hin. revert Hin.
  rewrite !elem_of_union, !elem_of_singleton. intuition discriminate.
Qed.

Lemma tendermint_key_set_witness :
  dom (tendermintConfig (sim_gen StartFromBlock0 "vegaprotocol/vega"))
  = ({[ "p2p.seeds"; "pex"; "statesync.enable"; "statesync.rpc_servers";
        "statesync.trust_period" ]} : gset string) /\
  tendermintConfig (sim_gen StartFromBlock0 "vegaprotocol/vega") !! "statesync.enable"
  = Some (VBool false).
Proof.
  destruct (tendermint_key_set (sim_platform never)
              (sim_gen StartFromBlock0 "vegaprotocol/vega") sim_world sim_world
              (dataNodeConfig (sim_gen StartFromBlock0 "vegaprotocol/vega"))
              vegaConfig
              (tendermintConfig (sim_gen StartFromBlock0 "vegaprotocol/vega"))
              (vegavisorConfig (sim_platform never) "vegaprotocol" "vega"))
    as (Hgenesis & _); [reflexivity|].
  apply Hgenesis. reflexivity.
Defined.
(** ** The default of the port prompt *)

Lemma uint_value_ge (d : Decimal.uint) : forall acc, 0 <= acc -> acc <= uint_value d acc.
Proof.
  induction d; intros acc Hacc; simpl; try lia;
    (etransitivity; [|apply IHd; lia]); lia.
Qed.

Lemma parseDigits_step (c : ascii) (k : Z) (rest : string) (acc : Z) :
  byte_val c - 48 = k -> 0 <= k <= 9 -> 0 <= acc -> acc * 10 + k <= maxUint64 ->
  parseDigits (String c rest) acc = parseDigits rest (acc * 10 + k).
Proof.
  intros Hk Hrange Hacc Hmax. cbn [parseDigits]. rewrite Hk.
  destruct (Z.leb_spec 0 k); [|lia]. destruct (Z.leb_spec k 9); [|lia]. cbn [andb].
  assert (Hcut : maxUint64 / 10 + 1 = 1844674407370955162) by reflexivity.
  assert (Hmax64 : maxUint64 = 18446744073709551615) by reflexivity.
  rewrite Hcut.
  destruct (Z.leb_spec 1844674407370955162 acc); [lia|].
  destruct (Z.ltb_spec maxUint64 (acc * 10 + k)); [lia|]. reflexivity.
Qed.

Lemma parseDigits_uint (d : Decimal.uint) :
  forall acc, 0 <= acc -> uint_value d acc <= maxUint64 ->
    parseDigits (NilEmpty.string_of_uint d) acc = inr (uint_value d acc).
Proof.
  induction d; intros acc Hacc Hmax; cbn [NilEmpty.string_of_uint uint_value] in *;
    [reflexivity|..];
    match goal with
    | H : uint_value _ (acc * 10 + ?k) <= _ |- _ =>
        pose proof (uint_value_ge d (acc * 10 + k) ltac:(lia)) as Hge;
        rewrite (parseDigits_step _ k) by (first [reflexivity | lia]);
        apply IHd; lia
    end.
Qed.

Lemma uint_value_acc (d : Decimal.uint) :
  forall p, uint_value d (Z.pos p) = Z.pos (Pos.of_uint_acc d p).
Proof.
  induction d; intros p; cbn [uint_value Pos.of_uint_acc]; [reflexivity|..];
    match goal with
    | |- uint_value _ ?a = Z.pos (Pos.of_uint_acc _ ?q) =>
        replace a with (Z.pos q) by lia; apply IHd
    end.
Qed.

Lemma uint_value_of_uint (d : Decimal.uint) : uint_value d 0 = Z.of_N (Pos.of_uint d).
Proof.
  induction d; cbn [uint_value Pos.of_uint]; [reflexivity | exact IHd |..];
    match goal with
    | |- uint_value _ ?a = _ => change a with (Z.pos (Z.to_pos a)); rewrite uint_value_acc
    end; reflexivity.
Qed.

Lemma uint_value_to_uint (p : positive) : uint_value (Pos.to_uint p) 0 = Z.pos p.
Proof. rewrite uint_value_of_uint, DecimalPos.Unsigned.of_to. reflexivity. Qed.

Lemma string_of_uint_digit (d : Decimal.uint) :
  d <> Decimal.Nil ->
  exists c rest, NilEmpty.string_of_uint d = String c rest /\
                 Ascii.eqb c "+" = false /\ Ascii.eqb c "-" = false.
Proof.
  destruct d; [congruence|..]; intros _; simpl; eauto.
Qed.

Lemma ParseInt_pos (p : positive) :
  Z.pos p <= 2 ^ 63 - 1 ->
  ParseInt (NilEmpty.string_of_uint (Pos.to_uint p)) = inr (Z.pos p).
Proof.
  intros Hp.
  destruct (string_of_uint_digit _ (DecimalPos.Unsigned.to_uint_nonnil p))
    as (c & rest & Hs & Hplus & Hminus).
  assert (Hd : parseDigits (NilEmpty.string_of_uint (Pos.to_uint p)) 0 = inr (Z.pos p)).
  { rewrite parseDigits_uint; rewrite ?uint_value_to_uint;
      [reflexivity | lia | unfold maxUint64; lia]. }
  rewrite Hs in *. unfold ParseInt, ParseUint. rewrite Hplus, Hminus. cbn [orb negb andb].
  rewrite Hd.
  destruct (Z.leb_spec (2 ^ 63) (Z.pos p)); [lia | reflexivity].
Qed.

Lemma ParseInt_neg (p : positive) :
  - 2 ^ 63 <= Z.neg p ->
  ParseInt (String "-" (NilEmpty.string_of_uint (Pos.to_uint p))) = inr (Z.neg p).
Proof.
  intros Hp.
  destruct (string_of_uint_digit _ (DecimalPos.Unsigned.to_uint_nonnil p))
    as (c & rest & Hs & Hplus & Hminus).
  assert (Hd : parseDigits (NilEmpty.string_of_uint (Pos.to_uint p)) 0 = inr (Z.pos p)).
  { rewrite parseDigits_uint; rewrite ?uint_value_to_uint;
      [reflexivity | lia | unfold maxUint64; lia]. }
  unfold ParseInt. cbn [Ascii.eqb Bool.eqb orb negb andb]. 
  unfold ParseUint. rewrite Hs in *. rewrite Hd.
  destruct (Z.ltb_spec (2 ^ 63) (Z.pos p)); [lia | reflexivity].
Qed.

(** The text [%d] gives for an [int] parses back to that [int]. *)
Lemma Atoi_Sprintf_d (n : Z) :
  - 2 ^ 63 <= n <= 2 ^ 63 - 1 -> Atoi (Sprintf_d n) = inr n.
Proof.
  intros Hn. unfold Atoi, Sprintf_d.
  destruct n as [|p|p]; cbn [Z.to_int NilZero.string_of_int].
  - reflexivity.
  - assert (Hs : NilZero.string_of_uint (Pos.to_uint p)
                 = NilEmpty.string_of_uint (Pos.to_uint p)).
    { pose proof (DecimalPos.Unsigned.to_uint_nonnil p).
      destruct (Pos.to_uint p); [congruence | reflexivity..]. }
    rewrite Hs, ParseInt_pos by lia. reflexivity.
  - assert (Hs : NilZero.string_of_uint (Pos.to_uint p)
                 = NilEmpty.string_of_uint (Pos.to_uint p)).
    { pose proof (DecimalPos.Unsigned.to_uint_nonnil p).
      destruct (Pos.to_uint p); [congruence | reflexivity..]. }
    rewrite Hs, ParseInt_neg by lia. reflexivity.
Qed.

(** X1: the default the port prompt offers, the default port printed with
    [%d], is never empty, passes the validator of the prompt and parses back
    to the default port. *)
Theorem port_default_parses (defaultValue : types_SQLCredentials) :
  - 2 ^ 63 <= Port defaultValue <= 2 ^ 63 - 1 ->
  Default (portOptions defaultValue) <> "" /\
  portValidateFunc (Default (portOptions defaultValue)) = None /\
  Atoi (Default (portOptions defaultValue)) = inr (Port defaultValue).
Proof.
  intros Hport. pose proof (Atoi_Sprintf_d _ Hport) as Hatoi. cbn [portOptions Default].
  split; [|split].
  - intros Hempty. rewrite Hempty in Hatoi. discriminate.
  - unfold portValidateFunc. rewrite Hatoi. reflexivity.
  - exact Hatoi.
Qed.

Lemma port_default_parses_witness :
  Default (portOptions sim_credentials) <> "" /\
  portValidateFunc (Default (portOptions sim_credentials)) = None /\
  Atoi (Default (portOptions sim_credentials)) = inr 5432.
Proof. apply (port_default_parses sim_credentials). simpl. lia. Defined.

(** ** What a prompt returns *)

Lemma Ask_answer (query : string) (opts : Options) (ui : UI) :
  forall v ui', Ask query opts ui = Some (inr v, ui') ->
    (v = Default opts /\ Default opts <> "") \/
    (v <> "" /\ In (Line v) ui /\ validate opts v = None) \/
    (v = "" /\ Required opts = false /\ validate opts v = None).
Proof.
  induction ui as [|i rest IH]; intros v ui' H; simpl in H.
  - destruct (String.eqb (Default opts) "") eqn:Hdef; cbn [negb] in H.
    + destruct (Required opts) eqn:Hreq.
      * destruct (Loop opts); discriminate.
      * destruct (validate opts "") eqn:Hv.
        -- destruct (Loop opts); discriminate.
        -- inversion H; subst. right. right. auto.
    + inversion H; subst. left. split; [reflexivity|]. apply String.eqb_neq. exact Hdef.
  - assert (Hrec : Ask query opts rest = Some (inr v, ui') ->
                   (v = Default opts /\ Default opts <> "") \/
                   (v <> "" /\ In (Line v) (i :: rest) /\ validate opts v = None) \/
                   (v = "" /\ Required opts = false /\ validate opts v = None)).
    { intros E. destruct (IH _ _ E) as [?|[(?&?&?)|(?&?&?)]]; simpl; intuition. }
    destruct i as [line|err]; [|discriminate].
    destruct (String.eqb line "") eqn:Hline;
      destruct (String.eqb (Default opts) "") eqn:Hdef; cbn [andb negb] in H.
    + destruct (Required opts) eqn:Hreq.
      * destruct (Loop opts); [auto | discriminate].
      * destruct (validate opts line) eqn:Hv.
        -- destruct (Loop opts); [auto | discriminate].
        -- inversion H; subst. apply String.eqb_eq in Hline. subst.
           right. right. auto.
    + inversion H; subst. left. split; [reflexivity|]. apply String.eqb_neq. exact Hdef.
    + destruct (validate opts line) eqn:Hv.
      * destruct (Loop opts); [auto | discriminate].
      * inversion H; subst. right. left. apply String.eqb_neq in Hline. simpl. auto.
    + destruct (validate opts line) eqn:Hv.
      * destruct (Loop opts); [auto | discriminate].
      * inversion H; subst. right. left. apply String.eqb_neq in Hline. simpl. auto.
Qed.

(** With [Required] set, an answer is the default or a line of the script
    that the validator accepts. *)
Lemma Ask_answer_required (query : string) (opts : Options) (ui ui' : UI) (v : string) :
  Required opts = true ->
  Ask query opts ui = Some (inr v, ui') ->
  v <> "" /\ (v = Default opts \/ (In (Line v) ui /\ validate opts v = None)).
Proof.
  intros Hreq H. destruct (Ask_answer _ _ _ _ _ H) as [[-> Hd]|[(Hv&Hin&Hval)|(_&Hr&_)]].
  - auto.
  - auto.
  - congruence.
Qed.

(** With [Loop] set, a prompt fails only when a read fails. *)
Lemma Ask_error (query : string) (opts : Options) (ui : UI) :
  Loop opts = true ->
  forall e ui', Ask query opts ui = Some (inl e, ui') -> In (Interrupted e) ui.
Proof.
  intros Hloop. induction ui as [|i rest IH]; intros e ui' H; simpl in H.
  - rewrite Hloop in H. destruct (negb (String.eqb (Default opts) "")); [discriminate|].
    destruct (Required opts); [discriminate|].
    destruct (validate opts ""); discriminate.
  - assert (Hrec : Ask query opts rest = Some (inl e, ui') ->
                   In (Interrupted e) (i :: rest)).
    { intros E. right. exact (IH _ _ E). }
    rewrite Hloop in H. destruct i as [line|err].
    + destruct (String.eqb line "" && negb (String.eqb (Default opts) "")); [discriminate|].
      destruct (String.eqb line "" && Required opts); [auto|].
      destruct (validate opts line); [auto | discriminate].
    + inversion H; subst. left. reflexivity.
Qed.

(** What a prompt leaves of the script is part of the script. *)
Lemma Ask_rest (query : string) (opts : Options) (ui : UI) :
  forall r ui' x, Ask query opts ui = Some (r, ui') -> In x ui' -> In x ui.
Proof.
  induction ui as [|i rest IH]; intros r ui' x H Hin.
  - apply Ask_nil in H. subst. exact Hin.
  - simpl in H.
    assert (Hrec : Ask query opts rest = Some (r, ui') -> In x (i :: rest)).
    { intros E. right. exact (IH _ _ _ E Hin). }
    assert (Hnow : forall y, Some (y, rest) = Some (r, ui') -> In x (i :: rest)).
    { intros y E. inversion E; subst. right. exact Hin. }
    destruct i as [line|err].
    + destruct (String.eqb line "" && negb (String.eqb (Default opts) ""));
        [exact (Hnow _ H)|].
      destruct (String.eqb line "" && Required opts).
      { destruct (Loop opts); [exact (Hrec H) | exact (Hnow _ H)]. }
      destruct (validate opts line).
      { destruct (Loop opts); [exact (Hrec H) | exact (Hnow _ H)]. }
      exact (Hnow _ H).
    + exact (Hnow _ H).
Qed.

Lemma askPort_parses
    (defaultValue : types_SQLCredentials) (ui ui' : UI) (dbPortStr : string) :
  - 2 ^ 63 <= Port defaultValue <= 2 ^ 63 - 1 ->
  askPort defaultValue ui = Some (inr dbPortStr, ui') ->
  exists dbPort, Atoi dbPortStr = inr dbPort /\ - 2 ^ 63 <= dbPort <= 2 ^ 63 - 1.
Proof.
  intros Hport H. unfold askPort in H.
  apply Ask_answer_required in H as [_ [->|[_ Hv]]]; [| |reflexivity].
  - exists (Port defaultValue). split; [apply Atoi_Sprintf_d; exact Hport | exact Hport].
  - cbn in Hv. apply portValidateFunc_spec in Hv as [n Hn].
    exists n. split; [exact Hn | apply (Atoi_range _ _ Hn)].
Qed.

(** X2: whatever the operator types, a string the port prompt returns is
    one [strconv.Atoi] parses, be it a typed line or the default taken by an
    empty line: the conversion after the prompt (lines 120 to 123) cannot
    fail. *)
Theorem askPort_answer_parses
    (defaultValue : types_SQLCredentials) (ui ui' : UI) (dbPortStr : string) :
  - 2 ^ 63 <= Port defaultValue <= 2 ^ 63 - 1 ->
  askPort defaultValue ui = Some (inr dbPortStr, ui') ->
  exists dbPort, Atoi dbPortStr = inr dbPort /\ - 2 ^ 63 <= dbPort <= 2 ^ 63 - 1.
Proof. apply askPort_parses. Qed.

Lemma askPort_answer_parses_witness :
  exists dbPort, Atoi "5432" = inr dbPort /\ - 2 ^ 63 <= dbPort <= 2 ^ 63 - 1.
Proof.
  apply (askPort_answer_parses sim_credentials [Line ""] [] "5432");
    [simpl; lia | reflexivity].
Defined.

(** ** The errors and the answers of AskSQLCredentials *)

Lemma body_rest (dv : types_SQLCredentials) (check : types_SQLCredentials -> option error)
    (ui ui' : UI) (r : error + LoopStep) (x : Input) :
  AskSQLCredentials_body dv check ui = Some (r, ui') -> In x ui' -> In x ui.
Proof.
  body_cases check; intros H Hin; inversion H; subst; eauto 10 using Ask_rest.
Qed.

Lemma turn_starts_rest (dv : types_SQLCredentials)
    (check : types_SQLCredentials -> option error) (ui u : UI) (x : Input) :
  turn_starts dv check ui u -> In x u -> In x ui.
Proof.
  induction 1 as [|ui ui' u Hbody _ IH]; intros Hin; [exact Hin|].
  exact (body_rest _ _ _ _ _ _ Hbody (IH Hin)).
Qed.

(** A turn returns an error exactly when the read of one of its prompts
    fails. *)
Lemma body_error (dv : types_SQLCredentials) (check : types_SQLCredentials -> option error)
    (ui ui' : UI) (e : error) :
  - 2 ^ 63 <= Port dv <= 2 ^ 63 - 1 ->
  AskSQLCredentials_body dv check ui = Some (inl e, ui') <->
  exists inner, prompt_failed dv check ui inner e ui'.
Proof.
  intros Hport. unfold AskSQLCredentials_body, prompt_failed. split.
  - destruct (askHost dv ui) as [[[err|dbHost] ui1]|] eqn:E1; [| |discriminate].
    { intros H. inversion H; subst. exists err. left. auto. }
    destruct (askPort dv ui1) as [[[err|dbPortStr] ui2]|] eqn:E2; [| |discriminate].
    { intros H. inversion H; subst. exists err. right. exists dbHost, ui1.
      split; [first [reflexivity | assumption]|]. left. auto. }
    destruct (askPort_parses dv _ _ _ Hport E2) as (dbPort & Hatoi & _). rewrite Hatoi.
    destruct (askUser dv ui2) as [[[err|dbUser] ui3]|] eqn:E3; [| |discriminate].
    { intros H. inversion H; subst. exists err. right. exists dbHost, ui1.
      split; [first [reflexivity | assumption]|]. right. exists dbPortStr, ui2.
      split; [first [reflexivity | assumption]|]. left. auto. }
    destruct (askPass dv ui3) as [[[err|dbPass] ui4]|] eqn:E4; [| |discriminate].
    { intros H. inversion H; subst. exists err. right. exists dbHost, ui1.
      split; [first [reflexivity | assumption]|]. right. exists dbPortStr, ui2.
      split; [first [reflexivity | assumption]|]. right. exists dbUser, ui3.
      split; [first [reflexivity | assumption]|]. left. auto. }
    destruct (askName dv ui4) as [[[err|dbName] ui5]|] eqn:E5; [| |discriminate].
    { intros H. inversion H; subst. exists err. right. exists dbHost, ui1.
      split; [first [reflexivity | assumption]|]. right. exists dbPortStr, ui2.
      split; [first [reflexivity | assumption]|]. right. exists dbUser, ui3.
      split; [first [reflexivity | assumption]|]. right. exists dbPass, ui4.
      split; [first [reflexivity | assumption]|]. left. auto. }
    cbv zeta. destruct (check _) as [refused|] eqn:Hc; [|discriminate].
    destruct (askTryAgain ui5) as [[[err|tryAgain] ui6]|] eqn:E6; [| |discriminate].
    { intros H. inversion H; subst. exists err. right. exists dbHost, ui1.
      split; [first [reflexivity | assumption]|]. right. exists dbPortStr, ui2.
      split; [first [reflexivity | assumption]|]. right. exists dbUser, ui3.
      split; [first [reflexivity | assumption]|]. right. exists dbPass, ui4.
      split; [first [reflexivity | assumption]|]. right. exists dbName, ui5, dbPort.
      repeat split; try reflexivity; try assumption. rewrite Hc. discriminate. }
    destruct (String.eqb (ToLower tryAgain) "yes"); discriminate.
  - intros (inner & [[H1 ->]|(dbHost & ui1 & H1 & H)]); rewrite H1; [reflexivity|].
    destruct H as [[H2 ->]|(dbPortStr & ui2 & H2 & H)]; rewrite H2; [reflexivity|].
    destruct (askPort_parses dv _ _ _ Hport H2) as (n & Hatoi & _). rewrite Hatoi.
    destruct H as [[H3 ->]|(dbUser & ui3 & H3 & H)]; rewrite H3; [reflexivity|].
    destruct H as [[H4 ->]|(dbPass & ui4 & H4 & H)]; rewrite H4; [reflexivity|].
    destruct H as [[H5 ->]|(dbName & ui5 & dbPort & H5 & Hatoi' & Hc & H6 & ->)];
      rewrite H5; [reflexivity|].
    cbv zeta. assert (n = dbPort) as -> by congruence.
    destruct (check _); [|congruence]. rewrite H6. reflexivity.
Qed.

(** The read that failed is one of the script. *)
Lemma prompt_failed_interrupted (dv : types_SQLCredentials)
    (check : types_SQLCredentials -> option error) (ui ui' : UI) (inner e : error) :
  prompt_failed dv check ui inner e ui' -> In (Interrupted inner) ui.
Proof.
  unfold prompt_failed, askHost, askPort, askUser, askPass, askName, askTryAgain.
  intros H.
  repeat match goal with
  | H : _ \/ _ |- _ => destruct H
  | H : _ /\ _ |- _ => destruct H
  | H : exists _, _ |- _ => destruct H
  end;
  match goal with
  | He : Ask _ _ _ = Some (inl inner, _) |- _ => apply Ask_error in He; [|reflexivity]
  end;
  eauto 10 using Ask_rest.
Qed.

Lemma body_break (dv : types_SQLCredentials) (check : types_SQLCredentials -> option error)
    (ui ui' : UI) (creds : types_SQLCredentials) :
  AskSQLCredentials_body dv check ui = Some (inr (Break creds), ui') ->
  check creds = None \/ exists line, In (Line line) ui /\ ToLower line = "no".
Proof.
  body_cases check; intros H; inversion H; subst; auto; try congruence.
  all: right;
    match goal with
    | He : Ask _ tryAgainOptions _ = Some (inr ?v, _),
      B : String.eqb (ToLower ?v) "yes" = false |- _ =>
        pose proof He as Hans;
        apply Ask_answer_required in Hans as [_ [Hd|[Hin Hv]]]; [| |reflexivity];
        [ rewrite Hd in B; vm_compute in B; discriminate
        | exists v; split;
            [ eauto 10 using Ask_rest
            | cbn in Hv; unfold yesNoValidateFunc in Hv; rewrite B in Hv; cbn in Hv;
              destruct (String.eqb (ToLower v) "no") eqn:Hno;
                [apply String.eqb_eq; exact Hno | discriminate] ] ]
    end.
Qed.

Lemma AskSQLCredentials_for_error (dv : types_SQLCredentials)
    (check : types_SQLCredentials -> option error) (e : error) (ui' : UI) :
  - 2 ^ 63 <= Port dv <= 2 ^ 63 - 1 ->
  forall n ui, AskSQLCredentials_for n dv check ui = Some (inl e, ui') ->
    exists u inner, turn_starts dv check ui u /\ prompt_failed dv check u inner e ui'.
Proof.
  intros Hport. induction n as [|n IH]; intros ui H; simpl in H; [discriminate|].
  destruct (AskSQLCredentials_body dv check ui) as [[[e0|[|creds]] u]|] eqn:E;
    try discriminate.
  - inversion H; subst. apply (body_error _ _ _ _ _ Hport) in E as [inner Hp].
    exists ui, inner. split; [constructor | exact Hp].
  - destruct (IH _ H) as (u' & inner & Ht & Hp). exists u', inner.
    split; [exact (turn_next _ _ _ _ _ E Ht) | exact Hp].
Qed.

Lemma AskSQLCredentials_error_at (dv : types_SQLCredentials)
    (check : types_SQLCredentials -> option error) (e inner : error) (ui u ui' : UI) :
  - 2 ^ 63 <= Port dv <= 2 ^ 63 - 1 ->
  turn_starts dv check ui u -> prompt_failed dv check u inner e ui' ->
  AskSQLCredentials ui dv check = Some (inl e, ui').
Proof.
  intros Hport Ht Hp. induction Ht as [ui|ui u0 u Hbody _ IH];
    rewrite AskSQLCredentials_unfold.
  - assert (E : AskSQLCredentials_body dv check ui = Some (inl e, ui')).
    { apply (body_error _ _ _ _ _ Hport). exists inner. exact Hp. }
    rewrite E. reflexivity.
  - rewrite Hbody. exact (IH Hp).
Qed.

Lemma AskSQLCredentials_for_checked (dv : types_SQLCredentials)
    (check : types_SQLCredentials -> option error) (creds : types_SQLCredentials)
    (ui' : UI) :
  forall n ui, AskSQLCredentials_for n dv check ui = Some (inr creds, ui') ->
    check creds = None \/ exists line, In (Line line) ui /\ ToLower line = "no".
Proof.
  induction n as [|n IH]; intros ui H; simpl in H; [discriminate|].
  destruct (AskSQLCredentials_body dv check ui) as [[[e0|[|c]] u]|] eqn:E;
    try discriminate.
  - destruct (IH _ H) as [Hc|(line & Hin & Hno)]; [left; exact Hc|].
    right. exists line. split; [exact (body_rest _ _ _ _ _ _ E Hin) | exact Hno].
  - inversion H; subst. exact (body_break _ _ _ _ _ E).
Qed.

(** X3: [AskSQLCredentials] returns an error exactly when, in one of the
    turns of its loop, the read of a prompt fails (the operator interrupts
    it): the error is that read error behind the text of the prompt at
    which it happened, as an [InputError] at the host and port prompts and
    as a plain error at the four others, and the failed read is an
    interrupt of the script.  No refused answer, no failed conversion of
    the port and no failed connectivity check ever comes out as an error. *)
Theorem AskSQLCredentials_fails_on_read_errors
    (ui ui' : UI) (defaultValue : types_SQLCredentials)
    (checkFunc : types_SQLCredentials -> option error) (e : error) :
  - 2 ^ 63 <= Port defaultValue <= 2 ^ 63 - 1 ->
  (AskSQLCredentials ui defaultValue checkFunc = Some (inl e, ui') <->
   exists u inner,
     turn_starts defaultValue checkFunc ui u /\
     prompt_failed defaultValue checkFunc u inner e ui') /\
  (forall u inner,
     turn_starts defaultValue checkFunc ui u ->
     prompt_failed defaultValue checkFunc u inner e ui' ->
     In (Interrupted inner) ui).
Proof.
  intros Hport. split; [split|].
  - intros H. exact (AskSQLCredentials_for_error _ _ _ _ Hport _ _ H).
  - intros (u & inner & Ht & Hp). exact (AskSQLCredentials_error_at _ _ _ _ _ _ _ Hport Ht Hp).
  - intros u inner Ht Hp. apply (turn_starts_rest _ _ _ _ _ Ht).
    exact (prompt_failed_interrupted _ _ _ _ _ _ Hp).
Qed.

Lemma AskSQLCredentials_fails_on_read_errors_witness :
  AskSQLCredentials
    [Line "db"; Line "5432"; Line "u"; Line "p"; Line "n"; Line "yes";
     Line "db"; Line "x"; Interrupted (errorString "interrupted")]
    sim_credentials (fun _ => Some (errorString "connection refused"))
  = Some (inl (InputError (wrapError "failed to get postgresql port: "
                                     (errorString "interrupted"))), []).
Proof.
  apply (AskSQLCredentials_fails_on_read_errors
           [Line "db"; Line "5432"; Line "u"; Line "p"; Line "n"; Line "yes";
            Line "db"; Line "x"; Interrupted (errorString "interrupted")] []
           sim_credentials (fun _ => Some (errorString "connection refused")));
    [simpl; lia|].
  exists [Line "db"; Line "x"; Interrupted (errorString "interrupted")],
         (errorString "interrupted").
  split.
  - eapply turn_next; [reflexivity | apply turn_first].
  - right. exists "db", [Line "x"; Interrupted (errorString "interrupted")].
    split; [reflexivity|]. left. split; reflexivity.
Defined.

(** X4: credentials that [AskSQLCredentials] returns have passed the
    connectivity check, unless the operator typed "no" (in any letter case)
    somewhere in the interview: without such a line the function never
    returns unchecked credentials. *)
Theorem AskSQLCredentials_returns_checked
    (ui ui' : UI) (defaultValue creds : types_SQLCredentials)
    (checkFunc : types_SQLCredentials -> option error) :
  (forall line, In (Line line) ui -> ToLower line <> "no") ->
  AskSQLCredentials ui defaultValue checkFunc = Some (inr creds, ui') ->
  checkFunc creds = None.
Proof.
  intros Hno H.
  destruct (AskSQLCredentials_for_checked _ _ _ _ _ _ H) as [Hc|(line & Hin & Hl)];
    [exact Hc | exfalso; exact (Hno _ Hin Hl)].
Qed.

Lemma AskSQLCredentials_returns_checked_witness :
  (fun c : types_SQLCredentials => if String.eqb (Host c) "db" then None
                                   else Some (errorString "refused"))
    {| Host := "db"; User := "u"; Port := 5432; Pass := "p"; DatabaseName := "n" |} = None.
Proof.
  apply (AskSQLCredentials_returns_checked
           [Line "bad"; Line ""; Line "u"; Line "p"; Line "n"; Line "";
            Line "db"; Line ""; Line "u"; Line "p"; Line "n"] []
           sim_credentials).
  - intros line Hin. simpl in Hin.
    repeat (destruct Hin as [Hin|Hin]; [inversion Hin; subst; discriminate|]).
    destruct Hin.
  - reflexivity.
Defined.

Lemma Ask_default (query : string) (opts : Options) (rest : UI) :
  Default opts <> "" -> Ask query opts (Line "" :: rest) = Some (inr (Default opts), rest).
Proof. intros Hd. simpl. rewrite (eqb_empty_false _ Hd). reflexivity. Qed.

(** X5: with defaults that have no empty field and a port in the [int]
    range, an operator who answers the five prompts with empty lines gets
    exactly the default credentials back when the connectivity check accepts
    them; nothing more of the input is read. *)
Theorem AskSQLCredentials_accepts_defaults
    (defaultValue : types_SQLCredentials)
    (checkFunc : types_SQLCredentials -> option error) (rest : UI) :
  Host defaultValue <> "" ->
  User defaultValue <> "" ->
  Pass defaultValue <> "" ->
  DatabaseName defaultValue <> "" ->
  - 2 ^ 63 <= Port defaultValue <= 2 ^ 63 - 1 ->
  checkFunc defaultValue = None ->
  AskSQLCredentials (Line "" :: Line "" :: Line "" :: Line "" :: Line "" :: rest)
                    defaultValue checkFunc
  = Some (inr defaultValue, rest).
Proof.
  intros Hhost Huser Hpass Hname Hport Hcheck.
  assert (Hp : Default (portOptions defaultValue) <> "").
  { intros Hempty. pose proof (Atoi_Sprintf_d _ Hport) as Hatoi.
    cbn [portOptions Default] in Hempty. rewrite Hempty in Hatoi. discriminate. }
  rewrite AskSQLCredentials_unfold.
  unfold AskSQLCredentials_body, askHost, askPort, askUser, askPass, askName.
  rewrite (Ask_default _ (hostOptions defaultValue)) by exact Hhost.
  rewrite (Ask_default _ (portOptions defaultValue)) by exact Hp.
  cbn [portOptions Default]. rewrite (Atoi_Sprintf_d _ Hport).
  rewrite (Ask_default _ (userOptions defaultValue)) by exact Huser.
  rewrite (Ask_default _ (passOptions defaultValue)) by exact Hpass.
  rewrite (Ask_default _ (nameOptions defaultValue)) by exact Hname.
  destruct defaultValue as [h u p pw n]. cbn in *. rewrite Hcheck. reflexivity.
Qed.

Lemma AskSQLCredentials_accepts_defaults_witness :
  AskSQLCredentials [Line ""; Line ""; Line ""; Line ""; Line ""; Line "next"]
                    sim_credentials (fun _ => None)
  = Some (inr sim_credentials, [Line "next"]).
Proof.
  apply (AskSQLCredentials_accepts_defaults sim_credentials (fun _ => None) [Line "next"]);
    first [discriminate | reflexivity | simpl; lia].
Defined.

(** X6: when the connectivity check accepts the credentials just entered,
    [AskSQLCredentials] returns them at once: the try-again prompt is not
    shown and nothing after the five answers is read. *)
Theorem AskSQLCredentials_check_passes
    (defaultValue : types_SQLCredentials)
    (checkFunc : types_SQLCredentials -> option error)
    (ui ui1 ui2 ui3 ui4 ui5 : UI)
    (dbHost dbPortStr dbUser dbPass dbName : string) (dbPort : Z) :
  askHost defaultValue ui = Some (inr dbHost, ui1) ->
  askPort defaultValue ui1 = Some (inr dbPortStr, ui2) ->
  Atoi dbPortStr = inr dbPort ->
  askUser defaultValue ui2 = Some (inr dbUser, ui3) ->
  askPass defaultValue ui3 = Some (inr dbPass, ui4) ->
  askName defaultValue ui4 = Some (inr dbName, ui5) ->
  checkFunc {| Host := dbHost; User := dbUser; Port := dbPort; Pass := dbPass;
               DatabaseName := dbName |} = None ->
  AskSQLCredentials ui defaultValue checkFunc
  = Some (inr {| Host := dbHost; User := dbUser; Port := dbPort; Pass := dbPass;
                 DatabaseName := dbName |}, ui5).
Proof.
  intros Hhost Hport Hatoi Huser Hpass Hname Hcheck.
  rewrite AskSQLCredentials_unfold. unfold AskSQLCredentials_body.
  rewrite Hhost, Hport, Hatoi, Huser, Hpass, Hname. cbv zeta. rewrite Hcheck. reflexivity.
Qed.

Lemma AskSQLCredentials_check_passes_witness :
  AskSQLCredentials [Line "db"; Line "5432"; Line "u"; Line "p"; Line "n"; Line "No"]
                    sim_credentials (fun _ => None)
  = Some (inr {| Host := "db"; User := "u"; Port := 5432; Pass := "p";
                 DatabaseName := "n" |}, [Line "No"]).
Proof.
  apply (AskSQLCredentials_check_passes sim_credentials (fun _ => None)
           [Line "db"; Line "5432"; Line "u"; Line "p"; Line "n"; Line "No"]
           [Line "5432"; Line "u"; Line "p"; Line "n"; Line "No"]
           [Line "u"; Line "p"; Line "n"; Line "No"]
           [Line "p"; Line "n"; Line "No"]
           [Line "n"; Line "No"]
           [Line "No"]
           "db" "5432" "u" "p" "n" 5432);
    reflexivity.
Defined.

(** ** AskPath and AskYesNo *)

(** X7: a path [AskPath] returns is never empty, and is the default or a
    path the operator typed at which nothing exists; a typed path at which
    something exists is asked again; and the only errors are failed reads,
    returned as an [InputError]. *)
Theorem AskPath_returns_free_path
    (FileExists : string -> bool) (ui : UI) (name defaultValue : string) :
  (forall path ui',
     AskPath FileExists ui name defaultValue = Some (inr path, ui') ->
     path <> "" /\
     (path = defaultValue \/ (In (Line path) ui /\ FileExists path = false))) /\
  (forall e ui',
     AskPath FileExists ui name defaultValue = Some (inl e, ui') ->
     exists inner, e = InputError inner /\ In (Interrupted inner) ui) /\
  (forall path rest,
     path <> "" -> FileExists path = true ->
     AskPath FileExists (Line path :: rest) name defaultValue
     = AskPath FileExists rest name defaultValue).
Proof.
  split; [|split].
  - intros path ui' H. unfold AskPath in H.
    destruct (Ask _ _ ui) as [[[e|v] u]|] eqn:E; inversion H; subst.
    apply Ask_answer_required in E as [Hne [Hd|[Hin Hv]]]; [| |reflexivity].
    + auto.
    + split; [exact Hne|]. right. split; [exact Hin|].
      cbn in Hv. unfold pathValidateFunc in Hv.
      destruct (FileExists path); [discriminate | reflexivity].
  - intros e ui' H. unfold AskPath in H.
    destruct (Ask _ _ ui) as [[[e0|v] u]|] eqn:E; inversion H; subst.
    exists e0. split; [reflexivity|].
    apply Ask_error in E; [exact E | reflexivity].
  - intros path rest Hne Hex. unfold AskPath.
    rewrite Ask_asks_again; [reflexivity | exact Hne | reflexivity |].
    cbn. unfold pathValidateFunc. rewrite Hex. discriminate.
Qed.

Lemma AskPath_returns_free_path_witness :
  AskPath (fun p => String.eqb p "/home/vega") [Line "/home/vega"; Line "/home/vega2"]
          "vega home" "/home/vega"
  = AskPath (fun p => String.eqb p "/home/vega") [Line "/home/vega2"]
            "vega home" "/home/vega".
Proof.
  destruct (AskPath_returns_free_path (fun p => String.eqb p "/home/vega")
              [Line "/home/vega"; Line "/home/vega2"] "vega home" "/home/vega")
    as (_ & _ & Hagain).
  apply Hagain; [discriminate | reflexivity].
Defined.

(** X8: [AskYesNo] takes "yes" and "no" in any letter case and nothing
    else: such a line gives [AnswerYes] or [AnswerNo], any other non-empty
    line is asked again, and a failed read gives the default answer back
    together with the read error behind "failed to ask for yes/no". *)
Theorem AskYesNo_answers (question defaultAnswer line : string) (rest : UI) :
  line <> "" ->
  (ToLower line = "yes" ->
     AskYesNo (Line line :: rest) question defaultAnswer
     = Some ((AnswerYes, None), rest)) /\
  (ToLower line = "no" ->
     AskYesNo (Line line :: rest) question defaultAnswer
     = Some ((AnswerNo, None), rest)) /\
  (ToLower line <> "yes" -> ToLower line <> "no" ->
     AskYesNo (Line line :: rest) question defaultAnswer
     = AskYesNo rest question defaultAnswer) /\
  (forall err,
     AskYesNo (Interrupted err :: rest) question defaultAnswer
     = Some ((defaultAnswer, Some (wrapError "failed to ask for yes/no: " err)), rest)).
Proof.
  intros Hne. split; [|split; [|split]].
  - intros Hyes. unfold AskYesNo. rewrite Ask_accepts; [| exact Hne |].
    + rewrite Hyes. reflexivity.
    + cbn. unfold yesNoValidateFunc. rewrite Hyes. reflexivity.
  - intros Hno. unfold AskYesNo. rewrite Ask_accepts; [| exact Hne |].
    + rewrite Hno. reflexivity.
    + cbn. unfold yesNoValidateFunc. rewrite Hno. reflexivity.
  - intros Hyes Hno. unfold AskYesNo.
    rewrite Ask_asks_again; [reflexivity | exact Hne | reflexivity |].
    cbn. unfold yesNoValidateFunc.
    apply String.eqb_neq in Hyes, Hno. rewrite Hyes, Hno. discriminate.
  - intros err. reflexivity.
Qed.

Lemma AskYesNo_answers_witness :
  AskYesNo [Line "maybe"; Line "YES"] "Continue?" AnswerNo = Some ((AnswerYes, None), []).
Proof.
  destruct (AskYesNo_answers "Continue?" AnswerNo "maybe" [Line "YES"]) as (_ & _ & Hagain & _);
    [discriminate|].
  destruct (AskYesNo_answers "Continue?" AnswerNo "YES" []) as (Hyes & _);
    [discriminate|].
  rewrite Hagain; [apply Hyes; reflexivity | vm_compute; discriminate..].
Defined.

(** ** What the summary leaves out *)

(** X9: the summary shows neither the data-node home nor the snapshot: two
    settings records that agree on every other field give the same
    summary. *)
Theorem printSummary_leaves_out (a b : GenerateSettings) :
  Mode a = Mode b ->
  VisorHome a = VisorHome b ->
  VegaHome a = VegaHome b ->
  TendermintHome a = TendermintHome b ->
  SQLCredentials a = SQLCredentials b ->
  MainnetVersion a = MainnetVersion b ->
  MainnetChainId a = MainnetChainId b ->
  printSummary a = printSummary b.
Proof.
  intros Hmode Hvisor Hvega Htm Hsql Hver Hchain. unfold printSummary.
  rewrite Hmode, Hvisor, Hvega, Htm, Hsql, Hver, Hchain. reflexivity.
Qed.

Lemma printSummary_leaves_out_witness :
  printSummary (sim_settings StartFromBlock0)
  = printSummary
      {| Mode := StartFromBlock0;
         VisorHome := "/home/vega/vegavisor_home";
         VegaHome := "/home/vega/vega_home";
         TendermintHome := "/home/vega/tendermint_home";
         DataNodeHome := "/somewhere/else";
         SQLCredentials := sim_credentials;
         MainnetVersion := "v0.72.14";
         MainnetChainId := "vega-mainnet-0011";
         LatestSnapshot := {| BlockHeight := "1000"; BlockHash := "ABC" |} |}.
Proof. apply printSummary_leaves_out; reflexivity. Defined.

(** ** The end of the input *)

Lemma Ask_nil_default (query : string) (opts : Options) :
  Default opts <> "" -> Ask query opts [] = Some (inr (Default opts), []).
Proof. intros Hd. simpl. rewrite (eqb_empty_false _ Hd). reflexivity. Qed.

Lemma Ask_nil_spins (query : string) (opts : Options) :
  Default opts = "" -> Required opts = true -> Loop opts = true ->
  Ask query opts [] = None.
Proof. intros Hd Hr Hl. simpl. rewrite Hd, Hr, Hl. reflexivity. Qed.

Ltac end_step Hask :=
  match goal with
  | |- context [Ask ?q ?o []] =>
      destruct (Hask q o eq_refl eq_refl) as [->|[_ ->]];
      [left; reflexivity | cbv beta iota]
  end.

(** At the end of the input a turn takes every default, and with a check
    that refuses them it ends in [continue]; with an empty default it does
    not end at all. *)
Lemma body_end_of_input (dv : types_SQLCredentials)
    (check : types_SQLCredentials -> option error) :
  - 2 ^ 63 <= Port dv <= 2 ^ 63 - 1 ->
  check dv <> None ->
  AskSQLCredentials_body dv check [] = None \/
  AskSQLCredentials_body dv check [] = Some (inr Continue, []).
Proof.
  intros Hport Hcheck.
  assert (Hp : Default (portOptions dv) <> "").
  { intros Hempty. pose proof (Atoi_Sprintf_d _ Hport) as Hatoi.
    cbn [portOptions Default] in Hempty. rewrite Hempty in Hatoi. discriminate. }
  assert (Hask : forall q o, Required o = true -> Loop o = true ->
                 Ask q o [] = None \/
                 (Default o <> "" /\ Ask q o [] = Some (inr (Default o), []))).
  { intros q o Hr Hl. destruct (String.eqb (Default o) "") eqn:Hd.
    - left. apply String.eqb_eq in Hd. apply Ask_nil_spins; assumption.
    - right. apply String.eqb_neq in Hd. split; [exact Hd | apply Ask_nil_default; exact Hd]. }
  unfold AskSQLCredentials_body, askHost, askPort, askUser, askPass, askName, askTryAgain.
  end_step Hask. end_step Hask.
  cbn [portOptions Default]. rewrite (Atoi_Sprintf_d _ Hport). cbv beta iota.
  end_step Hask. end_step Hask. end_step Hask.
  right. destruct dv as [h u p pw n]. cbn in *.
  destruct (check _); [reflexivity | congruence].
Qed.

Lemma AskSQLCredentials_for_le (dv : types_SQLCredentials)
    (check : types_SQLCredentials -> option error) (r : error + types_SQLCredentials)
    (ui' : UI) :
  forall n ui, AskSQLCredentials_for n dv check ui = Some (r, ui') ->
    (length ui' <= length ui)%nat.
Proof.
  induction n as [|n IH]; intros ui H; simpl in H; [discriminate|].
  destruct (AskSQLCredentials_body dv check ui) as [[[e|[|creds]] u]|] eqn:E;
    try discriminate.
  - inversion H; subst. exact (body_le _ _ _ _ _ E).
  - apply body_le in E. specialize (IH _ H). lia.
  - inversion H; subst. exact (body_le _ _ _ _ _ E).
Qed.

(** X10: [AskSQLCredentials] need not return.  The reader of the prompts
    gives the empty line at the end of the input, which takes the default
    of every prompt, the "Yes" of the try-again prompt too: once the input
    is exhausted, with a connectivity check that refuses the default
    credentials, no number of turns of the loop ends it.  On every script
    the turns beyond its length change nothing, and a call that returns
    leaves no more of the script than it was given. *)
Theorem AskSQLCredentials_end_of_input
    (defaultValue : types_SQLCredentials)
    (checkFunc : types_SQLCredentials -> option error) :
  - 2 ^ 63 <= Port defaultValue <= 2 ^ 63 - 1 ->
  checkFunc defaultValue <> None ->
  (forall turns, AskSQLCredentials_for turns defaultValue checkFunc [] = None) /\
  (forall ui turns,
     (length ui < turns)%nat ->
     AskSQLCredentials_for turns defaultValue checkFunc ui
     = AskSQLCredentials ui defaultValue checkFunc) /\
  (forall ui r ui',
     AskSQLCredentials ui defaultValue checkFunc = Some (r, ui') ->
     (length ui' <= length ui)%nat).
Proof.
  intros Hport Hcheck. split; [|split].
  - destruct (body_end_of_input _ _ Hport Hcheck) as [E|E].
    + intros [|turns]; [reflexivity|]. simpl. rewrite E. reflexivity.
    + apply AskSQLCredentials_for_stuck. exact E.
  - intros ui turns Hlt. apply AskSQLCredentials_for_enough; [exact Hlt | lia].
  - intros ui r ui' H. exact (AskSQLCredentials_for_le _ _ _ _ _ _ H).
Qed.

Lemma AskSQLCredentials_end_of_input_witness :
  AskSQLCredentials_for 1000 sim_credentials
    (fun _ => Some (errorString "connection refused")) [] = None /\
  AskSQLCredentials [Line "db"; Line "5432"; Line "u"; Line "p"; Line "n"]
    sim_credentials (fun _ => Some (errorString "connection refused")) = None.
Proof.
  destruct (AskSQLCredentials_end_of_input sim_credentials
              (fun _ => Some (errorString "connection refused")))
    as (Hnever & _ & _); [simpl; lia | discriminate |].
  split; [apply Hnever|].
  rewrite AskSQLCredentials_unfold. simpl. apply Hnever.
Defined.

(** ** The order of a run *)

Section RunProperties.

Variable P : Platform.

(** The key sets do not depend on the world and leave it as it is. *)
Lemma configKeySets_const (gen : DataNodeGenerator) :
  exists r, forall w, configKeySets P gen w = (r, w).
Proof.
  unfold configKeySets, index, bind, ret, fail, panic.
  destruct (nth_error (Split (Repository (networkConfig gen)) "/") 0);
    [|eexists; intros; reflexivity].
  destruct (nth_error (Split (Repository (networkConfig gen)) "/") 1);
    [|eexists; intros; reflexivity].
  destruct (StartupMode_eqb (Mode (userSettings gen)) StartFromNetworkHistory);
    [|eexists; intros; reflexivity].
  destruct (String.eqb (BlockHash (LatestSnapshot (userSettings gen))) "");
    [eexists; intros; reflexivity|].
  destruct (Atoi (BlockHeight (LatestSnapshot (userSettings gen))));
    eexists; intros; reflexivity.
Qed.

Ltac run_step gen Hr :=
  first
    [ match goal with
      | |- context [extern P ?c ?f] => destruct (extern P c f) as [[?|?] ?]
      | |- context [@lookup string Node _ _ ?k ?m] =>
          destruct (@lookup string Node _ _ k m)
      | |- context [configKeySets P gen ?w] => rewrite (Hr w)
      end ];
  cbv beta iota zeta delta [fst snd fs trace].

Ltac leaf k :=
  exists k; do 8 eexists;
  split; [cbn [take app]; rewrite <- ?app_assoc; apply drop_app_length|];
  split; [lia|];
  split; [first [intros; lia | intros; reflexivity]|];
  intros Hok; first [discriminate Hok | reflexivity].

Ltac leaves :=
  first [ leaf 1%nat | leaf 2%nat | leaf 3%nat | leaf 4%nat | leaf 5%nat
        | leaf 6%nat | leaf 7%nat | leaf 8%nat | leaf 9%nat | leaf 10%nat
        | leaf 11%nat | leaf 12%nat | leaf 13%nat | leaf 14%nat | leaf 15%nat
        | leaf 16%nat | leaf 17%nat | leaf 18%nat | leaf 19%nat | leaf 20%nat ].

(** Whatever happens, the calls of a run are the first [n] of the calls of
    a successful run. *)
Lemma Run_calls_prefix (gen : DataNodeGenerator) (w : World) :
  exists n outputDir vegaBinary visorBinary content dn vc tm vv,
    calls (Run P gen) w
    = take n (runCalls P gen outputDir vegaBinary visorBinary content dn vc tm vv) /\
    (1 <= n)%nat /\
    (15 < n -> fst (configKeySets P gen w) = Ok (dn, vc, tm, vv))%nat /\
    (fst (Run P gen w) = Ok tt -> n = 20%nat).
Proof.
  destruct (configKeySets_const gen) as [r Hr].
  rewrite (Hr w).
  unfold calls, Run, initNode, prepareVisorHome, copyBinaries, updateConfigs,
    downloadGenesis, runCalls, configWrites.
  destruct (StartupMode_eqb (Mode (userSettings gen)) StartFromBlock0);
    destruct r as [[[[dn0 vc0] tm0] vv0]|e0|msg0];
    unfold bind, wrap, call, os_Symlink, ret;
    cbv beta iota zeta delta [fst snd fs trace];
    repeat run_step gen Hr;
    leaves.
  Unshelve. all: first [exact "" | exact ∅].
Qed.

(** X11: the calls of a run are always the first [n] of one fixed sequence
    of twenty: staging directory, the two downloads, the two version
    checks, the four initialisations (supervisor, consensus layer, node,
    data-node), the versioned directory with its run configuration, the two
    copies, the link "current", the four documents, the genesis file.  A
    document is only written with the key set computed from the settings,
    and a run that succeeds has made all twenty calls. *)
Theorem Run_calls_in_order (gen : DataNodeGenerator) (w : World) :
  exists n outputDir vegaBinary visorBinary content dn vc tm vv,
    calls (Run P gen) w
    = take n (runCalls P gen outputDir vegaBinary visorBinary content dn vc tm vv) /\
    (1 <= n)%nat /\
    (15 < n -> fst (configKeySets P gen w) = Ok (dn, vc, tm, vv))%nat /\
    (fst (Run P gen w) = Ok tt ->
       n = 20%nat /\
       calls (Run P gen) w
       = runCalls P gen outputDir vegaBinary visorBinary content dn vc tm vv).
Proof.
  destruct (Run_calls_prefix gen w)
    as (n & o & vb & xb & c & dn & vc & tm & vv & Hcalls & Hn & Hk & Hok).
  exists n, o, vb, xb, c, dn, vc, tm, vv.
  split; [exact Hcalls|]. split; [exact Hn|]. split; [exact Hk|].
  intros H. pose proof (Hok H) as ->. split; [reflexivity|].
  rewrite Hcalls. reflexivity.
Qed.

Lemma Split_second (s : string) (sep : ascii) (name : string) :
  nth_error (Split s sep) 1 = Some name -> has_byte sep s = true.
Proof.
  intros H. destruct (has_byte sep s) eqn:Hb; [reflexivity|].
  unfold Split in H. rewrite (Split_go_last sep s Hb) in H. discriminate.
Qed.

Lemma Split_go_nonempty (sep : ascii) (s : string) :
  forall cur, exists x l, Split_go sep s cur = x :: l.
Proof.
  induction s as [|c s IH]; intros cur; simpl; [eauto|].
  destruct (Ascii.eqb c sep); [eauto | apply IH].
Qed.

Lemma Split_go_two (sep : ascii) (s : string) :
  has_byte sep s = true -> forall cur, exists a b l, Split_go sep s cur = a :: b :: l.
Proof.
  induction s as [|c s IH]; intros Hs cur; simpl in *; [discriminate|].
  destruct (Ascii.eqb c sep).
  - destruct (Split_go_nonempty sep s "") as (x & l & ->). eauto.
  - apply IH. exact Hs.
Qed.

(** What [updateConfigs] does with settings it cannot use: it stops before
    any write, in the world it was started in. *)
Lemma updateConfigs_unusable (gen : DataNodeGenerator) (w : World) :
  (has_byte "/" (Repository (networkConfig gen)) = false ->
     updateConfigs P gen w = (Panic "index out of range", w)) /\
  (has_byte "/" (Repository (networkConfig gen)) = true ->
   Mode (userSettings gen) = StartFromNetworkHistory ->
     (BlockHash (LatestSnapshot (userSettings gen)) = "" ->
        updateConfigs P gen w
        = (Err (errorString
                  "cannot start vega from the network-history when latest snapshot is empty"),
           w)) /\
     (BlockHash (LatestSnapshot (userSettings gen)) <> "" ->
      forall err, Atoi (BlockHeight (LatestSnapshot (userSettings gen))) = inl err ->
        updateConfigs P gen w
        = (Err (wrapError "failed to convert trust block height from string to int: " err),
           w))).
Proof.
  split.
  - intros Hb. unfold updateConfigs, configKeySets, index, bind, ret, panic, Split.
    rewrite (Split_go_last _ _ Hb). reflexivity.
  - intros Hb Hmode. destruct (Split_go_two _ _ Hb "") as (a & b & l & Hs).
    unfold updateConfigs, configKeySets, index, bind, ret, fail, Split.
    rewrite Hs, Hmode. cbn [nth_error StartupMode_eqb]. split.
    + intros ->. reflexivity.
    + intros Hhash err Hatoi. rewrite (eqb_empty_false _ Hhash), Hatoi. reflexivity.
Qed.

(** The first eight steps of a run, when they all succeed, have made
    fifteen calls. *)
Lemma first_stages_calls (gen : DataNodeGenerator) (w w' : World) (b : binaries) :
  run_stages (take 8 (stages P gen)) (mkBinaries "" "" "") w = (Ok b, w') ->
  length (calls (run_stages (take 8 (stages P gen)) (mkBinaries "" "" "")) w) = 15%nat.
Proof.
  unfold calls, stages. cbn [take run_stages].
  unfold initNode, prepareVisorHome, copyBinaries.
  destruct (StartupMode_eqb (Mode (userSettings gen)) StartFromBlock0);
    unfold bind, wrap, call, os_Symlink, ret;
    cbv beta iota zeta delta [fst snd fs trace outputDir vegaBinaryPath visorBinaryPath];
    repeat
      (match goal with
       | |- context [extern P ?c ?f] => destruct (extern P c f) as [[?|?] ?]
       | |- context [@lookup string Node _ _ ?k ?m] =>
           destruct (@lookup string Node _ _ k m)
       end;
       cbv beta iota zeta delta [fst snd fs trace outputDir vegaBinaryPath visorBinaryPath]);
    intros H; first [discriminate H | rewrite <- ?app_assoc, drop_app_length; reflexivity].
Qed.

Lemma Run_after_first_stages (gen : DataNodeGenerator) (w w' : World) (b : binaries) :
  run_stages (take 8 (stages P gen)) (mkBinaries "" "" "") w = (Ok b, w') ->
  Run P gen w
  = match updateConfigs P gen w' with
    | (Ok _, w1) =>
        match downloadGenesis P gen w1 with
        | (Ok _, w2) => (Ok tt, w2)
        | (Err e, w2) => (Err (fmt_Errorf_w "failed to download genesis: " e), w2)
        | (Panic msg, w2) => (Panic msg, w2)
        end
    | (Err e, w1) => (Err (fmt_Errorf_w "failed to update config files for the node: " e), w1)
    | (Panic msg, w1) => (Panic msg, w1)
    end.
Proof.
  intros Hpre. rewrite Run_stages. unfold bind at 1.
  rewrite <- (take_drop 8 (stages P gen)) at 1.
  rewrite run_stages_app, Hpre. unfold stages. cbn [drop run_stages].
  unfold bind, wrap, ret.
  destruct (updateConfigs P gen w') as [[u|e|msg] w1]; try reflexivity.
  destruct (downloadGenesis P gen w1) as [[u'|e'|msg'] w2]; reflexivity.
Qed.

(** X12: a run can only succeed when the repository identifier has a
    slash, and, started from the network history, when the snapshot has a
    block hash and a block height that parses.  Nothing looks at this
    before the ninth step: the first eight steps are the same whatever the
    snapshot is, and when they have succeeded, with the staging directory,
    the downloads, the version checks, the initialisations, the run
    configuration, the copies and the link made in fifteen calls, a run
    with such settings stops in [updateConfigs], in the world those steps
    have left: with a panic when the slash is missing, with the error of
    the snapshot otherwise. *)
Theorem Run_success_needs (gen : DataNodeGenerator) (w : World) :
  (fst (Run P gen w) = Ok tt ->
     has_byte "/" (Repository (networkConfig gen)) = true /\
     (Mode (userSettings gen) = StartFromNetworkHistory ->
        BlockHash (LatestSnapshot (userSettings gen)) <> "" /\
        exists trustHeight,
          Atoi (BlockHeight (LatestSnapshot (userSettings gen))) = inr trustHeight)) /\
  (forall snapshot,
     take 8 (stages P (withSnapshot gen snapshot)) = take 8 (stages P gen)) /\
  (forall b w',
     run_stages (take 8 (stages P gen)) (mkBinaries "" "" "") w = (Ok b, w') ->
     length (calls (run_stages (take 8 (stages P gen)) (mkBinaries "" "" "")) w) = 15%nat /\
     (has_byte "/" (Repository (networkConfig gen)) = false ->
        Run P gen w = (Panic "index out of range", w')) /\
     (has_byte "/" (Repository (networkConfig gen)) = true ->
      Mode (userSettings gen) = StartFromNetworkHistory ->
        (BlockHash (LatestSnapshot (userSettings gen)) = "" ->
           Run P gen w
           = (Err (wrapError "failed to update config files for the node: "
                     (errorString
                        "cannot start vega from the network-history when latest snapshot is empty")),
              w')) /\
        (BlockHash (LatestSnapshot (userSettings gen)) <> "" ->
         forall err, Atoi (BlockHeight (LatestSnapshot (userSettings gen))) = inl err ->
           Run P gen w
           = (Err (wrapError "failed to update config files for the node: "
                     (wrapError
                        "failed to convert trust block height from string to int: " err)),
              w')))).
Proof.
  split; [|split].
  - intros Hrun.
    destruct (Run_calls_prefix gen w)
      as (n & o & vb & xb & c & dn & vc & tm & vv & _ & _ & Hk & Hok).
    rewrite (Hok Hrun) in Hk. specialize (Hk ltac:(lia)).
    destruct (configKeySets P gen w) as [r w'] eqn:E. simpl in Hk. subst r.
    apply configKeySets_inv in E
      as (_ & _ & owner & name & _ & H1 & _ & [(Hmode & _)|(_ & Hhash & h & Hatoi & _)]).
    + split; [exact (Split_second _ _ _ H1)|]. intros Hm. congruence.
    + split; [exact (Split_second _ _ _ H1)|]. intros _. eauto.
  - intros snapshot. reflexivity.
  - intros b w' Hpre. pose proof (Run_after_first_stages gen w w' b Hpre) as Hrun.
    destruct (updateConfigs_unusable gen w') as [Hpanic Hsnapshot].
    split; [exact (first_stages_calls gen w w' b Hpre)|]. split.
    + intros Hb. rewrite Hrun, (Hpanic Hb). reflexivity.
    + intros Hb Hmode. destruct (Hsnapshot Hb Hmode) as [Hhash Hheight]. split.
      * intros He. rewrite Hrun, (Hhash He). reflexivity.
      * intros Hne err Hatoi. rewrite Hrun, (Hheight Hne err Hatoi). reflexivity.
Qed.

End RunProperties.

(** ** The steps of a run *)

Section StepProperties.

Variable P : Platform.

Ltac step_call :=
  match goal with
  | |- context [extern P ?c ?f] => destruct (extern P c f) as [[?|?] ?]
  end; cbv beta iota zeta delta [fst snd fs trace].




(** X14: started from the network history, [updateConfigs] refuses a
    snapshot without block hash, and one whose block height does not parse,
    before it touches any document: it returns the error and the world is
    as it was. *)
Theorem updateConfigs_refuses_snapshot (gen : DataNodeGenerator) (w : World)
    (name : string) :
  nth_error (Split (Repository (networkConfig gen)) "/") 1 = Some name ->
  Mode (userSettings gen) = StartFromNetworkHistory ->
  (BlockHash (LatestSnapshot (userSettings gen)) = "" ->
     updateConfigs P gen w
     = (Err (errorString
               "cannot start vega from the network-history when latest snapshot is empty"),
        w)) /\
  (BlockHash (LatestSnapshot (userSettings gen)) <> "" ->
   forall err, Atoi (BlockHeight (LatestSnapshot (userSettings gen))) = inl err ->
     updateConfigs P gen w
     = (Err (wrapError "failed to convert trust block height from string to int: " err),
        w)).
Proof.
  intros H1 Hmode. destruct (nth_error_1_0 _ _ H1) as [owner H0].
  unfold updateConfigs, configKeySets, index, bind, ret, fail.
  rewrite H0, H1, Hmode. cbn [StartupMode_eqb]. split.
  - intros ->. reflexivity.
  - intros Hhash err Hatoi. rewrite (eqb_empty_false _ Hhash), Hatoi. reflexivity.
Qed.


(** X16: [updateConfigs] panics exactly when the repository identifier has
    no slash, and then before it touches any document. *)
Theorem updateConfigs_panics_without_slash (gen : DataNodeGenerator) (w : World) :
  (has_byte "/" (Repository (networkConfig gen)) = false <->
   exists msg, fst (updateConfigs P gen w) = Panic msg) /\
  (has_byte "/" (Repository (networkConfig gen)) = false ->
   updateConfigs P gen w = (Panic "index out of range", w)).
Proof.
  assert (Hno : has_byte "/" (Repository (networkConfig gen)) = false ->
                updateConfigs P gen w = (Panic "index out of range", w)).
  { intros Hb. unfold updateConfigs, configKeySets, index, bind, ret, panic, Split.
    rewrite (Split_go_last _ _ Hb). reflexivity. }
  split; [|exact Hno]. split.
  - intros Hb. rewrite (Hno Hb). eauto.
  - intros [msg Hp]. destruct (has_byte "/" (Repository (networkConfig gen))) eqn:Hb;
      [exfalso | reflexivity].
    destruct (Split_go_two _ _ Hb "") as (a & b & l & Hs).
    revert Hp. unfold updateConfigs, configKeySets, index, bind, ret, fail, panic, Split.
    rewrite Hs. cbn [nth_error].
    destruct (StartupMode_eqb (Mode (userSettings gen)) StartFromNetworkHistory);
      [destruct (String.eqb (BlockHash (LatestSnapshot (userSettings gen))) "");
        [discriminate|];
       destruct (Atoi (BlockHeight (LatestSnapshot (userSettings gen))));
         [discriminate|] |];
      unfold wrap, call; cbv beta iota zeta delta [fst snd fs trace];
      repeat step_call; discriminate.
Qed.

(** X17: the key set for the data-node has the SQL credentials of the
    settings as they are (the port as an integer) and the bootstrap peers
    of the network; it has the key AutoInitialiseFromNetworkHistory, set to
    true, exactly when the node starts from the network history.  The key
    set for the core is the same in both modes. *)
Theorem dataNode_key_set (gen : DataNodeGenerator) (w w' : World)
    (dn vc tm vv : gmap string Value) :
  configKeySets P gen w = (Ok (dn, vc, tm, vv), w') ->
  dn !! "SQLStore.ConnectionConfig.Host"
    = Some (VString (Host (SQLCredentials (userSettings gen)))) /\
  dn !! "SQLStore.ConnectionConfig.Port"
    = Some (VInt (Port (SQLCredentials (userSettings gen)))) /\
  dn !! "SQLStore.ConnectionConfig.Username"
    = Some (VString (User (SQLCredentials (userSettings gen)))) /\
  dn !! "SQLStore.ConnectionConfig.Password"
    = Some (VString (Pass (SQLCredentials (userSettings gen)))) /\
  dn !! "SQLStore.ConnectionConfig.Database"
    = Some (VString (DatabaseName (SQLCredentials (userSettings gen)))) /\
  dn !! "NetworkHistory.Store.BootstrapPeers"
    = Some (VStrings (BootstrapPeers (networkConfig gen))) /\
  dn !! "AutoInitialiseFromNetworkHistory"
    = (if StartupMode_eqb (Mode (userSettings gen)) StartFromNetworkHistory
       then Some (VBool true) else None) /\
  vc = vegaConfig.
Proof.
  intros Hk.
  apply configKeySets_inv in Hk
    as (_ & -> & owner & name & _ & _ & _ &
        [(Hmode & -> & _) | (Hmode & _ & h & _ & -> & _)]);
    rewrite Hmode; cbn [StartupMode_eqb]; unfold dataNodeConfig;
    repeat split;
    repeat (rewrite lookup_insert_ne by discriminate);
    first [apply lookup_insert_eq | apply lookup_empty].
Qed.

(** X18: the three ways [prepareVisorHome] fails.  When the directory
    cannot be made or the template cannot be filled the error names the
    step; when the run configuration cannot be written, the text in front of
    the error carries the content that was to be written, not the path of
    the file. *)
Theorem prepareVisorHome_errors (gen : DataNodeGenerator) (w : World) (e : error) :
  fst (prepareVisorHome P gen w) = Err e ->
  exists inner,
    (length (calls (prepareVisorHome P gen) w) = 1%nat /\
     e = wrapError "failed to make directory: " inner) \/
    (length (calls (prepareVisorHome P gen) w) = 2%nat /\
     e = wrapError "failed to generate run-config.toml from template: " inner) \/
    (exists path content,
       nth_error (calls (prepareVisorHome P gen) w) 2 = Some (OsWriteFile path content) /\
       e = wrapError ("failed to write run-config.toml in " +:+ content +:+ ": ") inner).
Proof.
  unfold calls, prepareVisorHome.
  destruct (StartupMode_eqb (Mode (userSettings gen)) StartFromBlock0);
    unfold bind, wrap, call, ret; cbv beta iota zeta delta [fst snd fs trace];
    repeat step_call; intros He; inversion He; subst; eexists;
    rewrite <- ?app_assoc; rewrite drop_app_length;
    first
      [ left; split; reflexivity
      | right; left; split; reflexivity
      | right; right; do 2 eexists; split; reflexivity ].
Qed.

End StepProperties.

(** ** The steps on the simulated machine *)

Lemma Run_success_needs_witness :
  (has_byte "/" "vegaprotocol/vega" = true /\
   (StartFromNetworkHistory = StartFromNetworkHistory ->
      "ABC" <> "" /\ exists trustHeight, Atoi "1000" = inr trustHeight)) /\
  fst (Run (sim_platform never) (sim_gen_snapshot "12a" "ABC") sim_world)
  = Err (wrapError "failed to update config files for the node: "
           (wrapError "failed to convert trust block height from string to int: "
              (NumError "Atoi" "12a" ErrSyntax))) /\
  length (trace (snd (Run (sim_platform never) (sim_gen_snapshot "12a" "ABC") sim_world)))
  = 15%nat.
Proof.
  split.
  - destruct (Run_success_needs (sim_platform never)
                (sim_gen StartFromNetworkHistory "vegaprotocol/vega") sim_world)
      as [Hneeds _].
    apply Hneeds. vm_compute. reflexivity.
  - destruct (Run_success_needs (sim_platform never) (sim_gen_snapshot "12a" "ABC")
                sim_world) as (_ & _ & Hlate).
    destruct (Hlate (mkBinaries "/tmp/vega-assistant0" "/tmp/vega-assistant0/vega"
                       "/tmp/vega-assistant0/visor")
                (snd (run_stages
                        (take 8 (stages (sim_platform never)
                                   (sim_gen_snapshot "12a" "ABC")))
                        (mkBinaries "" "" "") sim_world)))
      as (Hcalls & _ & Hsnapshot); [vm_compute; reflexivity|].
    destruct (Hsnapshot eq_refl eq_refl) as [_ Hheight].
    rewrite (Hheight ltac:(discriminate) _ eq_refl).
    split; [reflexivity | exact Hcalls].
Defined.

Lemma updateConfigs_refuses_snapshot_witness :
  updateConfigs (sim_platform never) (sim_gen_snapshot "1000" "") sim_world
  = (Err (errorString
            "cannot start vega from the network-history when latest snapshot is empty"),
     sim_world) /\
  updateConfigs (sim_platform never) (sim_gen_snapshot "12a" "ABC") sim_world
  = (Err (wrapError "failed to convert trust block height from string to int: "
            (NumError "Atoi" "12a" ErrSyntax)),
     sim_world).
Proof.
  destruct (updateConfigs_refuses_snapshot (sim_platform never)
              (sim_gen_snapshot "1000" "") sim_world "vega") as [Hhash _];
    [reflexivity | reflexivity |].
  destruct (updateConfigs_refuses_snapshot (sim_platform never)
              (sim_gen_snapshot "12a" "ABC") sim_world "vega") as [_ Hheight];
    [reflexivity | reflexivity |].
  split.
  - apply Hhash. reflexivity.
  - apply Hheight; [discriminate | reflexivity].
Defined.


Lemma dataNode_key_set_witness :
  dataNodeConfig (sim_gen StartFromBlock0 "vegaprotocol/vega")
    !! "SQLStore.ConnectionConfig.Port" = Some (VInt 5432) /\
  dataNodeConfig (sim_gen StartFromBlock0 "vegaprotocol/vega")
    !! "AutoInitialiseFromNetworkHistory" = None.
Proof.
  destruct (dataNode_key_set (sim_platform never)
              (sim_gen StartFromBlock0 "vegaprotocol/vega") sim_world sim_world
              (dataNodeConfig (sim_gen StartFromBlock0 "vegaprotocol/vega"))
              vegaConfig
              (tendermintConfig (sim_gen StartFromBlock0 "vegaprotocol/vega"))
              (vegavisorConfig (sim_platform never) "vegaprotocol" "vega"))
    as (_ & Hport & _ & _ & _ & _ & Hauto & _); [reflexivity|].
  split; [exact Hport | exact Hauto].
Defined.

Lemma prepareVisorHome_errors_witness :
  exists inner,
    (length (calls (prepareVisorHome (sim_platform breaks_write)
                      (sim_gen StartFromBlock0 "vegaprotocol/vega")) sim_world) = 1%nat /\
     wrapError "failed to write run-config.toml in run-config genesis: "
       (errorString "simulated failure")
     = wrapError "failed to make directory: " inner) \/
    (length (calls (prepareVisorHome (sim_platform breaks_write)
                      (sim_gen StartFromBlock0 "vegaprotocol/vega")) sim_world) = 2%nat /\
     wrapError "failed to write run-config.toml in run-config genesis: "
       (errorString "simulated failure")
     = wrapError "failed to generate run-config.toml from template: " inner) \/
    (exists path content,
       nth_error (calls (prepareVisorHome (sim_platform breaks_write)
                           (sim_gen StartFromBlock0 "vegaprotocol/vega")) sim_world) 2
       = Some (OsWriteFile path content) /\
       wrapError "failed to write run-config.toml in run-config genesis: "
         (errorString "simulated failure")
       = wrapError ("failed to write run-config.toml in " +:+ content +:+ ": ") inner).
Proof.
  apply (prepareVisorHome_errors (sim_platform breaks_write)
           (sim_gen StartFromBlock0 "vegaprotocol/vega") sim_world).
  vm_compute. reflexivity.
Defined.
